(** * ChatBotBE: the indexing and retrieval core of [rag_model/rag_utils.py]

    A shallow embedding of the multi-tenant RAG backend.  The Python
    functions talk to external collaborators (SQS, S3, the S3 Vectors
    service, the Bedrock embedding and chat models, HTTP); they are
    embedded in a state-and-exception monad over a [world] that holds the
    trace of the external calls made so far and the state of those
    collaborators.  The collaborators themselves are a record of
    operations ([Services]); the theorems about error handling hold for
    every such record, and an in-memory instance ([Cloud]) gives the
    service the behaviour the code relies on (metadata filter, result
    pages with a continuation token).

    Conventions:
    - a Python [str] is its sequence of code points, restricted to code
      points below 256, one [ascii] per code point;
    - a Python [int] is a [Z]; [str(n)] is the decimal numeral;
    - [print] only writes to standard output and is left out.

    After the core, the file embeds the URL registry's writer
    ([s3_append_url]), the Lambda handler of
    [lambda_s3_event_handler.py], [clean_query] and the ranking of
    [analyze_user_questions] in [rag_model/chat_data_utils.py], and the
    message splitting of [main.py], and states further properties of
    all of them. *)

From Stdlib Require Import ZArith Lia Bool String Ascii.
From Stdlib Require Import DecimalString DecimalZ DecimalN DecimalPos Floats.
From stdpp Require Import gmap strings list.

Open Scope string_scope.
Open Scope list_scope.

(* ================================================================== *)
(** * Python string operations *)
(* ================================================================== *)

Module Py.

(** [str.isspace] on one code point below 256: TAB, LF, VT, FF, CR,
    FS, GS, RS, US, SPACE, NEL and NBSP. *)
Definition is_space (c : ascii) : bool :=
  let n := nat_of_ascii c in
  (((9 <=? n) && (n <=? 13)) || ((28 <=? n) && (n <=? 32))
   || (n =? 133) || (n =? 160))%nat.

(** The line boundaries of [str.splitlines]: LF, VT, FF, CR, FS, GS,
    RS and NEL (the pair CR LF is one boundary). *)
Definition is_linebreak (c : ascii) : bool :=
  let n := nat_of_ascii c in
  (((10 <=? n) && (n <=? 13)) || ((28 <=? n) && (n <=? 30))
   || (n =? 133))%nat.

Definition is_cr (c : ascii) : bool := (nat_of_ascii c =? 13)%nat.
Definition is_lf (c : ascii) : bool := (nat_of_ascii c =? 10)%nat.

(** [str.lower] on one code point below 256: [A-Z] and the Latin-1
    capitals U+00C0..U+00DE (without the multiplication sign U+00D7). *)
Definition lower_char (c : ascii) : ascii :=
  let n := nat_of_ascii c in
  if (((65 <=? n) && (n <=? 90))
      || ((192 <=? n) && (n <=? 222) && negb (n =? 215)))%nat
  then ascii_of_nat (n + 32) else c.

Fixpoint lower (s : string) : string :=
  match s with
  | EmptyString => EmptyString
  | String c r => String (lower_char c) (lower r)
  end.

Fixpoint lstrip (s : string) : string :=
  match s with
  | EmptyString => EmptyString
  | String c r => if is_space c then lstrip r else s
  end.

Fixpoint rstrip (s : string) : string :=
  match s with
  | EmptyString => EmptyString
  | String c r =>
      match rstrip r with
      | EmptyString => if is_space c then EmptyString else String c EmptyString
      | r' => String c r'
      end
  end.

(** [s.strip()] *)
Definition strip (s : string) : string := rstrip (lstrip s).

(** Truth value of a [str]: non-empty. *)
Definition truthy (s : string) : bool :=
  match s with EmptyString => false | _ => true end.

(** [s.splitlines()]: [line] is the line read so far, [after_cr] says
    that the previous code point was CR (a following LF belongs to it). *)
Fixpoint splitlines_from (after_cr : bool) (line s : string) : list string :=
  match s with
  | EmptyString => if truthy line then [line] else []
  | String c r =>
      if after_cr && is_lf c then splitlines_from false line r
      else if is_linebreak c then line :: splitlines_from (is_cr c) EmptyString r
      else splitlines_from false (line ++ String c EmptyString) r
  end.

Definition splitlines (s : string) : list string :=
  splitlines_from false EmptyString s.

(** [s[:n]] for [n >= 0] *)
Definition prefix (n : nat) (s : string) : string := substring 0 n s.

Fixpoint rev_string (acc s : string) : string :=
  match s with
  | EmptyString => acc
  | String c r => rev_string (String c acc) r
  end.

(** [s.endswith(suffix)] *)
Definition endswith (s suffix : string) : bool :=
  String.prefix (rev_string EmptyString suffix) (rev_string EmptyString s).

(** [os.path.basename]: what follows the last slash. *)
Fixpoint basename_from (cur s : string) : string :=
  match s with
  | EmptyString => cur
  | String c r =>
      if Ascii.eqb c "/" then basename_from EmptyString r
      else basename_from (cur ++ String c EmptyString) r
  end.

Definition basename (path : string) : string := basename_from EmptyString path.

(** [os.path.splitext(filename)[1]] for a name without slash: from the
    last dot on, unless only dots precede it. *)
Fixpoint ext_from (seen_nondot : bool) (ext s : string) : string :=
  match s with
  | EmptyString => ext
  | String c r =>
      if Ascii.eqb c "."
      then ext_from seen_nondot (if seen_nondot then s else EmptyString) r
      else ext_from true ext r
  end.

Definition splitext_ext (filename : string) : string :=
  ext_from false EmptyString filename.

(** [os.path.join(dir, name)] *)
Definition path_join (dir name : string) : string :=
  if String.prefix "/" name then name
  else if truthy dir && negb (endswith dir "/") then dir ++ "/" ++ name
  else dir ++ name.

(** [re.sub(r'\s+', ' ', text)]: every run of whitespace becomes one
    space. *)
Fixpoint collapse_spaces (in_run : bool) (s : string) : string :=
  match s with
  | EmptyString => EmptyString
  | String c r =>
      if is_space c
      then if in_run then collapse_spaces true r
           else String " " (collapse_spaces true r)
      else String c (collapse_spaces false r)
  end.

(** [str(n)] for an [int] *)
Definition str_of_int (z : Z) : string :=
  NilZero.string_of_int (Z.to_int z).

End Py.

(* ================================================================== *)
(** * Data model *)
(* ================================================================== *)

(** A metadata value: what the code stores is always a [str]; the other
    cases are what a loader or the vector service may hand back. *)
Inductive pyval : Type :=
| PStr (s : string)
| PInt (z : Z)
| PFloat (f : float).

(** [langchain_core.documents.Document] *)
Record Document : Type := mkDocument {
  page_content : string;
  metadata : gmap string pyval
}.

(** One entry of the [vectors] argument of [put_vectors]. *)
Record VectorRecord : Type := mkVectorRecord {
  key : string;
  data : list float;
  vmetadata : gmap string pyval
}.

(** A metadata filter with one key: [{k: v}] or [{k: {op: v}}]. *)
Inductive filter_cond : Type :=
| FValue (v : string)
| FOperator (op v : string).

Record query_args : Type := mkQueryArgs {
  queryVector : list float;
  topK : Z;
  filter : string * filter_cond;
  returnMetadata : bool;
  returnDistance : bool;
  nextToken : option string
}.

(** One element of the [vectors] list of a [query_vectors] response. *)
Record hit : Type := mkHit {
  hit_key : string;
  hit_metadata : option (gmap string pyval);
  hit_distance : option float
}.

Record query_response : Type := mkQueryResponse {
  resp_vectors : option (list hit);
  resp_nextToken : option string
}.

Record index_spec : Type := mkIndexSpec {
  dataType : string;
  dimension : Z;
  distanceMetric : string;
  nonFilterableMetadataKeys : list string
}.

Record sqs_message : Type := mkSqsMessage {
  QueueUrl : string;
  MessageBody : string;
  MessageGroupId : string;
  MessageDeduplicationId : string
}.

(** A prior turn of the conversation. *)
Inductive message : Type :=
| HumanMessage (content : string)
| AIMessage (content : string).

(** A value read by [json.load]. *)
#[warnings="-register-all"]
Inductive json : Type :=
| JNull
| JBool (b : bool)
| JNumber (literal : string)
| JStr (s : string)
| JArray (items : list json)
| JObject (fields : gmap string json).

(** The dict [answer_question_modern] returns. *)
Record answer_dict : Type := mkAnswer {
  answer : string;
  sources : list pyval
}.

(** The exceptions the code can meet; all are subclasses of [Exception].
    A [ClientError] carries [e.response['Error']['Code']]. *)
Inductive exn : Type :=
| ClientError (code : string)
| NameError (name : string)
| AttributeError (what : string)
| OtherException (what : string).

(** What an external call answers. *)
Inductive reply (A : Type) : Type :=
| Return (a : A)
| Throw (e : exn).
Arguments Return {A} a.
Arguments Throw {A} e.

(** What a run of the code yields; [Diverge] is a [while True] loop that
    has not left within the given number of iterations. *)
Inductive outcome (A : Type) : Type :=
| Ok (a : A)
| Raise (e : exn)
| Diverge.
Arguments Ok {A} a.
Arguments Raise {A} e.
Arguments Diverge {A}.

(** The external calls, as the trace records them.  The calls to the
    vector service all name the one bucket and the one index of the
    deployment; the trace leaves the two names out. *)
Inductive event : Type :=
| EvSendMessage (m : sqs_message)
| EvGetObject (object_key : string)
| EvListObjects (object_prefix : string)
| EvDownloadFile (object_key local_path : string)
| EvLoad (extension local_path : string)
| EvHttpGet (url : string)
| EvMkdtemp
| EvRmtree (path : string)
| EvEmbedDocuments (texts : list string)
| EvEmbedQuery (text : string)
| EvListVectorBuckets
| EvCreateVectorBucket (name : string)
| EvPutVectors (vectors : list VectorRecord)
| EvDeleteVectors (keys : list string)
| EvCreateIndex (spec : index_spec)
| EvQueryVectors (args : query_args)
| EvChat (history : list message) (context : list Document) (input : string).

(** The external collaborators over their own state [X]. *)
Record Services (X : Type) : Type := mkServices {
  (* sqs *)
  send_message : sqs_message -> X -> reply unit * X;
  (* uuid.uuid4(), as a string *)
  uuid4 : X -> string * X;
  (* s3_client, on the bucket S3_BUCKET_NAME; an object body is given
     decoded, a listing as the key lists of its pages *)
  get_object : string -> X -> reply string * X;
  list_objects_v2 : string -> X -> reply (list (list string)) * X;
  download_file : string -> string -> X -> reply unit * X;
  (* the langchain loader chosen by extension, [loader(path).load()] *)
  load : string -> string -> X -> reply (list Document) * X;
  (* httpx.get: status code and text *)
  http_get : string -> X -> reply (Z * string) * X;
  (* the scheduler of a ThreadPoolExecutor: the order in which the tasks
     of a pool run, as positions in the list of the tasks submitted *)
  pool_order : nat -> X -> list nat * X;
  (* BeautifulSoup: the text left after dropping script, style, nav,
     footer and header, joined with spaces *)
  soup_text : string -> string;
  (* RecursiveCharacterTextSplitter(1000, 150).split_documents *)
  split_documents : list Document -> list Document;
  (* tempfile.mkdtemp and shutil.rmtree(path, ignore_errors=True) *)
  mkdtemp : X -> reply string * X;
  rmtree : string -> X -> X;
  (* BedrockEmbeddings *)
  embed_documents : list string -> X -> reply (list (list float)) * X;
  embed_query : string -> X -> reply (list float) * X;
  (* s3vectors_client *)
  list_vector_buckets : X -> reply (list string) * X;
  create_vector_bucket : string -> X -> reply unit * X;
  put_vectors : list VectorRecord -> X -> reply unit * X;
  delete_vectors : list string -> X -> reply unit * X;
  create_index : index_spec -> X -> reply unit * X;
  query_vectors : query_args -> X -> reply query_response * X;
  (* the retrieval chain's generation step: ChatBedrock on the prompt
     made of history, retrieved context and input *)
  chat : list message -> list Document -> string -> X -> reply string * X;
  (* str() of a JSON value that is not a string *)
  str_of_json : json -> string
}.

Arguments send_message {X} s.
Arguments uuid4 {X} s.
Arguments get_object {X} s.
Arguments list_objects_v2 {X} s.
Arguments download_file {X} s.
Arguments load {X} s.
Arguments http_get {X} s.
Arguments pool_order {X} s.
Arguments soup_text {X} s.
Arguments split_documents {X} s.
Arguments mkdtemp {X} s.
Arguments rmtree {X} s.
Arguments embed_documents {X} s.
Arguments embed_query {X} s.
Arguments list_vector_buckets {X} s.
Arguments create_vector_bucket {X} s.
Arguments put_vectors {X} s.
Arguments delete_vectors {X} s.
Arguments create_index {X} s.
Arguments query_vectors {X} s.
Arguments chat {X} s.
Arguments str_of_json {X} s.

(** The names [rag_utils.py] uses without binding them, and whether the
    module's namespace has them when the function runs. *)
Record namespace : Type := mkNamespace {
  has_tempfile : bool;
  has_shutil : bool;
  is_valid_url : option (string -> bool)
}.

(** The module as it is: the import block (lines 1-26) has neither
    [tempfile] nor [shutil], and the definition of [is_valid_url]
    (lines 103-108) is commented out. *)
Definition rag_utils_namespace : namespace :=
  {| has_tempfile := false; has_shutil := false; is_valid_url := None |}.

(** The module as it would be with the two imports and with a
    definition [valid] of [is_valid_url]. *)
Definition bound_namespace (valid : string -> bool) : namespace :=
  {| has_tempfile := true; has_shutil := true; is_valid_url := Some valid |}.

(** The module constants that depend on the process environment, and the
    table read from [fixed_responses.json] at import. *)
Record config : Type := mkConfig {
  S3_VECTORS_BUCKET_NAME : string;
  S3_VECTORS_INDEX_NAME : string;
  S3_BUCKET_NAME : string;
  FIXED_RESPONSES : gmap string json
}.

Definition S3_PREFIX_KNOWLEDGE : string := "knowledge_base".
Definition TENANT_ID_KEY : string := "tenant_id".
Definition SOURCE_KEY : string := "source".
Definition CONTENT_PREVIEW_KEY : string := "content_preview".
Definition INDEXING_QUEUE_URL : string :=
  "https://sqs.ap-south-1.amazonaws.com/068733247141/RagLambdaIndexing.fifo".

(* ================================================================== *)
(** * The monad of the embedded code *)
(* ================================================================== *)

Record world (X : Type) : Type := mkWorld {
  trace : list event;
  ext : X
}.
Arguments mkWorld {X} trace ext.
Arguments trace {X} w.
Arguments ext {X} w.

Definition M (X A : Type) : Type := world X -> outcome A * world X.

Definition ret {X A} (a : A) : M X A := fun w => (Ok a, w).

Definition bind {X A B} (m : M X A) (k : A -> M X B) : M X B :=
  fun w =>
    match m w with
    | (Ok a, w') => k a w'
    | (Raise e, w') => (Raise e, w')
    | (Diverge, w') => (Diverge, w')
    end.

Definition raise {X A} (e : exn) : M X A := fun w => (Raise e, w).

Definition diverge {X A} : M X A := fun w => (Diverge, w).

(** [try: m  except <handler>]: the handler sees every exception and
    re-raises the ones its clause does not name. *)
Definition try_except {X A} (m : M X A) (handler : exn -> M X A) : M X A :=
  fun w =>
    match m w with
    | (Raise e, w') => handler e w'
    | r => r
    end.

(** [try: m  finally: fin] *)
Definition try_finally {X A} (m : M X A) (fin : M X unit) : M X A :=
  fun w =>
    let (r, w1) := m w in
    match fin w1 with
    | (Ok _, w2) => (r, w2)
    | (Raise e, w2) => (Raise e, w2)
    | (Diverge, w2) => (Diverge, w2)
    end.

(** An external call: recorded in the trace, answered by the service. *)
Definition call {X A} (ev : event) (op : X -> reply A * X) : M X A :=
  fun w =>
    let (r, x') := op (ext w) in
    (match r with Return a => Ok a | Throw e => Raise e end,
     mkWorld (trace w ++ [ev]) x').

(** A computation that reads the collaborators' randomness or scratch
    state without being an external call. *)
Definition local {X A} (op : X -> A * X) : M X A :=
  fun w => let (a, x') := op (ext w) in (Ok a, mkWorld (trace w) x').

(** Looking up a module-level name that may be unbound. *)
Definition global {X} (bound : bool) (name : string) : M X unit :=
  if bound then ret tt else raise (NameError name).

Notation "x <- m ;; k" := (bind m (fun x => k))
  (at level 100, m at next level, k at level 200, right associativity,
   only parsing).
Notation "m ;;; k" := (bind m (fun _ => k))
  (at level 100, k at level 200, right associativity, only parsing).

Fixpoint for_each {X A} (l : list A) (body : A -> M X unit) : M X unit :=
  match l with
  | [] => ret tt
  | a :: l' => body a ;;; for_each l' body
  end.

Definition code_in (code : string) (codes : list string) : bool :=
  existsb (String.eqb code) codes.

Definition nonempty {A} (l : list A) : bool :=
  match l with [] => false | _ => true end.

(** Truth value of an optional [str] ([None] and [''] are false). *)
Definition token_truthy (t : option string) : bool :=
  match t with Some s => Py.truthy s | None => false end.

Definition dquote : string := String (ascii_of_nat 34) EmptyString.

(* ================================================================== *)
(** * rag_utils.py *)
(* ================================================================== *)

Section RagUtils.

Context {X : Type}.
Variable sv : Services X.
Variable ns : namespace.
Variable cfg : config.

(** ** Re-index signal (lines 61-71) *)

(** [json.dumps({"tenant_id": tenant_id})] *)
Definition reindex_body (tenant_id : Z) : string :=
  "{" ++ dquote ++ "tenant_id" ++ dquote ++ ": "
      ++ Py.str_of_int tenant_id ++ "}".

Definition reindex_message (tenant_id : Z) (dedup : string) : sqs_message :=
  {| QueueUrl := INDEXING_QUEUE_URL;
     MessageBody := reindex_body tenant_id;
     MessageGroupId := "reindexing";
     MessageDeduplicationId := dedup |}.

Definition trigger_reindexing (tenant_id : Z) : M X unit :=
  try_except
    (dedup <- local (uuid4 sv) ;;
     let m := reindex_message tenant_id dedup in
     call (EvSendMessage m) (send_message sv m))
    (fun e => ret tt) (* except Exception: print *).

(** ** Crawler (lines 110-136) *)

Definition clean_text (text : string) : string :=
  Py.strip (Py.collapse_spaces false text).

Definition fetch_url_content (url : string) : M X (option Document) :=
  try_except
    (resp <- call (EvHttpGet url) (http_get sv url) ;;
     let '(status_code, body) := resp in
     if negb (status_code =? 200)%Z then ret None
     else
       let text := clean_text (soup_text sv body) in
       if (String.length text <? 150)%nat then ret None
       else ret (Some (mkDocument (Py.prefix (N.to_nat 15000) text)
                                  {[ "source" := PStr url ]})))
    (fun e => ret None) (* except Exception: print *).

(** The order in which a pool runs its [n] tasks, read from what the
    scheduler names: the positions below [n] it names, each once, then
    the tasks it does not name, in the order of submission. *)
Definition schedule (n : nat) (named : list nat) : list nat :=
  let first :=
    List.nodup Nat.eq_dec (List.filter (fun i => (i <? n)%nat) named) in
  first ++ List.filter (fun i => negb (existsb (Nat.eqb i) first)) (seq 0 n).

(** The tasks of the pool, run in the given order; the result of each
    is kept with the position of its URL. *)
Fixpoint run_fetches (urls : list string) (order : list nat)
  : M X (list (nat * option Document)) :=
  match order with
  | [] => ret []
  | i :: rest =>
      doc <- match urls !! i with
             | Some url => fetch_url_content url
             | None => ret None
             end ;;
      results <- run_fetches urls rest ;;
      ret ((i, doc) :: results)
  end.

(** The result of the task at position [i]. *)
Definition result_at (results : list (nat * option Document)) (i : nat)
  : option Document :=
  match List.find (fun r => (fst r =? i)%nat) results with
  | Some (_, doc) => doc
  | None => None
  end.

(** [crawl_urls_lightweight] (lines 130-136).  The pool of ten workers
    runs the fetches concurrently, so the order of their requests is the
    scheduler's and not the order of [urls]; [executor.map] yields the
    results in the order of [urls].  A fetch makes one request, so a run
    of the pool is the fetches one after the other in the scheduler's
    order.  Every order is allowed, also one that ten workers cannot
    produce. *)
Definition crawl_urls_lightweight (urls : list string) : M X (list Document) :=
  named <- local (pool_order sv (length urls)) ;;
  results <- run_fetches urls (schedule (length urls) named) ;;
  ret (omap (result_at results) (seq 0 (length urls))).

(** ** S3 helpers (lines 141-158) *)

Definition tenant_prefix (tenant_id : Z) : string :=
  S3_PREFIX_KNOWLEDGE ++ "/" ++ Py.str_of_int tenant_id ++ "/".

Definition urls_key (tenant_id : Z) : string :=
  S3_PREFIX_KNOWLEDGE ++ "/" ++ Py.str_of_int tenant_id ++ "/urls.txt".

Definition s3_list_tenant_files (tenant_id : Z) : M X (list string) :=
  let prefix := tenant_prefix tenant_id in
  pages <- call (EvListObjects prefix) (list_objects_v2 sv prefix) ;;
  ret (List.filter (fun k => negb (Py.endswith k "/urls.txt")) (concat pages)).

(** The comprehension of line 156:
    [[line.strip() for line in lines
      if line.strip() and is_valid_url(line.strip())]]. *)
Fixpoint valid_url_lines (lines : list string) : M X (list string) :=
  match lines with
  | [] => ret []
  | line :: rest =>
      keep <- (if Py.truthy (Py.strip line)
               then match is_valid_url ns with
                    | Some valid => ret (valid (Py.strip line))
                    | None => raise (NameError "is_valid_url")
                    end
               else ret false) ;;
      tail <- valid_url_lines rest ;;
      ret (if keep : bool then Py.strip line :: tail else tail)
  end.

Definition s3_load_urls_from_file (tenant_id : Z) : M X (list string) :=
  try_except
    (let k := urls_key tenant_id in
     content <- call (EvGetObject k) (get_object sv k) ;;
     valid_url_lines (Py.splitlines content))
    (fun e => match e with
              | ClientError _ => ret []
              | _ => raise e
              end).

(** ** Vector index (lines 163-264) *)

Definition ping_record : VectorRecord :=
  {| key := "ping";
     data := repeat 0%float 1024;
     vmetadata := {[ "tenant_id" := PStr "0" ]} |}.

Definition tenant_index_spec : index_spec :=
  {| dataType := "float32";
     dimension := 1024;
     distanceMetric := "cosine";
     nonFilterableMetadataKeys := ["internal_id"] |}.

(** The inner [try] of [ensure_vector_index] (lines 173-192): [true]
    when it left through [return]. *)
Definition probe_index : M X bool :=
  try_except
    (call (EvPutVectors [ping_record]) (put_vectors sv [ping_record]) ;;;
     call (EvDeleteVectors ["ping"]) (delete_vectors sv ["ping"]) ;;;
     ret true)
    (fun e => match e with
              | ClientError code =>
                  if negb (code_in code ["NotFoundException"; "ValidationException"])
                  then raise e
                  else ret false
              | _ => raise e
              end).

(** Step 1 (lines 167-170): create the bucket unless it is listed. *)
Definition ensure_bucket : M X unit :=
  buckets <- call EvListVectorBuckets (list_vector_buckets sv) ;;
  if negb (existsb (String.eqb (S3_VECTORS_BUCKET_NAME cfg)) buckets)
  then call (EvCreateVectorBucket (S3_VECTORS_BUCKET_NAME cfg))
            (create_vector_bucket sv (S3_VECTORS_BUCKET_NAME cfg))
  else ret tt.

(** The outer [except ClientError] (lines 208-215). *)
Definition tolerate_conflict (e : exn) : M X unit :=
  match e with
  | ClientError error_code =>
      if code_in error_code ["ConflictException"; "ResourceInUseException"]
      then ret tt
      else raise e
  | _ => raise e
  end.

Definition ensure_vector_index : M X unit :=
  try_except
    (ensure_bucket ;;;
     ready <- probe_index ;;
     if ready : bool then ret tt
     else call (EvCreateIndex tenant_index_spec)
               (create_index sv tenant_index_spec))
    tolerate_conflict.

Definition scan_query_kwargs (tenant_id : Z) (next_token : option string)
  : query_args :=
  {| queryVector := repeat 0%float 1024;
     topK := 30;
     filter := (TENANT_ID_KEY, FOperator "eq" (Py.str_of_int tenant_id));
     returnMetadata := false;
     returnDistance := false;
     nextToken := if token_truthy next_token then next_token else None |}.

(** The [while True] loop of lines 225-243; [fuel] bounds the number
    of iterations. *)
Fixpoint scan_tenant_keys (fuel : nat) (tenant_id : Z)
    (keys_to_delete : list string) (next_token : option string)
  : M X (list string) :=
  match fuel with
  | O => diverge
  | S fuel' =>
      let query_kwargs := scan_query_kwargs tenant_id next_token in
      resp <- call (EvQueryVectors query_kwargs)
                   (query_vectors sv query_kwargs) ;;
      let batch_keys := map hit_key (default [] (resp_vectors resp)) in
      let keys_to_delete := keys_to_delete ++ batch_keys in
      let next_token := resp_nextToken resp in
      if negb (token_truthy next_token) then ret keys_to_delete
      else scan_tenant_keys fuel' tenant_id keys_to_delete next_token
  end.

(** [range(0, n, 100)] *)
Definition batch_starts (n : nat) : list nat :=
  map (fun j => j * 100)%nat (seq 0 ((n + 99) / 100)).

(** [keys_to_delete[i:i+100]] *)
Definition batch_at (keys_to_delete : list string) (i : nat) : list string :=
  take 100 (drop i keys_to_delete).

(** The body of the [try] (lines 220-256). *)
Definition scan_and_delete (fuel : nat) (tenant_id : Z) : M X unit :=
  keys_to_delete <- scan_tenant_keys fuel tenant_id [] None ;;
  if nonempty keys_to_delete
  then for_each (batch_starts (length keys_to_delete))
         (fun i =>
            let batch := batch_at keys_to_delete i in
            call (EvDeleteVectors batch) (delete_vectors sv batch))
  else ret tt.

Definition delete_tenant_vectors (fuel : nat) (tenant_id : Z) : M X unit :=
  try_except
    (scan_and_delete fuel tenant_id)
    (fun e => match e with
              | ClientError error_code =>
                  if code_in error_code
                       ["ResourceNotFoundException"; "ValidationException"]
                  then ret tt (* print: index not ready, skipping delete *)
                  else ret tt (* print: delete failed; the comment says
                                 "Don't crash indexing - continue" *)
              | _ => raise e
              end).

(** ** Re-indexing (lines 266-353) *)

Definition supported_extensions : list string :=
  [".pdf"; ".csv"; ".txt"; ".docx"; ".json"].

Definition file_source (object_key : string) : string :=
  "s3://" ++ S3_BUCKET_NAME cfg ++ "/" ++ object_key.

(** [doc.metadata.update({"source": ..., "tenant_id": str(tenant_id)})] *)
Definition tag_file_doc (tenant_id : Z) (object_key : string) (doc : Document)
  : Document :=
  mkDocument (page_content doc)
    (<[ "tenant_id" := PStr (Py.str_of_int tenant_id) ]>
       (<[ "source" := PStr (file_source object_key) ]> (metadata doc))).

(** One turn of the loop over the listed keys (lines 276-299): the
    documents it adds to [all_docs]. *)
Definition load_tenant_file (tenant_id : Z) (temp_dir object_key : string)
  : M X (list Document) :=
  let filename := Py.basename object_key in
  let ext := Py.lower (Py.splitext_ext filename) in
  if negb (code_in ext supported_extensions) then ret [] (* continue *)
  else
    let local_path := Py.path_join temp_dir filename in
    call (EvDownloadFile object_key local_path)
         (download_file sv object_key local_path) ;;;
    docs <- call (EvLoad ext local_path) (load sv ext local_path) ;;
    ret (map (tag_file_doc tenant_id object_key) docs).

Fixpoint load_tenant_files (tenant_id : Z) (temp_dir : string)
    (object_keys : list string) : M X (list Document) :=
  match object_keys with
  | [] => ret []
  | k :: rest =>
      docs <- load_tenant_file tenant_id temp_dir k ;;
      more <- load_tenant_files tenant_id temp_dir rest ;;
      ret (docs ++ more)
  end.

(** The record built at lines 323-331. *)
Definition vector_record (tenant_id : Z) (uuid : string) (vec : list float)
    (chunk : Document) : VectorRecord :=
  {| key := uuid;
     data := vec;
     vmetadata :=
       {[ TENANT_ID_KEY := PStr (Py.str_of_int tenant_id);
          SOURCE_KEY := default (PStr "unknown") (metadata chunk !! "source");
          CONTENT_PREVIEW_KEY := PStr (Py.prefix 500 (page_content chunk)) ]} |}.

Definition batch_size : nat := 500.

(** The upload loop (lines 319-347): [payload] and [total] are the
    loop's two variables, the result is the final [total]. *)
Fixpoint upload_in_batches (tenant_id : Z)
    (pairs : list (list float * Document))
    (payload : list VectorRecord) (total : nat) : M X nat :=
  match pairs with
  | [] =>
      if nonempty payload
      then call (EvPutVectors payload) (put_vectors sv payload) ;;;
           ret (total + length payload)%nat
      else ret total
  | (vec, chunk) :: rest =>
      uuid <- local (uuid4 sv) ;;
      let payload := payload ++ [vector_record tenant_id uuid vec chunk] in
      if (batch_size <=? length payload)%nat
      then call (EvPutVectors payload) (put_vectors sv payload) ;;;
           upload_in_batches tenant_id rest [] (total + length payload)%nat
      else upload_in_batches tenant_id rest payload total
  end.

(** The body of the [try] (lines 275-347). *)
Definition index_documents (tenant_id : Z)
    (additional_urls : option (list string)) (temp_dir : string) : M X nat :=
  object_keys <- s3_list_tenant_files tenant_id ;;
  file_docs <- load_tenant_files tenant_id temp_dir object_keys ;;
  urls <- s3_load_urls_from_file tenant_id ;;
  let urls :=
    match additional_urls with
    | Some extra => if nonempty extra then urls ++ extra else urls
    | None => urls
    end in
  url_docs <- (if nonempty urls then crawl_urls_lightweight urls else ret []) ;;
  let all_docs := file_docs ++ url_docs in
  let chunks := split_documents sv all_docs in
  if negb (nonempty chunks) then ret 0%nat
  else
    let texts := map page_content chunks in
    vectors <- call (EvEmbedDocuments texts) (embed_documents sv texts) ;;
    upload_in_batches tenant_id (zip vectors chunks) [] 0.

Definition index_tenant_files (fuel : nat) (tenant_id : Z)
    (additional_urls : option (list string)) : M X nat :=
  ensure_vector_index ;;;
  delete_tenant_vectors fuel tenant_id ;;;
  global (has_tempfile ns) "tempfile" ;;;
  temp_dir <- call EvMkdtemp (mkdtemp sv) ;;
  try_finally
    (index_documents tenant_id additional_urls temp_dir)
    (global (has_shutil ns) "shutil" ;;;
     call (EvRmtree temp_dir) (fun x => (Return tt, rmtree sv temp_dir x))).

(** ** Retrieval (lines 355-389) *)

Definition retrieve_query_args (q_vec : list float) (tenant_id top_k : Z)
  : query_args :=
  {| queryVector := q_vec;
     topK := top_k;
     filter := (TENANT_ID_KEY, FValue (Py.str_of_int tenant_id));
     returnMetadata := true;
     returnDistance := true;
     nextToken := None |}.

(** One turn of the loop of lines 379-388: the document a hit gives,
    [None] for [continue]. *)
Definition document_of_hit (v : hit) : M X (option Document) :=
  let meta := default ∅ (hit_metadata v) in
  match default (PStr "") (meta !! CONTENT_PREVIEW_KEY) with
  | PStr preview =>
      let content := Py.strip preview in
      if negb (Py.truthy content) then ret None
      else
        let doc_meta : gmap string pyval :=
          {[ "source" := default (PStr "S3 Vectors") (meta !! SOURCE_KEY) ]} in
        let doc_meta :=
          match hit_distance v with
          | Some d => <[ "similarity_score" := PFloat d ]> doc_meta
          | None => doc_meta
          end in
        ret (Some (mkDocument content doc_meta))
  | _ => raise (AttributeError "strip")
  end.

Fixpoint documents_of_hits (vs : list hit) : M X (list Document) :=
  match vs with
  | [] => ret []
  | v :: rest =>
      doc <- document_of_hit v ;;
      docs <- documents_of_hits rest ;;
      ret (match doc with Some d => d :: docs | None => docs end)
  end.

Definition retrieve_s3_vectors (query : string) (tenant_id top_k : Z)
  : M X (list Document) :=
  ensure_vector_index ;;;
  q_vec <- call (EvEmbedQuery query) (embed_query sv query) ;;
  let args := retrieve_query_args q_vec tenant_id top_k in
  resp <- try_except
            (r <- call (EvQueryVectors args) (query_vectors sv args) ;;
             ret (Some r))
            (fun e => match e with
                      | ClientError error_code =>
                          if String.eqb error_code "ResourceNotFoundException"
                          then ret None (* return [] *)
                          else ret None (* print; return [] *)
                      | _ => raise e
                      end) ;;
  match resp with
  | None => ret []
  | Some r => documents_of_hits (default [] (resp_vectors r))
  end.

(** ** Answering (lines 393-463) *)

(** [list(set(xs))]: the distinct values, in the order of first
    occurrence (Python leaves the order open). *)
Definition pyval_eqb (a b : pyval) : bool :=
  match a, b with
  | PStr s, PStr t => String.eqb s t
  | PInt m, PInt n => (m =? n)%Z
  | PFloat f, PFloat g => PrimFloat.eqb f g
  | _, _ => false
  end.

Fixpoint distinct (seen xs : list pyval) : list pyval :=
  match xs with
  | [] => []
  | x :: rest =>
      if existsb (pyval_eqb x) seen then distinct seen rest
      else x :: distinct (x :: seen) rest
  end.

(** The closure [invoke] of [get_rag_chain] (lines 427-448): the
    retrieval chain calls the retriever ([S3VectorRetriever], top_k 8)
    on the input and then the chat model on history, context and
    input; the result carries the answer and the context. *)
Definition rag_chain_invoke (tenant_id : Z) (history : list message)
    (text : string) : M X (string * list Document) :=
  context <- retrieve_s3_vectors text tenant_id 8 ;;
  reply_text <- call (EvChat history context text)
                     (chat sv history context text) ;;
  ret (reply_text, context).

(** The canned answer of a table entry, before the final [strip]
    (lines 454-457). *)
Definition fixed_answer (fixed_resp : json) : M X string :=
  match fixed_resp with
  | JObject fields =>
      match default (JStr (str_of_json sv fixed_resp)) (fields !! "answer") with
      | JStr s => ret s
      | _ => raise (AttributeError "strip")
      end
  | JStr s => ret s
  | other => ret (str_of_json sv other)
  end.

Definition answer_question_modern (question : string) (tenant_id : Z)
    (user_id : pyval) (context_messages : option (list message))
  : M X answer_dict :=
  let cleaned := Py.lower (Py.strip question) in
  match FIXED_RESPONSES cfg !! cleaned with
  | Some fixed_resp =>
      canned <- fixed_answer fixed_resp ;;
      ret {| answer := Py.strip canned;
             sources := [PStr "Fixed Response"] |}
  | None =>
      let history := default [] context_messages in
      result <- rag_chain_invoke tenant_id history question ;;
      let '(reply_text, context) := result in
      let sources :=
        distinct [] (map (fun d => default (PStr "unknown")
                                     (metadata d !! "source")) context) in
      ret {| answer := reply_text; sources := sources |}
  end.

End RagUtils.

(** The string a filter condition compares with: [{k: v}] and the
    equality operator ask for equality, [None] for another operator. *)
Definition filter_value (c : filter_cond) : option string :=
  match c with
  | FValue v => Some v
  | FOperator op v => if code_in op ["eq"; "$eq"] then Some v else None
  end.

(* ================================================================== *)
(** * An in-memory instance of the collaborators *)
(* ================================================================== *)

(** The collaborators are services outside the repository.  This
    instance gives the vector service the behaviour that the Vector
    Index Manager's contract and the code's comments take it to have:
    one index, records unique by key, a metadata filter that compares
    one key with a string, result pages of at most [topK] hits with a
    continuation token.  Every external call first consumes one entry of
    the fault schedule; an entry [Some e] makes that call fail with [e]
    and leaves the state alone.  Its thread pools run their tasks in the
    order of submission. *)
Module Cloud.

Record state : Type := mkState {
  faults : list (option exn);
  queue : list sqs_message;
  counter : N;
  objects : list (string * string);
  local_files : list (string * string);
  web : list (string * (Z * string));
  vector_buckets : list string;
  index : option index_spec;
  records : list VectorRecord
}.

Definition set_faults (f : list (option exn)) (st : state) : state :=
  mkState f (queue st) (counter st) (objects st) (local_files st) (web st)
          (vector_buckets st) (index st) (records st).

Definition set_records (r : list VectorRecord) (st : state) : state :=
  mkState (faults st) (queue st) (counter st) (objects st) (local_files st)
          (web st) (vector_buckets st) (index st) r.

(** Runs [op] unless the schedule injects a failure. *)
Definition guarded {A} (op : state -> reply A * state) (st : state)
  : reply A * state :=
  match faults st with
  | Some e :: rest => (Throw e, set_faults rest st)
  | None :: rest => op (set_faults rest st)
  | [] => op st
  end.

Definition lookup_key {A} (k : string) (l : list (string * A)) : option A :=
  snd <$> List.find (fun kv => String.eqb (fst kv) k) l.

Definition numeral (n : N) : string := NilZero.string_of_uint (N.to_uint n).

Definition fresh (st : state) : string * state :=
  (numeral (counter st),
   mkState (faults st) (queue st) (counter st + 1) (objects st)
           (local_files st) (web st) (vector_buckets st) (index st)
           (records st)).

Definition do_send (m : sqs_message) (st : state) : reply unit * state :=
  (Return tt,
   mkState (faults st) (queue st ++ [m]) (counter st) (objects st)
           (local_files st) (web st) (vector_buckets st) (index st)
           (records st)).

Definition do_get_object (k : string) (st : state) : reply string * state :=
  match lookup_key k (objects st) with
  | Some body => (Return body, st)
  | None => (Throw (ClientError "NoSuchKey"), st)
  end.

Definition do_list_objects (prefix : string) (st : state)
  : reply (list (list string)) * state :=
  (Return [map fst (List.filter (fun kv => String.prefix prefix (fst kv))
                                (objects st))], st).

Definition do_download (k path : string) (st : state) : reply unit * state :=
  match lookup_key k (objects st) with
  | Some body =>
      (Return tt,
       mkState (faults st) (queue st) (counter st) (objects st)
               ((path, body) :: local_files st) (web st)
               (vector_buckets st) (index st) (records st))
  | None => (Throw (ClientError "404"), st)
  end.

(** Every loader yields the file's text as one document. *)
Definition do_load (ext path : string) (st : state)
  : reply (list Document) * state :=
  match lookup_key path (local_files st) with
  | Some body => (Return [mkDocument body {[ "source" := PStr path ]}], st)
  | None => (Throw (OtherException "FileNotFoundError"), st)
  end.

Definition do_http_get (url : string) (st : state)
  : reply (Z * string) * state :=
  match lookup_key url (web st) with
  | Some r => (Return r, st)
  | None => (Throw (OtherException "ConnectError"), st)
  end.

Definition do_mkdtemp (st : state) : reply string * state :=
  let (n, st') := fresh st in (Return ("/tmp/tmp" ++ n)%string, st').

Definition embedding (text : string) : list float := repeat 0%float 1024.

Definition do_list_buckets (st : state) : reply (list string) * state :=
  (Return (vector_buckets st), st).

Definition do_create_bucket (name : string) (st : state)
  : reply unit * state :=
  if existsb (String.eqb name) (vector_buckets st)
  then (Throw (ClientError "ConflictException"), st)
  else (Return tt,
        mkState (faults st) (queue st) (counter st) (objects st)
                (local_files st) (web st) (vector_buckets st ++ [name])
                (index st) (records st)).

(** Index creation; creating an index that exists is a conflict. *)
Definition do_create_index (spec : index_spec) (st : state)
  : reply unit * state :=
  match index st with
  | Some _ => (Throw (ClientError "ConflictException"), st)
  | None =>
      (Return tt,
       mkState (faults st) (queue st) (counter st) (objects st)
               (local_files st) (web st) (vector_buckets st) (Some spec)
               (records st))
  end.

Definition has_key (keys : list string) (r : VectorRecord) : bool :=
  existsb (String.eqb (key r)) keys.

(** Removes the records with one of the keys. *)
Definition remove_keys (keys : list string) (rs : list VectorRecord)
  : list VectorRecord :=
  List.filter (fun r => negb (has_key keys r)) rs.

(** A put replaces the record with the same key. *)
Fixpoint upsert (vs rs : list VectorRecord) : list VectorRecord :=
  match vs with
  | [] => rs
  | v :: rest => upsert rest (remove_keys [key v] rs ++ [v])
  end.

(** The service's bulk upsert; on a missing index it answers
    NotFoundException, the code the probe of [ensure_vector_index]
    waits for. *)
Definition do_put (vs : list VectorRecord) (st : state) : reply unit * state :=
  match index st with
  | None => (Throw (ClientError "NotFoundException"), st)
  | Some _ => (Return tt, set_records (upsert vs (records st)) st)
  end.

(** The service's deletion by keys. *)
Definition do_delete (keys : list string) (st : state) : reply unit * state :=
  match index st with
  | None => (Throw (ClientError "NotFoundException"), st)
  | Some _ => (Return tt, set_records (remove_keys keys (records st)) st)
  end.

(** Does the record's metadata have the string [v] under [k]? *)
Definition tagged (k v : string) (r : VectorRecord) : bool :=
  match vmetadata r !! k with
  | Some (PStr s) => String.eqb s v
  | _ => false
  end.

Definition hit_of (args : query_args) (r : VectorRecord) : hit :=
  {| hit_key := key r;
     hit_metadata := if returnMetadata args then Some (vmetadata r) else None;
     hit_distance := if returnDistance args then Some 0%float else None |}.

(** Where the page starts: the token is the decimal offset. *)
Definition offset_of (token : option string) : option nat :=
  match token with
  | None => Some 0%nat
  | Some t => (fun d => N.to_nat (N.of_uint d)) <$> NilZero.uint_of_string t
  end.

(** The service's filtered query as the Vector Index Manager's contract
    describes it.  It selects the records whose metadata has the
    filter's string under the filter's key, hands them out in pages of
    at most [topK] in storage order (every distance is zero), and gives
    a continuation token as long as records remain. *)
Definition do_query (args : query_args) (st : state)
  : reply query_response * state :=
  match index st with
  | None => (Throw (ClientError "NotFoundException"), st)
  | Some _ =>
      match filter_value (snd (filter args)), offset_of (nextToken args) with
      | Some v, Some off =>
          if (topK args <? 1)%Z
          then (Throw (ClientError "ValidationException"), st)
          else
            let k := Z.to_nat (topK args) in
            let matching :=
              List.filter (tagged (fst (filter args)) v) (records st) in
            let page := take k (drop off matching) in
            let next :=
              if (off + k <? length matching)%nat
              then Some (numeral (N.of_nat (off + k)))
              else None in
            (Return {| resp_vectors := Some (map (hit_of args) page);
                       resp_nextToken := next |}, st)
      | _, _ => (Throw (ClientError "ValidationException"), st)
      end
  end.

Definition do_chat (history : list message) (context : list Document)
    (input : string) (st : state) : reply string * state :=
  (Return ("You asked: " ++ input)%string, st).

Definition services : Services state :=
  {| send_message := fun m => guarded (do_send m);
     uuid4 := fresh;
     get_object := fun k => guarded (do_get_object k);
     list_objects_v2 := fun p => guarded (do_list_objects p);
     download_file := fun k path => guarded (do_download k path);
     load := fun ext path => guarded (do_load ext path);
     http_get := fun url => guarded (do_http_get url);
     pool_order := fun n st => (seq 0 n, st);
     soup_text := fun html => html;
     split_documents := fun docs => docs;
     mkdtemp := guarded do_mkdtemp;
     rmtree := fun path st => st;
     embed_documents :=
       fun texts => guarded (fun st => (Return (map embedding texts), st));
     embed_query :=
       fun text => guarded (fun st => (Return (embedding text), st));
     list_vector_buckets := guarded do_list_buckets;
     create_vector_bucket := fun name => guarded (do_create_bucket name);
     put_vectors := fun vs => guarded (do_put vs);
     delete_vectors := fun keys => guarded (do_delete keys);
     create_index := fun spec => guarded (do_create_index spec);
     query_vectors := fun args => guarded (do_query args);
     chat := fun h c i => guarded (do_chat h c i);
     str_of_json := fun _ => "json" |}.

(** A deployment whose bucket and index exist. *)
Definition ready (rs : list VectorRecord) : state :=
  {| faults := []; queue := []; counter := 0; objects := [];
     local_files := []; web := [];
     vector_buckets := ["rag-vectordb-bucket"];
     index := Some {| dataType := "float32"; dimension := 1024;
                      distanceMetric := "cosine";
                      nonFilterableMetadataKeys := ["internal_id"] |};
     records := rs |}.

(** A fresh account: no bucket, no index. *)
Definition empty : state :=
  {| faults := []; queue := []; counter := 0; objects := [];
     local_files := []; web := []; vector_buckets := []; index := None;
     records := [] |}.

Definition with_objects (objs : list (string * string)) (st : state) : state :=
  mkState (faults st) (queue st) (counter st) objs (local_files st) (web st)
          (vector_buckets st) (index st) (records st).

Definition set_buckets (b : list string) (st : state) : state :=
  mkState (faults st) (queue st) (counter st) (objects st) (local_files st)
          (web st) b (index st) (records st).

Definition set_index (i : option index_spec) (st : state) : state :=
  mkState (faults st) (queue st) (counter st) (objects st) (local_files st)
          (web st) (vector_buckets st) i (records st).

(** The records tagged with a tenant, in storage order. *)
Definition tenant_records (tenant_id : Z) (st : state) : list VectorRecord :=
  List.filter (tagged TENANT_ID_KEY (Py.str_of_int tenant_id)) (records st).

End Cloud.

(** The configuration with the defaults of the [os.getenv] calls. *)
Definition default_config (table : gmap string json) : config :=
  {| S3_VECTORS_BUCKET_NAME := "rag-vectordb-bucket";
     S3_VECTORS_INDEX_NAME := "tenant-knowledge-index";
     S3_BUCKET_NAME := "rag-chat-uploads";
     FIXED_RESPONSES := table |}.

Definition start {X} (x : X) : world X := mkWorld [] x.

(* ================================================================== *)
(** * Sample deployments *)
(* ================================================================== *)

(** A stored record as [index_tenant_files] writes them. *)
Definition sample_record (tenant_id : Z) (k preview : string) : VectorRecord :=
  {| key := k;
     data := repeat 0%float 1024;
     vmetadata :=
       {[ TENANT_ID_KEY := PStr (Py.str_of_int tenant_id);
          SOURCE_KEY := PStr "s3://rag-chat-uploads/knowledge_base/manual.pdf";
          CONTENT_PREVIEW_KEY := PStr preview ]} |}.

(** Two tenants side by side in the one index. *)
Definition two_tenants : list VectorRecord :=
  [sample_record 7 "k1" "Opening hours are 9 to 5.";
   sample_record 8 "k2" "Opening hours are 10 to 6.";
   sample_record 7 "k3" "Closed on Sundays."].

(** The table of the fixed-response scenario. *)
Definition hours_table : gmap string json :=
  {[ "hours" := JStr "We're open 9-5." ]}.

(** A table whose canned answers have blanks around them, once as a
    plain string and once inside a structured value. *)
Definition padded_table : gmap string json :=
  {[ "hi" := JStr "  Hello there.  ";
     "bye" := JObject {[ "answer" := JStr " See you. " ]} ]}.

Definition newline : string := String (ascii_of_nat 10) EmptyString.

(** A registry file with two URLs and a blank line between them. *)
Definition two_urls : string :=
  "https://example.com/about" ++ newline ++ "   " ++ newline
  ++ "  https://example.com/faq" ++ newline.

(** Tenant 7's registry file and nothing else. *)
Definition with_registry : Cloud.state :=
  Cloud.with_objects [("knowledge_base/7/urls.txt", two_urls)] (Cloud.ready []).

(** Tenant 7 with one uploaded PDF and no [urls.txt]. *)
Definition one_pdf : Cloud.state :=
  Cloud.with_objects [("knowledge_base/7/manual.pdf", "Opening hours are 9 to 5.")]
                     (Cloud.ready []).

(** An access failure, a code none of the handlers names. *)
Definition access_denied : exn := ClientError "AccessDeniedException".

(* ================================================================== *)
(** * Vocabulary of the statements *)
(* ================================================================== *)

(** [m] only appends to the trace, and only events that satisfy [P]. *)
Definition emits {X A} (P : event -> Prop) (m : M X A) : Prop :=
  forall w r w', m w = (r, w') ->
    exists evs, trace w' = trace w ++ evs /\ Forall P evs.

(** The tag [str(tenant_id)] as a metadata value. *)
Definition tenant_tag (tenant_id : Z) : pyval := PStr (Py.str_of_int tenant_id).

Definition record_tenant (r : VectorRecord) : option pyval :=
  vmetadata r !! TENANT_ID_KEY.

Definition hit_tenant (h : hit) : option pyval :=
  match hit_metadata h with
  | Some m => m !! TENANT_ID_KEY
  | None => None
  end.

(** A query event carries the tenant filter of [tenant_id]. *)
Definition tenant_scoped (tenant_id : Z) (ev : event) : Prop :=
  forall args, ev = EvQueryVectors args ->
    fst (filter args) = TENANT_ID_KEY /\
    filter_value (snd (filter args)) = Some (Py.str_of_int tenant_id).

(** A put event carries only records tagged with [tenant_id]. *)
Definition puts_tagged (tenant_id : Z) (ev : event) : Prop :=
  forall vs, ev = EvPutVectors vs ->
    Forall (fun r => record_tenant r = Some (tenant_tag tenant_id)) vs.

(** A put event carries the probe's sentinel alone, or only records
    tagged with [tenant_id]. *)
Definition puts_tagged_or_probe (tenant_id : Z) (ev : event) : Prop :=
  forall vs, ev = EvPutVectors vs ->
    vs = [ping_record]
    \/ Forall (fun r => record_tenant r = Some (tenant_tag tenant_id)) vs.

(** What the code needs of the service's metadata filter: a hit of a
    query that filters [k] by the string [v] and asks for metadata has
    [v] under [k]. *)
Definition filter_respected {X} (sv : Services X) : Prop :=
  forall args x resp x' k v,
    query_vectors sv args x = (Return resp, x') ->
    returnMetadata args = true ->
    filter args = (k, FValue v) ->
    Forall (fun h => exists m, hit_metadata h = Some m /\ m !! k = Some (PStr v))
           (default [] (resp_vectors resp)).

(** The events [delete_tenant_vectors] may emit: tenant-filtered scan
    queries of page size 30, and deletions of at most 100 keys. *)
Definition delete_step (tenant_id : Z) (ev : event) : Prop :=
  (exists token, ev = EvQueryVectors
                        {| queryVector := repeat 0%float 1024;
                           topK := 30;
                           filter := (TENANT_ID_KEY,
                                      FOperator "eq" (Py.str_of_int tenant_id));
                           returnMetadata := false;
                           returnDistance := false;
                           nextToken := token |})
  \/ (exists batch, ev = EvDeleteVectors batch /\ length batch <= 100).

(** The codes the probe of [ensure_vector_index] takes for a missing
    index, and the codes its outer handler takes for a lost creation
    race. *)
Definition is_not_found (e : exn) : bool :=
  match e with
  | ClientError c => code_in c ["NotFoundException"; "ValidationException"]
  | _ => false
  end.

Definition is_conflict (e : exn) : bool :=
  match e with
  | ClientError c => code_in c ["ConflictException"; "ResourceInUseException"]
  | _ => false
  end.

(** What becomes of a failure [e] that reaches the outer handler of
    [ensure_vector_index]. *)
Definition tolerated (e : exn) : outcome unit :=
  if is_conflict e then Ok tt else Raise e.

(** The run of step 3 of [ensure_vector_index] from [w]: one
    [create_index] call for the index of dimension 1024 with the cosine
    metric, its failure going through the outer handler. *)
Definition creation {X} (sv : Services X) (w : world X)
  : outcome unit * world X :=
  let r := create_index sv tenant_index_spec (ext w) in
  (match fst r with Return _ => Ok tt | Throw e => tolerated e end,
   mkWorld (trace w ++ [EvCreateIndex tenant_index_spec]) (snd r)).

(** The state in which [ensure_vector_index] leaves a fault-free
    in-memory deployment: the bucket is there, and either the index has
    just been created or the sentinel has been written and removed. *)
Definition ensured (cfg : config) (st : Cloud.state) : Cloud.state :=
  let name := S3_VECTORS_BUCKET_NAME cfg in
  let st1 :=
    if existsb (String.eqb name) (Cloud.vector_buckets st) then st
    else Cloud.set_buckets (Cloud.vector_buckets st ++ [name]) st in
  match Cloud.index st with
  | None => Cloud.set_index (Some tenant_index_spec) st1
  | Some _ =>
      Cloud.set_records
        (Cloud.remove_keys ["ping"]
           (Cloud.remove_keys ["ping"] (Cloud.records st) ++ [ping_record]))
        st1
  end.

(** The token under which the in-memory service hands out the page
    that starts at offset [off]. *)
Definition token_at (off : nat) : option string :=
  match off with
  | O => None
  | _ => Some (Cloud.numeral (N.of_nat off))
  end.

(** No call to the embedding model or to the vector service. *)
Definition no_backend_call (ev : event) : Prop :=
  match ev with
  | EvEmbedDocuments _ | EvEmbedQuery _ | EvListVectorBuckets
  | EvCreateVectorBucket _ | EvPutVectors _ | EvDeleteVectors _
  | EvCreateIndex _ | EvQueryVectors _ => False
  | _ => True
  end.

(* ================================================================== *)
(** * Further Python string operations *)
(* ================================================================== *)

Module PyStr.

(** [s.split(sep)] for a separator of one code point; [cur] is the
    part read so far. *)
Fixpoint split_from (sep : ascii) (cur s : string) : list string :=
  match s with
  | EmptyString => [cur]
  | String c r =>
      if Ascii.eqb c sep then cur :: split_from sep EmptyString r
      else split_from sep (cur ++ String c EmptyString) r
  end.

Definition split (sep : ascii) (s : string) : list string :=
  split_from sep EmptyString s.

(** [sep.join(l)] *)
Fixpoint join (sep : string) (l : list string) : string :=
  match l with
  | [] => EmptyString
  | x :: rest =>
      match rest with
      | [] => x
      | _ :: _ => x ++ sep ++ join sep rest
      end
  end.

Definition LF : ascii := ascii_of_nat 10.

(** The value of a decimal digit [0-9]. *)
Definition digit_of (c : ascii) : option N :=
  let n := N_of_ascii c in
  if ((48 <=? n) && (n <=? 57))%N then Some (n - 48)%N else None.

(** The digit part of an [int] literal read by [int(s)]: digits with
    single underscores between them.  [acc] is the value so far,
    [after_digit] says that the previous code point was a digit. *)
Fixpoint digits_value (acc : N) (after_digit : bool) (s : string) : option N :=
  match s with
  | EmptyString => if after_digit then Some acc else None
  | String c r =>
      match digit_of c with
      | Some d => digits_value (10 * acc + d)%N true r
      | None =>
          if Ascii.eqb c "_" && after_digit then digits_value acc false r
          else None
      end
  end.

(** The number of digits of a literal, which [int] holds against
    [sys.int_max_str_digits]. *)
Fixpoint count_digits (s : string) : N :=
  match s with
  | EmptyString => 0%N
  | String c r =>
      match digit_of c with
      | Some _ => (1 + count_digits r)%N
      | None => count_digits r
      end
  end.

(** The blanks [int] skips around a literal: of the code points below
    128 the ASCII whitespace TAB, LF, VT, FF, CR and SPACE, and of the
    others those [str.isspace] accepts, NEL and NBSP.  The separators
    FS, GS, RS and US (U+001C..U+001F) are not skipped, although
    [str.isspace] accepts them: [int('\x1c7')] raises [ValueError]. *)
Definition is_int_space (c : ascii) : bool :=
  let n := nat_of_ascii c in
  (((9 <=? n) && (n <=? 13)) || (n =? 32) || (n =? 133) || (n =? 160))%nat.

Fixpoint skip_leading (s : string) : string :=
  match s with
  | EmptyString => EmptyString
  | String c r => if is_int_space c then skip_leading r else s
  end.

Fixpoint skip_trailing (s : string) : string :=
  match s with
  | EmptyString => EmptyString
  | String c r =>
      match skip_trailing r with
      | EmptyString => if is_int_space c then EmptyString else String c EmptyString
      | r' => String c r'
      end
  end.

(** [int(s)] for a [str] of code points below 256, [None] for
    [ValueError]: blanks around an optional sign and the digit part.
    [max_str_digits] is [sys.int_max_str_digits], 4300 by default from
    Python 3.11 on and 0 where there is no limit. *)
Definition int (max_str_digits : N) (s : string) : option Z :=
  let t := skip_trailing (skip_leading s) in
  if (negb (max_str_digits =? 0) && (max_str_digits <? count_digits t))%N
  then None
  else
    match t with
    | String "-" r => (fun n => (- Z.of_N n)%Z) <$> digits_value 0 false r
    | String "+" r => Z.of_N <$> digits_value 0 false r
    | _ => Z.of_N <$> digits_value 0 false t
    end.

(** [\w] of [re] on one code point below 256: what [str.isalnum]
    accepts, and the underscore. *)
Definition is_word (c : ascii) : bool :=
  let n := nat_of_ascii c in
  (((48 <=? n) && (n <=? 57)) || ((65 <=? n) && (n <=? 90)) || (n =? 95)
   || ((97 <=? n) && (n <=? 122))
   || (n =? 170) || (n =? 178) || (n =? 179) || (n =? 181) || (n =? 185)
   || (n =? 186) || ((188 <=? n) && (n <=? 190))
   || ((192 <=? n) && (n <=? 214)) || ((216 <=? n) && (n <=? 246))
   || ((248 <=? n) && (n <=? 255)))%nat.

(** [re.sub(r'[^\w\s]', '', s)] *)
Fixpoint remove_punctuation (s : string) : string :=
  match s with
  | EmptyString => EmptyString
  | String c r =>
      if is_word c || Py.is_space c then String c (remove_punctuation r)
      else remove_punctuation r
  end.

End PyStr.

(* ================================================================== *)
(** * rag_utils.py: registering a URL (lines 73-98) *)
(* ================================================================== *)

(** An external call for which the trace has no event. *)
Definition call_untraced {X A} (op : X -> reply A * X) : M X A :=
  fun w =>
    let (r, x') := op (ext w) in
    (match r with Return a => Ok a | Throw e => Raise e end,
     mkWorld (trace w) x').

(** [[line.strip() for line in content.splitlines() if line.strip()]] *)
Definition registry_lines (content : string) : list string :=
  List.filter Py.truthy (map Py.strip (Py.splitlines content)).

(** Lines 86-88: the URL is appended unless it is one of the lines. *)
Definition with_url (lines : list string) (url : string) : list string :=
  if negb (existsb (String.eqb (Py.strip url)) lines)
  then lines ++ [Py.strip url]
  else lines.

(** Line 91: ["\n".join(lines) + "\n"] *)
Definition registry_content (lines : list string) : string :=
  PyStr.join newline lines ++ newline.

Section AppendUrl.

Context {X : Type}.
Variable sv : Services X.

(** [s3_client.put_object] on the bucket [S3_BUCKET_NAME], with the
    content type text/plain: key and body. *)
Variable put_object : string -> string -> X -> reply unit * X.

Definition s3_append_url (tenant_id : Z) (url : string) : M X unit :=
  let k := urls_key tenant_id in
  lines <- try_except
             (content <- call (EvGetObject k) (get_object sv k) ;;
              ret (registry_lines content))
             (fun e => match e with
                       | ClientError code =>
                           if negb (String.eqb code "NoSuchKey") then raise e
                           else ret []
                       | _ => raise e
                       end) ;;
  let new_content := registry_content (with_url lines url) in
  call_untraced (put_object k new_content).

End AppendUrl.

(** The in-memory bucket's [put_object]: the object is created or
    replaced. *)
Definition do_put_object (k body : string) (st : Cloud.state)
  : reply unit * Cloud.state :=
  (Return tt,
   Cloud.with_objects
     ((k, body)
        :: List.filter (fun kv => negb (String.eqb (fst kv) k)) (Cloud.objects st))
     st).

Definition cloud_put_object (k body : string)
  : Cloud.state -> reply unit * Cloud.state :=
  Cloud.guarded (do_put_object k body).

(* ================================================================== *)
(** * lambda_s3_event_handler.py *)
(* ================================================================== *)

(** [extract_tenant_id_from_s3_path] (lines 8-19); [int] raises
    [ValueError], which the handler turns into [None]. *)
Definition extract_tenant_id_from_s3_path (max_str_digits : N) (s3_key : string)
  : option Z :=
  let parts := PyStr.split "/" s3_key in
  if (2 <=? length parts)%nat
     && String.eqb (default "" (parts !! 0%nat)) "knowledge_base"
  then PyStr.int max_str_digits (default "" (parts !! 1%nat))
  else None.

(** The dict [lambda_handler] returns; [tenants] is the set behind the
    [tenants] list of the body, [response_message] the body's
    message. *)
Record lambda_response : Type := mkLambdaResponse {
  statusCode : Z;
  response_message : string;
  tenants : gset Z
}.

(** The operations of Python on a decoded JSON value that the handler
    uses.  A [dict] is a [JObject], a [list] a [JArray]. *)
Module PyJson.

(** [for x in v]: the elements of a list, the keys of a dict, the code
    points of a str; TypeError for a value that is not iterable. *)
Definition iterate (v : json) : outcome (list json) :=
  match v with
  | JArray items => Ok items
  | JObject fields => Ok (map (fun kv => JStr (fst kv)) (map_to_list fields))
  | JStr s =>
      Ok (map (fun c => JStr (String c EmptyString)) (list_ascii_of_string s))
  | _ => Raise (OtherException "TypeError")
  end.

(** [v[k]] for a str [k] *)
Definition subscript (v : json) (k : string) : outcome json :=
  match v with
  | JObject fields =>
      match fields !! k with
      | Some x => Ok x
      | None => Raise (OtherException "KeyError")
      end
  | _ => Raise (OtherException "TypeError")
  end.

(** [k in v] for a str [k]: a key of a dict, an element of a list, a
    substring of a str; TypeError for a value that is not a container. *)
Definition contains (v : json) (k : string) : outcome bool :=
  match v with
  | JObject fields =>
      Ok (match fields !! k with Some _ => true | None => false end)
  | JArray items =>
      Ok (existsb (fun x => match x with
                            | JStr s => String.eqb s k
                            | _ => false
                            end) items)
  | JStr s => Ok (match String.index 0 k s with Some _ => true | None => false end)
  | _ => Raise (OtherException "TypeError")
  end.

(** [fields.get('eventSource') == source] for a dict *)
Definition source_is (fields : gmap string json) (source : string) : bool :=
  match fields !! "eventSource" with
  | Some (JStr s) => String.eqb s source
  | _ => false
  end.

(** [v.get('eventSource') == source]: only a dict has [get]. *)
Definition event_source_is (v : json) (source : string) : outcome bool :=
  match v with
  | JObject fields => Ok (source_is fields source)
  | _ => Raise (AttributeError "get")
  end.

End PyJson.

Section LambdaHandler.

(** [sys.int_max_str_digits] *)
Variable max_str_digits : N.

(** [json.loads] on a [str]; [None] for JSONDecodeError. *)
Variable loads : string -> option json.

(** [int(x)] for the number a JSON literal denotes; [None] where [int]
    raises (NaN and the infinities). *)
Variable int_of_number : string -> option Z.

(** [record['s3']['object']['key']] *)
Definition s3_key_of (record : json) : outcome json :=
  match PyJson.subscript record "s3" with
  | Ok s3 =>
      match PyJson.subscript s3 "object" with
      | Ok object => PyJson.subscript object "key"
      | other => other
      end
  | other => other
  end.

(** Lines 61-64 and 49-52: the set after one S3 record.  A key that is
    not a [str] has no [split]; a tenant id that is [None] or [0] is
    not truthy. *)
Definition add_s3_tenant (record : json) (ids : gset Z) : outcome (gset Z) :=
  match s3_key_of record with
  | Ok (JStr s3_key) =>
      match extract_tenant_id_from_s3_path max_str_digits s3_key with
      | Some tenant_id =>
          if (tenant_id =? 0)%Z then Ok ids else Ok ({[ tenant_id ]} ∪ ids)
      | None => Ok ids
      end
  | Ok _ => Raise (AttributeError "split")
  | Raise e => Raise e
  | Diverge => Diverge
  end.

(** The loop of lines 47-53, inside the [try]: an exception ends the
    loop and leaves the set as it is then. *)
Fixpoint wrapped_s3_records (s3_records : list json) (ids : gset Z) : gset Z :=
  match s3_records with
  | [] => ids
  | s3_record :: rest =>
      match PyJson.event_source_is s3_record "aws:s3" with
      | Ok true =>
          match add_s3_tenant s3_record ids with
          | Ok ids' => wrapped_s3_records rest ids'
          | _ => ids
          end
      | Ok false => wrapped_s3_records rest ids
      | _ => ids
      end
  end.

(** [int(body['tenant_id'])]; [None] where it raises. *)
Definition int_of_json (v : json) : option Z :=
  match v with
  | JStr s => PyStr.int max_str_digits s
  | JNumber literal => int_of_number literal
  | JBool b => Some (if b then 1 else 0)%Z
  | _ => None
  end.

(** The [try] of lines 36-57 for one SQS record: the set after it.
    Whatever is raised inside is caught, so a missing or undecodable
    body leaves the set alone; so does a body that is not a dict, for
    which every path either tests false or raises TypeError.  The
    [print] of line 43 comes after the tenant has been added. *)
Definition sqs_record (record : gmap string json) (ids : gset Z) : gset Z :=
  match record !! "body" with
  | Some (JStr text) =>
      match loads text with
      | Some (JObject body) =>
          match body !! "tenant_id" with
          | Some v =>
              match int_of_json v with
              | Some tenant_id => {[ tenant_id ]} ∪ ids
              | None => ids
              end
          | None =>
              match body !! "Records" with
              | Some s3_records =>
                  match PyJson.iterate s3_records with
                  | Ok rs => wrapped_s3_records rs ids
                  | _ => ids
                  end
              | None => ids
              end
          end
      | _ => ids
      end
  | _ => ids
  end.

(** ** The [try] of lines 36-57, statement by statement

    The same statements over the set [tenant_ids_to_process] as the
    state, with every exception a subscript, a conversion or an
    iteration can raise, and with the handler of lines 55-57. *)

(** A step that computes on values and leaves the set alone. *)
Definition step {A} (o : outcome A) : M (gset Z) A := fun w => (o, w).

(** [tenant_ids_to_process.add(tenant_id)] *)
Definition add_tenant (tenant_id : Z) : M (gset Z) unit :=
  local (fun ids => (tt, {[ tenant_id ]} ∪ ids)).

(** [json.loads(v)]: TypeError for a value that is not a [str],
    JSONDecodeError for a text that does not decode. *)
Definition loads_value (v : json) : outcome json :=
  match v with
  | JStr text =>
      match loads text with
      | Some decoded => Ok decoded
      | None => Raise (OtherException "JSONDecodeError")
      end
  | _ => Raise (OtherException "TypeError")
  end.

(** [int(v)]: ValueError for a text that is no literal and for NaN
    (OverflowError for an infinity), TypeError for [None], a list and a
    dict. *)
Definition int_value (v : json) : outcome Z :=
  match v with
  | JStr s =>
      match PyStr.int max_str_digits s with
      | Some n => Ok n
      | None => Raise (OtherException "ValueError")
      end
  | JNumber literal =>
      match int_of_number literal with
      | Some n => Ok n
      | None => Raise (OtherException "ValueError")
      end
  | JBool b => Ok (if b then 1 else 0)%Z
  | _ => Raise (OtherException "TypeError")
  end.

(** [extract_tenant_id_from_s3_path(s3_key)] on what the record holds
    as its key: only a [str] has [split]. *)
Definition extract_value (s3_key : json) : outcome (option Z) :=
  match s3_key with
  | JStr k => Ok (extract_tenant_id_from_s3_path max_str_digits k)
  | _ => Raise (AttributeError "split")
  end.

(** Lines 49-53 *)
Definition s3_record_steps (s3_record : json) : M (gset Z) unit :=
  s3_key <- step (s3_key_of s3_record) ;;
  tenant_id <- step (extract_value s3_key) ;;
  match tenant_id with
  | Some t => if (t =? 0)%Z then ret tt else add_tenant t
  | None => ret tt
  end.

(** Lines 37-53 *)
Definition sqs_try (record : gmap string json) : M (gset Z) unit :=
  text <- step (PyJson.subscript (JObject record) "body") ;;
  body <- step (loads_value text) ;;
  direct <- step (PyJson.contains body "tenant_id") ;;
  if direct : bool then
    v <- step (PyJson.subscript body "tenant_id") ;;
    tenant_id <- step (int_value v) ;;
    add_tenant tenant_id ;;;
    (* the [print] of line 43 *)
    message_id <- step (PyJson.subscript (JObject record) "messageId") ;;
    ret tt
  else
    wrapped <- step (PyJson.contains body "Records") ;;
    if wrapped : bool then
      v <- step (PyJson.subscript body "Records") ;;
      s3_records <- step (PyJson.iterate v) ;;
      for_each s3_records
        (fun s3_record =>
           from_s3 <- step (PyJson.event_source_is s3_record "aws:s3") ;;
           if from_s3 : bool then s3_record_steps s3_record else ret tt)
    else ret tt.

(** Lines 36-57: [except Exception] prints and goes on to the next
    record. *)
Definition sqs_try_except (record : gmap string json) : M (gset Z) unit :=
  try_except (sqs_try record) (fun e => ret tt).

(** The loop of lines 32-65. *)
Fixpoint handle_records (records : list json) (ids : gset Z)
  : outcome (gset Z) :=
  match records with
  | [] => Ok ids
  | record :: rest =>
      match record with
      | JObject fields =>
          if PyJson.source_is fields "aws:sqs"
          then handle_records rest (sqs_record fields ids)
          else if PyJson.source_is fields "aws:s3"
          then match add_s3_tenant record ids with
               | Ok ids' => handle_records rest ids'
               | other => other
               end
          else handle_records rest ids
      | _ => Raise (AttributeError "get")
      end
  end.

(** [lambda_handler(event, context)] (lines 21-87) for an event that
    is a dict.  The second loop (lines 68-79) only prints: the call to
    [index_tenant_files] in it is commented out. *)
Definition lambda_handler (event : gmap string json) : outcome lambda_response :=
  let collected :=
    match event !! "Records" with
    | Some v =>
        match PyJson.iterate v with
        | Ok records => handle_records records ∅
        | Raise e => Raise e
        | Diverge => Diverge
        end
    | None => Ok ∅
    end in
  match collected with
  | Ok tenant_ids_to_process =>
      Ok {| statusCode := 200;
            response_message :=
              "Processed "
              ++ Py.str_of_int (Z.of_nat (size tenant_ids_to_process))
              ++ " tenants";
            tenants := tenant_ids_to_process |}
  | Raise e => Raise e
  | Diverge => Diverge
  end.

End LambdaHandler.

(* ================================================================== *)
(** * rag_model/chat_data_utils.py *)
(* ================================================================== *)

(** [clean_query] (lines 14-24) *)
Definition clean_query (question : string) : string :=
  if negb (Py.truthy question) then ""
  else
    let query := Py.strip (Py.lower question) in
    let query := PyStr.remove_punctuation query in
    Py.strip (Py.collapse_spaces false query).

(** One row of the report of [analyze_user_questions]. *)
Record review_row : Type := mkReviewRow {
  row_count : nat;
  cleaned_question : string;
  example_original_question : string
}.

(** Lines 113-120 for the contents of the human messages, in the order
    in which the history files give them: the original and the cleaned
    question, for the questions whose cleaned form is not empty. *)
Definition question_items (contents : list string) : list (string * string) :=
  List.filter (fun item => Py.truthy (snd item))
              (map (fun c => (c, clean_query c)) contents).

(** [Counter(keys)]: the distinct keys in the order of their first
    occurrence, each with the number of its occurrences. *)
Fixpoint counter_add (k : string) (c : list (string * nat))
  : list (string * nat) :=
  match c with
  | [] => [(k, 1%nat)]
  | (k', n) :: rest =>
      if String.eqb k' k then (k', S n) :: rest
      else (k', n) :: counter_add k rest
  end.

Definition counter (keys : list string) : list (string * nat) :=
  fold_left (fun c k => counter_add k c) keys [].

(** [most_common(n)]: the entries by falling count, entries of equal
    count in the order of the counter, cut after [n]. *)
Fixpoint insert_by_count (x : string * nat) (sorted : list (string * nat))
  : list (string * nat) :=
  match sorted with
  | [] => [x]
  | y :: rest =>
      if (snd y <? snd x)%nat then x :: y :: rest
      else y :: insert_by_count x rest
  end.

Definition by_count (c : list (string * nat)) : list (string * nat) :=
  fold_left (fun s x => insert_by_count x s) c [].

Definition most_common (n : Z) (c : list (string * nat)) : list (string * nat) :=
  take (Z.to_nat n) (by_count c).

(** [next((item['original'] for item in all_user_questions
          if item['cleaned'] == cleaned_q), cleaned_q)] *)
Definition first_original (items : list (string * string)) (cleaned_q : string)
  : string :=
  match List.find (fun item => String.eqb (snd item) cleaned_q) items with
  | Some item => fst item
  | None => cleaned_q
  end.

(** Lines 124-139 of [analyze_user_questions]: the rows of the report,
    [None] when there is no question and the function returns without
    writing one. *)
Definition top_questions (top_n : Z) (contents : list string)
  : option (list review_row) :=
  let all_user_questions := question_items contents in
  if negb (nonempty all_user_questions) then None
  else
    let cleaned_counts := counter (map snd all_user_questions) in
    Some (map (fun kc => {| row_count := snd kc;
                            cleaned_question := fst kc;
                            example_original_question :=
                              first_original all_user_questions (fst kc) |})
              (most_common top_n cleaned_counts)).

(* ================================================================== *)
(** * main.py: the messages of a reply *)
(* ================================================================== *)

(** The loop of [split_message] (lines 1063-1072) and the flush after
    it (lines 1074-1075); the arguments after [lines] are the loop's
    three variables. *)
Fixpoint split_message_loop (max_length : Z) (lines : list string)
    (chunks current_chunk : list string) (current_length : Z) : list string :=
  match lines with
  | [] =>
      if nonempty current_chunk
      then chunks ++ [PyStr.join newline current_chunk]
      else chunks
  | line :: rest =>
      let line_length := (Z.of_nat (String.length line) + 1)%Z in
      if (current_length + line_length <=? max_length)%Z
      then split_message_loop max_length rest chunks
             (current_chunk ++ [line]) (current_length + line_length)%Z
      else
        let chunks :=
          if nonempty current_chunk
          then chunks ++ [PyStr.join newline current_chunk]
          else chunks in
        split_message_loop max_length rest chunks [line] line_length
  end.

(** [split_message] (lines 1056-1077): [text.split('\n')] and the
    loop. *)
Definition split_message (text : string) (max_length : Z) : list string :=
  split_message_loop max_length (PyStr.split PyStr.LF text) [] [] 0.




(* ================================================================== *)
(** * Further sample inputs *)
(* ================================================================== *)

(** Tenant 7's folder with the registry file and one upload. *)
Definition registry_and_pdf : Cloud.state :=
  Cloud.with_objects
    [("knowledge_base/7/urls.txt", two_urls);
     ("knowledge_base/7/manual.pdf", "Opening hours are 9 to 5.")]
    (Cloud.ready []).

(** A table whose entry for "price" carries a number where the answer
    string should be. *)
Definition numeric_table : gmap string json :=
  {[ "price" := JObject {[ "answer" := JNumber "5" ]} ]}.

(** One embedded chunk of tenant 7's manual. *)
Definition one_pair : list (list float * Document) :=
  [(Cloud.embedding "Opening hours are 9 to 5.",
    mkDocument "Opening hours are 9 to 5."
      {[ "source" := PStr "s3://rag-chat-uploads/knowledge_base/7/manual.pdf" ]})].

(** Tenant 7 with one stored preview in blanks and one that is blank. *)
Definition blank_preview : list VectorRecord :=
  [sample_record 7 "k1" "  Opening hours are 9 to 5. ";
   sample_record 7 "k2" "   "].

(** An S3 notification for the object [s3_key]. *)
Definition s3_event (s3_key : string) : gmap string json :=
  {[ "Records" :=
       JArray [JObject {[ "eventSource" := JStr "aws:s3";
                          "s3" := JObject {[ "object" :=
                                    JObject {[ "key" := JStr s3_key ]} ]} ]}] ]}.

(** Two SQS records: one without a body, one whose body is not JSON. *)
Definition broken_sqs_event : gmap string json :=
  {[ "Records" :=
       JArray [JObject {[ "eventSource" := JStr "aws:sqs" ]};
               JObject {[ "eventSource" := JStr "aws:sqs";
                          "body" := JStr "not json" ]}] ]}.

(** [json.loads] on the message of [trigger_reindexing] for one
    tenant, and on nothing else. *)
Definition loads_reindex (tenant_id : Z) (text : string) : option json :=
  if String.eqb text (reindex_body tenant_id)
  then Some (JObject {[ "tenant_id" := JNumber (Py.str_of_int tenant_id) ]})
  else None.

(** Seven human messages of one tenant. *)
Definition seven_questions : list string :=
  ["Price?"; "hours"; "price"; "HOURS!"; "Where?"; " price "; "??"].


(* ================================================================== *)
(** * Vocabulary of the further statements *)
(* ================================================================== *)

(** Every code point of [s] satisfies [p]. *)
Fixpoint all_chars (p : ascii -> bool) (s : string) : bool :=
  match s with
  | EmptyString => true
  | String c r => p c && all_chars p r
  end.

(** The numeral is within [sys.int_max_str_digits]. *)
Definition within_digit_limit (max_str_digits : N) (s : string) : Prop :=
  max_str_digits = 0%N \/ (N.of_nat (String.length s) <= max_str_digits)%N.

Definition is_digit (c : ascii) : bool :=
  match PyStr.digit_of c with Some _ => true | None => false end.

(** The code points of a numeral: digits and the minus sign. *)
Definition is_numeral_char (c : ascii) : bool :=
  is_digit c || Ascii.eqb c "-".

(** Texts in normal form: code points that satisfy [good], with single
    spaces between them.  [spaced] allows a space at the end,
    [normal_from] does not; [after_space] says that the code point
    before [s] was a space. *)
Fixpoint spaced (good : ascii -> bool) (after_space : bool) (s : string) : bool :=
  match s with
  | EmptyString => true
  | String c r =>
      if Ascii.eqb c " " then negb after_space && spaced good true r
      else good c && spaced good false r
  end.

Fixpoint normal_from (good : ascii -> bool) (after_space : bool) (s : string)
  : bool :=
  match s with
  | EmptyString => negb after_space
  | String c r =>
      if Ascii.eqb c " " then negb after_space && normal_from good true r
      else good c && normal_from good false r
  end.

(** [s] is empty, or made of [good] code points and single spaces
    between them, with no space at either end. *)
Definition single_spaced (good : ascii -> bool) (s : string) : bool :=
  match s with
  | EmptyString => true
  | _ => normal_from good true s
  end.

Definition not_space (c : ascii) : bool := negb (Py.is_space c).

(** A word code point that [str.lower] leaves alone. *)
Definition lower_word (c : ascii) : bool :=
  PyStr.is_word c && Ascii.eqb (Py.lower_char c) c.

Definition no_linebreak (s : string) : bool :=
  all_chars (fun c => negb (Py.is_linebreak c)) s.

(** The lines of a tenant's registry on the in-memory bucket, [[]]
    when it is missing. *)
Definition registered (tenant_id : Z) (st : Cloud.state) : list string :=
  match Cloud.lookup_key (urls_key tenant_id) (Cloud.objects st) with
  | Some content => registry_lines content
  | None => []
  end.

(** The calls [index_tenant_files] makes before it creates the
    temporary directory: the ones of [ensure_vector_index], whose only
    put is the sentinel, and the queries and deletions of
    [delete_tenant_vectors]. *)
Definition index_setup_event (ev : event) : Prop :=
  match ev with
  | EvListVectorBuckets | EvCreateVectorBucket _ | EvCreateIndex _
  | EvQueryVectors _ | EvDeleteVectors _ => True
  | EvPutVectors vs => vs = [ping_record]
  | _ => False
  end.

(** A put event carries between one and [batch_size] records. *)
Definition put_within_limit (ev : event) : Prop :=
  forall vs, ev = EvPutVectors vs -> 1 <= length vs <= batch_size.

(** The record of one (vector, chunk) pair, whatever its key. *)
Definition record_of_pair (tenant_id : Z) (r : VectorRecord)
    (p : list float * Document) : Prop :=
  exists uuid, r = vector_record tenant_id uuid (fst p) (snd p).

(** A document as [load_tenant_files] tags it: the tenant and the
    object it was loaded from. *)
Definition file_provenance (cfg : config) (tenant_id : Z)
    (object_keys : list string) (doc : Document) : Prop :=
  metadata doc !! "tenant_id" = Some (tenant_tag tenant_id)
  /\ exists k, In k object_keys
               /\ metadata doc !! "source" = Some (PStr (file_source cfg k)).

(** A document as retrieval builds it: trimmed text that is not empty,
    and a source. *)
Definition retrieved_shape (doc : Document) : Prop :=
  Py.truthy (page_content doc) = true
  /\ Py.strip (page_content doc) = page_content doc
  /\ is_Some (metadata doc !! "source").

(** The source retrieval gives a hit. *)
Definition hit_source (h : hit) : pyval :=
  default (PStr "S3 Vectors") (default ∅ (hit_metadata h) !! SOURCE_KEY).

(** A record is an SQS record. *)
Definition is_sqs_record (record : json) : Prop :=
  exists fields, record = JObject fields
                 /\ fields !! "eventSource" = Some (JStr "aws:sqs").

(** The number of human messages whose cleaned form is [q]. *)
Definition times_asked (q : string) (contents : list string) : nat :=
  length (List.filter (fun c => String.eqb (clean_query c) q) contents).

(** The count a counter holds for [k], 0 when it has none. *)
Definition tally (c : list (string * nat)) (k : string) : nat :=
  match List.find (fun e => String.eqb (fst e) k) c with
  | Some e => snd e
  | None => 0%nat
  end.

(** No number is larger than one before it. *)
Fixpoint descending (l : list nat) : Prop :=
  match l with
  | [] => True
  | x :: rest => Forall (fun y => y <= x) rest /\ descending rest
  end.



(* ================================================================== *)
(** * Facts about the monad *)
(* ================================================================== *)

Section MonadFacts.

Context {X : Type}.

Lemma bind_Ok {A B} (m : M X A) (k : A -> M X B) w a w' :
  m w = (Ok a, w') -> bind m k w = k a w'.
Proof. unfold bind. intros ->. reflexivity. Qed.

Lemma bind_Raise {A B} (m : M X A) (k : A -> M X B) w e w' :
  m w = (Raise e, w') -> bind m k w = (Raise e, w').
Proof. unfold bind. intros ->. reflexivity. Qed.

Lemma bind_Diverge {A B} (m : M X A) (k : A -> M X B) w w' :
  m w = (Diverge, w') -> bind m k w = (Diverge, w').
Proof. unfold bind. intros ->. reflexivity. Qed.

Lemma call_Return {A} ev (op : X -> reply A * X) w a x' :
  op (ext w) = (Return a, x') ->
  call ev op w = (Ok a, mkWorld (trace w ++ [ev]) x').
Proof. unfold call. intros ->. reflexivity. Qed.

Lemma call_Throw {A} ev (op : X -> reply A * X) w e x' :
  op (ext w) = (Throw e, x') ->
  call ev op w = (Raise e, mkWorld (trace w ++ [ev]) x').
Proof. unfold call. intros ->. reflexivity. Qed.

Lemma try_except_Ok {A} (m : M X A) h w a w' :
  m w = (Ok a, w') -> try_except m h w = (Ok a, w').
Proof. unfold try_except. intros ->. reflexivity. Qed.

Lemma try_except_Raise {A} (m : M X A) h w e w' :
  m w = (Raise e, w') -> try_except m h w = h e w'.
Proof. unfold try_except. intros ->. reflexivity. Qed.

Lemma try_except_Diverge {A} (m : M X A) h w w' :
  m w = (Diverge, w') -> try_except m h w = (Diverge, w').
Proof. unfold try_except. intros ->. reflexivity. Qed.

(** ** Trace discipline *)

Lemma emits_ret {A} P (a : A) : emits P (ret (X:=X) a).
Proof.
  intros w r w' [= <- <-]. exists []. rewrite app_nil_r. auto.
Qed.

Lemma emits_raise {A} P e : emits P (raise (X:=X) (A:=A) e).
Proof.
  intros w r w' [= <- <-]. exists []. rewrite app_nil_r. auto.
Qed.

Lemma emits_diverge {A} P : emits P (diverge (X:=X) (A:=A)).
Proof.
  intros w r w' [= <- <-]. exists []. rewrite app_nil_r. auto.
Qed.

Lemma emits_global P bound name : emits P (global (X:=X) bound name).
Proof. destruct bound; [apply emits_ret | apply emits_raise]. Qed.

Lemma emits_local {A} P (op : X -> A * X) : emits P (local op).
Proof.
  intros w r w'. unfold local. destruct (op (ext w)) as [a x'].
  intros [= <- <-]. exists []. simpl. rewrite app_nil_r. auto.
Qed.

Lemma emits_call {A} (P : event -> Prop) ev (op : X -> reply A * X) :
  P ev -> emits P (call ev op).
Proof.
  intros HP w r w'. unfold call. destruct (op (ext w)) as [a x'].
  intros [= <- <-]. exists [ev]. simpl. auto.
Qed.

Lemma emits_bind {A B} P (m : M X A) (k : A -> M X B) :
  emits P m -> (forall a, emits P (k a)) -> emits P (bind m k).
Proof.
  intros Hm Hk w r w'. unfold bind.
  destruct (m w) as [[a | e |] w1] eqn:E; intros H.
  - destruct (Hm _ _ _ E) as (evs1 & T1 & F1).
    destruct (Hk a _ _ _ H) as (evs2 & T2 & F2).
    exists (evs1 ++ evs2). rewrite T2, T1, app_assoc.
    split; [reflexivity | apply Forall_app; auto].
  - injection H as <- <-. eauto.
  - injection H as <- <-. eauto.
Qed.

Lemma emits_try_except {A} P (m : M X A) h :
  emits P m -> (forall e, emits P (h e)) -> emits P (try_except m h).
Proof.
  intros Hm Hh w r w'. unfold try_except.
  destruct (m w) as [[a | e |] w1] eqn:E; intros H.
  - injection H as <- <-. eauto.
  - destruct (Hm _ _ _ E) as (evs1 & T1 & F1).
    destruct (Hh e _ _ _ H) as (evs2 & T2 & F2).
    exists (evs1 ++ evs2). rewrite T2, T1, app_assoc.
    split; [reflexivity | apply Forall_app; auto].
  - injection H as <- <-. eauto.
Qed.

Lemma emits_try_finally {A} P (m : M X A) fin :
  emits P m -> emits P fin -> emits P (try_finally m fin).
Proof.
  intros Hm Hf w r w'. unfold try_finally.
  destruct (m w) as [r1 w1] eqn:E.
  destruct (fin w1) as [[[] | e |] w2] eqn:F; intros [= <- <-];
    destruct (Hm _ _ _ E) as (evs1 & T1 & F1);
    destruct (Hf _ _ _ F) as (evs2 & T2 & F2);
    exists (evs1 ++ evs2); rewrite T2, T1, app_assoc;
    (split; [reflexivity | apply Forall_app; auto]).
Qed.

Lemma emits_for_each {A} P (l : list A) (body : A -> M X unit) :
  (forall a, emits P (body a)) -> emits P (for_each l body).
Proof.
  intros Hb. induction l as [| a l IH]; simpl.
  - apply emits_ret.
  - apply emits_bind; auto.
Qed.

Lemma emits_weaken {A} (P Q : event -> Prop) (m : M X A) :
  (forall ev, P ev -> Q ev) -> emits P m -> emits Q m.
Proof.
  intros HPQ Hm w r w' E. destruct (Hm _ _ _ E) as (evs & T & F).
  exists evs. split; [exact T |]. eapply Forall_impl; eauto.
Qed.

End MonadFacts.

(** Breaks a computation into its calls and discharges the claim about
    each emitted event with [tac]. *)
Ltac emits_step tac :=
  first
    [ apply emits_ret | apply emits_raise | apply emits_diverge
    | apply emits_global | apply emits_local
    | apply emits_bind; [| intros ?]
    | apply emits_try_except; [| intros ?]
    | apply emits_try_finally
    | apply emits_for_each; intros ?
    | apply emits_call; tac ].

(* ================================================================== *)
(** * Facts about the string operations *)
(* ================================================================== *)

Lemma to_int_not_nil (z : Z) :
  Z.to_int z <> Decimal.Pos Decimal.Nil /\ Z.to_int z <> Decimal.Neg Decimal.Nil.
Proof.
  destruct z as [| p | p]; simpl; split; try discriminate;
    intros [= H]; exact (DecimalPos.Unsigned.to_uint_nonnil p H).
Qed.

(** Distinct integers have distinct numerals. *)
Lemma str_of_int_inj (a b : Z) : Py.str_of_int a = Py.str_of_int b -> a = b.
Proof.
  unfold Py.str_of_int. intros H.
  apply DecimalZ.to_int_inj.
  destruct (to_int_not_nil a) as [Ha1 Ha2], (to_int_not_nil b) as [Hb1 Hb2].
  pose proof (NilZero.isi _ Ha1 Ha2) as Ea.
  pose proof (NilZero.isi _ Hb1 Hb2) as Eb.
  rewrite H in Ea. rewrite Ea in Eb. congruence.
Qed.

Lemma tenant_tag_inj (a b : Z) : tenant_tag a = tenant_tag b -> a = b.
Proof. intros [= H]. exact (str_of_int_inj _ _ H). Qed.

(* ================================================================== *)
(** * The re-index signal *)
(* ================================================================== *)

(** C10.  [trigger_reindexing] never raises: whatever [send_message]
    answers, the call returns normally after exactly one attempt to
    enqueue; when the attempt fails the failure is dropped, nothing else
    is called, and the collaborators are left as the failed attempt left
    them, so the tenant stays un-reindexed and the caller sees no
    error.  Whatever the caller does next ([rest], the remainder of the
    request that mutated the knowledge base) therefore always runs. *)
Theorem trigger_reindexing_never_raises :
  forall (X : Type) (sv : Services X) (tenant_id : Z) (w : world X),
    let dedup := fst (uuid4 sv (ext w)) in
    let m := reindex_message tenant_id dedup in
    let sent := send_message sv m (snd (uuid4 sv (ext w))) in
    let w' := mkWorld (trace w ++ [EvSendMessage m]) (snd sent) in
    trigger_reindexing sv tenant_id w = (Ok tt, w')
    /\ forall (A : Type) (rest : M X A),
         bind (trigger_reindexing sv tenant_id) (fun _ => rest) w = rest w'.
Proof.
  intros X sv tenant_id w. cbv zeta.
  assert (trigger_reindexing sv tenant_id w
          = (Ok tt,
             mkWorld (trace w ++ [EvSendMessage
                                    (reindex_message tenant_id
                                       (fst (uuid4 sv (ext w))))])
                     (snd (send_message sv
                             (reindex_message tenant_id (fst (uuid4 sv (ext w))))
                             (snd (uuid4 sv (ext w))))))) as Hrun.
  { unfold trigger_reindexing, try_except, bind, local, call.
    destruct (uuid4 sv (ext w)) as [dedup x1]. cbn [fst snd ext trace].
    destruct (send_message sv (reindex_message tenant_id dedup) x1)
      as [[[] | e] x2]; reflexivity. }
  split; [exact Hrun |].
  intros A rest. rewrite (bind_Ok _ (fun _ => rest) _ _ _ Hrun). reflexivity.
Qed.

(* ================================================================== *)
(** * The vector index: probe and create *)
(* ================================================================== *)

Section EnsureIndex.

Context {X : Type}.
Variable sv : Services X.
Variable cfg : config.

Lemma tolerate_conflict_run (e : exn) (w : world X) :
  tolerate_conflict e w = (tolerated e, w).
Proof.
  unfold tolerate_conflict, tolerated, is_conflict.
  destruct e as [c | | |]; try reflexivity.
  destruct (code_in c ["ConflictException"; "ResourceInUseException"]);
    reflexivity.
Qed.

(** The probe: [Ok true] after a write and a delete that both return,
    [Ok false] when one of them fails with a not-found code, the
    failure itself otherwise. *)
Lemma probe_index_run (w : world X) :
  let put := put_vectors sv [ping_record] (ext w) in
  let w2 := mkWorld (trace w ++ [EvPutVectors [ping_record]]) (snd put) in
  let del := delete_vectors sv ["ping"] (snd put) in
  let w3 := mkWorld (trace w2 ++ [EvDeleteVectors ["ping"]]) (snd del) in
  probe_index sv w =
    match fst put with
    | Throw e => (if is_not_found e then Ok false else Raise e, w2)
    | Return _ =>
        match fst del with
        | Return _ => (Ok true, w3)
        | Throw e => (if is_not_found e then Ok false else Raise e, w3)
        end
    end.
Proof.
  cbv zeta. unfold probe_index, try_except, bind, call, is_not_found.
  destruct (put_vectors sv [ping_record] (ext w)) as [[[] | e] x2];
    cbn [fst snd ext trace].
  - destruct (delete_vectors sv ["ping"] x2) as [[[] | e] x3];
      cbn [fst snd ext trace]; [reflexivity |].
    destruct e as [c | | |]; try reflexivity.
    destruct (code_in c ["NotFoundException"; "ValidationException"]);
      reflexivity.
  - destruct e as [c | | |]; try reflexivity.
    destruct (code_in c ["NotFoundException"; "ValidationException"]);
      reflexivity.
Qed.

Lemma creation_run (w : world X) :
  try_except (call (EvCreateIndex tenant_index_spec)
                   (create_index sv tenant_index_spec))
             tolerate_conflict w
  = creation sv w.
Proof.
  unfold try_except, call, creation.
  destruct (create_index sv tenant_index_spec (ext w)) as [[[] | e] x'];
    cbn [fst snd ext trace]; [reflexivity | apply tolerate_conflict_run].
Qed.

(** A failure of the bucket step goes through the outer handler. *)
Lemma ensure_bucket_failure (w w1 : world X) (e : exn) :
  ensure_bucket sv cfg w = (Raise e, w1) ->
  ensure_vector_index sv cfg w = (tolerated e, w1).
Proof.
  intros H. unfold ensure_vector_index.
  rewrite (try_except_Raise _ _ _ e w1).
  - apply tolerate_conflict_run.
  - apply bind_Raise. exact H.
Qed.

(** The decision table of [ensure_vector_index] once the bucket step
    has returned. *)
Lemma ensure_vector_index_run (w w1 : world X) :
  ensure_bucket sv cfg w = (Ok tt, w1) ->
  let put := put_vectors sv [ping_record] (ext w1) in
  let w2 := mkWorld (trace w1 ++ [EvPutVectors [ping_record]]) (snd put) in
  let del := delete_vectors sv ["ping"] (snd put) in
  let w3 := mkWorld (trace w2 ++ [EvDeleteVectors ["ping"]]) (snd del) in
  ensure_vector_index sv cfg w =
    match fst put with
    | Throw e => if is_not_found e then creation sv w2 else (tolerated e, w2)
    | Return _ =>
        match fst del with
        | Return _ => (Ok tt, w3)
        | Throw e => if is_not_found e then creation sv w3 else (tolerated e, w3)
        end
    end.
Proof.
  intros Hb. cbv zeta.
  pose proof (probe_index_run w1) as Hp. cbv zeta in Hp.
  unfold ensure_vector_index, try_except.
  rewrite (bind_Ok _ _ _ _ _ Hb).
  unfold bind at 1. rewrite Hp. clear Hp.
  destruct (put_vectors sv [ping_record] (ext w1)) as [[[] | e] x2];
    cbn [fst snd ext trace].
  - destruct (delete_vectors sv ["ping"] x2) as [[[] | e] x3];
      cbn [fst snd ext trace]; [reflexivity |].
    destruct (is_not_found e).
    + rewrite <- creation_run. reflexivity.
    + apply tolerate_conflict_run.
  - destruct (is_not_found e).
    + rewrite <- creation_run. reflexivity.
    + apply tolerate_conflict_run.
Qed.

End EnsureIndex.

(** C9 (amended).  [ensure_vector_index] lists the buckets and creates
    the bucket when it is not listed; a failure of that step goes
    through the outer handler.  Then it probes with a write and a delete
    of the sentinel record "ping": when both return it returns at once
    and calls nothing else (no [create_index]); when the write, or the
    delete, fails with NotFoundException or ValidationException it calls
    [create_index] for the index of dimension 1024 with the cosine
    metric.  A ClientError from any of these calls whose code is
    ConflictException or ResourceInUseException is turned into success
    ([tolerated]); every other failure is raised to the caller. *)
Theorem ensure_vector_index_contract :
  forall (X : Type) (sv : Services X) (cfg : config) (w w1 : world X)
         (r : outcome unit),
    ensure_bucket sv cfg w = (r, w1) ->
    let put := put_vectors sv [ping_record] (ext w1) in
    let w2 := mkWorld (trace w1 ++ [EvPutVectors [ping_record]]) (snd put) in
    let del := delete_vectors sv ["ping"] (snd put) in
    let w3 := mkWorld (trace w2 ++ [EvDeleteVectors ["ping"]]) (snd del) in
    ensure_vector_index sv cfg w =
      match r with
      | Raise e => (tolerated e, w1)
      | Diverge => (Diverge, w1)
      | Ok _ =>
          match fst put with
          | Throw e =>
              if is_not_found e then creation sv w2 else (tolerated e, w2)
          | Return _ =>
              match fst del with
              | Return _ => (Ok tt, w3)
              | Throw e =>
                  if is_not_found e then creation sv w3 else (tolerated e, w3)
              end
          end
      end.
Proof.
  intros X sv cfg w w1 r H. destruct r as [[] | e |].
  - apply ensure_vector_index_run. exact H.
  - cbv zeta. apply ensure_bucket_failure. exact H.
  - cbv zeta. unfold ensure_vector_index.
    apply try_except_Diverge. apply bind_Diverge. exact H.
Qed.

(** On a fresh account the bucket step creates the bucket, the probe's
    write meets NotFoundException, and the index is created. *)
Lemma ensure_vector_index_contract_witness :
  let w := start Cloud.empty in
  let w1 := snd (ensure_bucket Cloud.services (default_config ∅) w) in
  ensure_bucket Cloud.services (default_config ∅) w = (Ok tt, w1)
  /\ ensure_vector_index Cloud.services (default_config ∅) w
     = creation Cloud.services
         (mkWorld (trace w1 ++ [EvPutVectors [ping_record]]) (ext w1)).
Proof.
  split; [reflexivity |].
  exact (ensure_vector_index_contract _ Cloud.services (default_config ∅)
           (start Cloud.empty) _ (Ok tt) eq_refl).
Defined.

(** C9 as stated fails: a probe write that fails with ConflictException,
    a code that is neither not-found nor invalid, is not propagated;
    [ensure_vector_index] returns normally and creates nothing. *)
Lemma ensure_vector_index_swallows_conflict :
  let sv := Cloud.services in
  let cfg := default_config ∅ in
  let w := start (Cloud.set_faults [None; Some (ClientError "ConflictException")]
                                   (Cloud.ready [])) in
  let w1 := snd (ensure_bucket sv cfg w) in
  ensure_bucket sv cfg w = (Ok tt, w1)
  /\ fst (put_vectors sv [ping_record] (ext w1))
     = Throw (ClientError "ConflictException")
  /\ is_not_found (ClientError "ConflictException") = false
  /\ fst (ensure_vector_index sv cfg w) = Ok tt
  /\ trace (snd (ensure_vector_index sv cfg w))
     = [EvListVectorBuckets; EvPutVectors [ping_record]].
Proof. cbv zeta. repeat split; vm_compute; reflexivity. Qed.

(* ================================================================== *)
(** * Failures of the vector service in retrieval and deletion *)
(* ================================================================== *)

Section BackendFailures.

Context {X : Type}.
Variable sv : Services X.
Variable cfg : config.

(** A failure of [ensure_vector_index] leaves [retrieve_s3_vectors]
    as it is. *)
Lemma retrieve_ensure_failure query tenant_id top_k (w w1 : world X) e :
  ensure_vector_index sv cfg w = (Raise e, w1) ->
  retrieve_s3_vectors sv cfg query tenant_id top_k w = (Raise e, w1).
Proof. intros H. unfold retrieve_s3_vectors. apply bind_Raise. exact H. Qed.

(** So does a failure of the embedding call. *)
Lemma retrieve_embed_failure query tenant_id top_k (w w1 : world X) e x2 :
  ensure_vector_index sv cfg w = (Ok tt, w1) ->
  embed_query sv query (ext w1) = (Throw e, x2) ->
  retrieve_s3_vectors sv cfg query tenant_id top_k w
  = (Raise e, mkWorld (trace w1 ++ [EvEmbedQuery query]) x2).
Proof.
  intros H1 H2. unfold retrieve_s3_vectors.
  rewrite (bind_Ok _ _ _ _ _ H1).
  apply bind_Raise. apply call_Throw. exact H2.
Qed.

(** A ClientError of the query itself, whatever its code, is caught
    and the result is the empty list. *)
Lemma retrieve_query_failure query tenant_id top_k (w w1 : world X)
      q_vec x2 code x3 :
  ensure_vector_index sv cfg w = (Ok tt, w1) ->
  embed_query sv query (ext w1) = (Return q_vec, x2) ->
  query_vectors sv (retrieve_query_args q_vec tenant_id top_k) x2
  = (Throw (ClientError code), x3) ->
  retrieve_s3_vectors sv cfg query tenant_id top_k w
  = (Ok [],
     mkWorld (trace w1 ++ [EvEmbedQuery query;
                           EvQueryVectors
                             (retrieve_query_args q_vec tenant_id top_k)])
             x3).
Proof.
  intros H1 H2 H3. unfold retrieve_s3_vectors.
  rewrite (bind_Ok _ _ _ _ _ H1).
  rewrite (bind_Ok _ _ _ _ _ (call_Return _ _ _ _ _ H2)).
  unfold bind, try_except, call. cbn [ext trace]. rewrite H3.
  cbn [fst snd]. rewrite <- app_assoc.
  destruct (String.eqb code "ResourceNotFoundException"); reflexivity.
Qed.

(** When the query returns, the result is built from its hits and
    from nothing else. *)
Lemma retrieve_query_success query tenant_id top_k (w w1 : world X)
      q_vec x2 resp x3 :
  ensure_vector_index sv cfg w = (Ok tt, w1) ->
  embed_query sv query (ext w1) = (Return q_vec, x2) ->
  query_vectors sv (retrieve_query_args q_vec tenant_id top_k) x2
  = (Return resp, x3) ->
  retrieve_s3_vectors sv cfg query tenant_id top_k w
  = documents_of_hits (default [] (resp_vectors resp))
      (mkWorld (trace w1 ++ [EvEmbedQuery query;
                             EvQueryVectors
                               (retrieve_query_args q_vec tenant_id top_k)])
               x3).
Proof.
  intros H1 H2 H3. unfold retrieve_s3_vectors.
  rewrite (bind_Ok _ _ _ _ _ H1).
  rewrite (bind_Ok _ _ _ _ _ (call_Return _ _ _ _ _ H2)).
  unfold bind at 1. unfold try_except, bind, call. cbn [ext trace].
  rewrite H3. cbn [fst snd]. rewrite <- app_assoc. reflexivity.
Qed.

(** The hits decide the documents; the world is only passed along. *)
Lemma documents_of_hits_pure (vs : list hit) (w : world X) r w' :
  documents_of_hits vs w = (r, w') -> w' = w.
Proof.
  revert r w'. induction vs as [| v vs IH]; intros r w'; cbn.
  - intros [= _ <-]. reflexivity.
  - unfold bind.
    destruct (document_of_hit v w) as [rd wd] eqn:Ed.
    assert (wd = w) as ->.
    { unfold document_of_hit in Ed.
      destruct (default (PStr "") _) as [s | |]; cbn in Ed;
        try (injection Ed as _ <-; reflexivity).
      destruct (negb (Py.truthy (Py.strip s)));
        injection Ed as _ <-; reflexivity. }
    destruct rd as [d | e |]; try (intros [= _ <-]; reflexivity).
    destruct (documents_of_hits vs w) as [[ds | e |] w2] eqn:E2;
      intros [= _ <-]; exact (IH _ _ eq_refl).
Qed.

(** [delete_tenant_vectors] turns every ClientError of its body into a
    normal return. *)
Lemma delete_swallows_client_error fuel tenant_id (w w' : world X) code :
  scan_and_delete sv fuel tenant_id w = (Raise (ClientError code), w') ->
  delete_tenant_vectors sv fuel tenant_id w = (Ok tt, w').
Proof.
  intros H. unfold delete_tenant_vectors.
  rewrite (try_except_Raise _ _ _ _ _ H).
  destruct (code_in code ["ResourceNotFoundException"; "ValidationException"]);
    reflexivity.
Qed.

Lemma delete_never_raises_client_error fuel tenant_id (w : world X) code :
  fst (delete_tenant_vectors sv fuel tenant_id w) <> Raise (ClientError code).
Proof.
  unfold delete_tenant_vectors, try_except.
  destruct (scan_and_delete sv fuel tenant_id w) as [[[] | e |] w1];
    cbn [fst]; try discriminate.
  destruct e as [c | | |]; try discriminate.
  destruct (code_in c ["ResourceNotFoundException"; "ValidationException"]);
    discriminate.
Qed.

(** When the first scan query fails with a ClientError nothing is
    deleted: the run ends after that one call. *)
Lemma delete_first_query_failure fuel tenant_id (w : world X) code x' :
  query_vectors sv (scan_query_kwargs tenant_id None) (ext w)
  = (Throw (ClientError code), x') ->
  delete_tenant_vectors sv (S fuel) tenant_id w
  = (Ok tt,
     mkWorld (trace w ++ [EvQueryVectors (scan_query_kwargs tenant_id None)])
             x').
Proof.
  intros H. apply (delete_swallows_client_error _ _ _ _ code).
  unfold scan_and_delete. apply bind_Raise.
  cbn [scan_tenant_keys]. apply bind_Raise. apply call_Throw. exact H.
Qed.

End BackendFailures.

(** C4 (amended).  A ClientError of the vector service is swallowed at
    the query step and propagated only from the steps before it:
    [delete_tenant_vectors] returns normally whenever its scan or its
    batched deletion raises a ClientError, whatever the code;
    [retrieve_s3_vectors] returns the empty list whenever [query_vectors]
    raises a ClientError, whatever the code; a failure raised by
    [ensure_vector_index] or by the embedding call in
    [retrieve_s3_vectors] does reach the caller. *)
Theorem backend_failure_handling :
  forall (X : Type) (sv : Services X) (cfg : config) (tenant_id : Z),
    (forall fuel w w' code,
        scan_and_delete sv fuel tenant_id w = (Raise (ClientError code), w') ->
        delete_tenant_vectors sv fuel tenant_id w = (Ok tt, w'))
    /\ (forall query top_k w w1 q_vec x2 code x3,
        ensure_vector_index sv cfg w = (Ok tt, w1) ->
        embed_query sv query (ext w1) = (Return q_vec, x2) ->
        query_vectors sv (retrieve_query_args q_vec tenant_id top_k) x2
        = (Throw (ClientError code), x3) ->
        fst (retrieve_s3_vectors sv cfg query tenant_id top_k w) = Ok [])
    /\ (forall query top_k w w1 e,
        ensure_vector_index sv cfg w = (Raise e, w1) ->
        fst (retrieve_s3_vectors sv cfg query tenant_id top_k w) = Raise e)
    /\ (forall query top_k w w1 e x2,
        ensure_vector_index sv cfg w = (Ok tt, w1) ->
        embed_query sv query (ext w1) = (Throw e, x2) ->
        fst (retrieve_s3_vectors sv cfg query tenant_id top_k w) = Raise e).
Proof.
  intros X sv cfg tenant_id. repeat split.
  - intros fuel w w' code H.
    exact (delete_swallows_client_error sv fuel tenant_id w w' code H).
  - intros * H1 H2 H3.
    rewrite (retrieve_query_failure sv cfg _ _ _ _ _ _ _ _ _ H1 H2 H3).
    reflexivity.
  - intros * H. rewrite (retrieve_ensure_failure sv cfg _ _ _ _ _ _ H).
    reflexivity.
  - intros * H1 H2.
    rewrite (retrieve_embed_failure sv cfg _ _ _ _ _ _ _ H1 H2). reflexivity.
Qed.

Lemma backend_failure_handling_witness :
  let sv := Cloud.services in
  let cfg := default_config ∅ in
  let w := start (Cloud.set_faults [Some access_denied] (Cloud.ready two_tenants)) in
  scan_and_delete sv 5 7 w
  = (Raise access_denied, snd (scan_and_delete sv 5 7 w))
  /\ delete_tenant_vectors sv 5 7 w = (Ok tt, snd (scan_and_delete sv 5 7 w)).
Proof.
  cbv zeta. split; [reflexivity |].
  apply (proj1 (backend_failure_handling _ Cloud.services (default_config ∅) 7)
           5 _ _ "AccessDeniedException").
  reflexivity.
Defined.

(** C4 as stated fails: with tenant 7's records in the index, an access
    failure of [query_vectors] (an unexpected code) is not propagated;
    [delete_tenant_vectors] returns normally with every record still
    stored, and [retrieve_s3_vectors] returns the empty list. *)
Lemma backend_fatal_is_swallowed :
  let sv := Cloud.services in
  let cfg := default_config ∅ in
  let w_delete :=
    start (Cloud.set_faults [Some access_denied] (Cloud.ready two_tenants)) in
  let w_query :=
    start (Cloud.set_faults [None; None; None; None; Some access_denied]
                            (Cloud.ready two_tenants)) in
  fst (delete_tenant_vectors sv 5 7 w_delete) = Ok tt
  /\ Cloud.records (ext (snd (delete_tenant_vectors sv 5 7 w_delete)))
     = two_tenants
  /\ fst (retrieve_s3_vectors sv cfg "hours" 7 8 w_query) = Ok []
  /\ trace (snd (retrieve_s3_vectors sv cfg "hours" 7 8 w_query))
     = [EvListVectorBuckets; EvPutVectors [ping_record];
        EvDeleteVectors ["ping"]; EvEmbedQuery "hours";
        EvQueryVectors (retrieve_query_args (Cloud.embedding "hours") 7 8)].
Proof. cbv zeta. repeat split; vm_compute; reflexivity.
Qed.

(* ================================================================== *)
(** * The in-memory deployment *)
(* ================================================================== *)

Section CloudFacts.

Variable cfg : config.

Lemma guarded_no_fault {A} (op : Cloud.state -> reply A * Cloud.state) st :
  Cloud.faults st = [] -> Cloud.guarded op st = op st.
Proof. unfold Cloud.guarded. intros ->. reflexivity. Qed.

Lemma tagged_iff (tenant_id : Z) (r : VectorRecord) :
  Cloud.tagged TENANT_ID_KEY (Py.str_of_int tenant_id) r = true
  <-> record_tenant r = Some (tenant_tag tenant_id).
Proof.
  unfold Cloud.tagged, record_tenant, tenant_tag.
  destruct (vmetadata r !! TENANT_ID_KEY) as [[s | z | f] |]; split;
    try discriminate; try (intros [= H]; discriminate).
  - intros H. apply String.eqb_eq in H. subst. reflexivity.
  - intros [= ->]. apply String.eqb_refl.
Qed.

Lemma remove_keys_In keys rs r :
  In r (Cloud.remove_keys keys rs) <-> In r rs /\ ~ In (key r) keys.
Proof.
  unfold Cloud.remove_keys, Cloud.has_key. rewrite filter_In.
  split; intros [H1 H2]; split; auto.
  - intros Hin. apply negb_true_iff in H2.
    assert (existsb (String.eqb (key r)) keys = true) as E.
    { apply existsb_exists. exists (key r). split; [exact Hin |].
      apply String.eqb_refl. }
    congruence.
  - apply negb_true_iff. apply not_true_is_false. intros E.
    apply existsb_exists in E as (k & Hk & Ek).
    apply String.eqb_eq in Ek. subst. auto.
Qed.

(** Writing and removing the sentinel keeps only records that were
    there. *)
Lemma probe_keeps rs r :
  In r (Cloud.remove_keys ["ping"]
          (Cloud.remove_keys ["ping"] rs ++ [ping_record])) ->
  In r rs.
Proof.
  intros H. apply remove_keys_In in H as [H Hk].
  apply in_app_or in H as [H | [<- | []]].
  - apply remove_keys_In in H. tauto.
  - exfalso. apply Hk. left. reflexivity.
Qed.

Lemma ensured_faults st : Cloud.faults (ensured cfg st) = Cloud.faults st.
Proof.
  unfold ensured.
  destruct (existsb _ _), (Cloud.index st); reflexivity.
Qed.

Lemma ensured_index st : Cloud.index (ensured cfg st) <> None.
Proof.
  unfold ensured.
  destruct (existsb _ _), (Cloud.index st) eqn:E; cbn; congruence.
Qed.

Lemma ensured_records st r :
  In r (Cloud.records (ensured cfg st)) -> In r (Cloud.records st).
Proof.
  unfold ensured.
  destruct (existsb _ _), (Cloud.index st); cbn [Cloud.records Cloud.set_records
    Cloud.set_index Cloud.set_buckets]; auto using probe_keeps.
Qed.

Lemma cloud_ensure_bucket tr st :
  Cloud.faults st = [] ->
  let name := S3_VECTORS_BUCKET_NAME cfg in
  exists evs,
    ensure_bucket Cloud.services cfg (mkWorld tr st)
    = (Ok tt,
       mkWorld (tr ++ evs)
         (if existsb (String.eqb name) (Cloud.vector_buckets st) then st
          else Cloud.set_buckets (Cloud.vector_buckets st ++ [name]) st)).
Proof.
  intros Hf. cbv zeta. unfold ensure_bucket, bind, call.
  cbn [ext trace list_vector_buckets create_vector_bucket Cloud.services].
  rewrite (guarded_no_fault _ _ Hf). cbn [Cloud.do_list_buckets fst snd].
  destruct (existsb (String.eqb (S3_VECTORS_BUCKET_NAME cfg))
                    (Cloud.vector_buckets st)) eqn:E; cbn [negb].
  - exists [EvListVectorBuckets]. reflexivity.
  - cbn [ext trace]. rewrite (guarded_no_fault _ _ Hf).
    unfold Cloud.do_create_bucket. rewrite E.
    exists [EvListVectorBuckets;
            EvCreateVectorBucket (S3_VECTORS_BUCKET_NAME cfg)].
    rewrite <- app_assoc. reflexivity.
Qed.

Lemma cloud_put vs st spec :
  Cloud.faults st = [] -> Cloud.index st = Some spec ->
  put_vectors Cloud.services vs st
  = (Return tt, Cloud.set_records (Cloud.upsert vs (Cloud.records st)) st).
Proof.
  intros Hf Hi. cbn [put_vectors Cloud.services].
  rewrite (guarded_no_fault _ _ Hf). unfold Cloud.do_put. rewrite Hi.
  reflexivity.
Qed.

Lemma cloud_put_missing vs st :
  Cloud.faults st = [] -> Cloud.index st = None ->
  put_vectors Cloud.services vs st
  = (Throw (ClientError "NotFoundException"), st).
Proof.
  intros Hf Hi. cbn [put_vectors Cloud.services].
  rewrite (guarded_no_fault _ _ Hf). unfold Cloud.do_put. rewrite Hi.
  reflexivity.
Qed.

Lemma cloud_delete keys st spec :
  Cloud.faults st = [] -> Cloud.index st = Some spec ->
  delete_vectors Cloud.services keys st
  = (Return tt,
     Cloud.set_records (Cloud.remove_keys keys (Cloud.records st)) st).
Proof.
  intros Hf Hi. cbn [delete_vectors Cloud.services].
  rewrite (guarded_no_fault _ _ Hf). unfold Cloud.do_delete. rewrite Hi.
  reflexivity.
Qed.

Lemma cloud_create_index spec st :
  Cloud.faults st = [] -> Cloud.index st = None ->
  create_index Cloud.services spec st
  = (Return tt, Cloud.set_index (Some spec) st).
Proof.
  intros Hf Hi. cbn [create_index Cloud.services].
  rewrite (guarded_no_fault _ _ Hf). unfold Cloud.do_create_index.
  rewrite Hi. reflexivity.
Qed.

Lemma cloud_query_missing args st :
  Cloud.faults st = [] -> Cloud.index st = None ->
  query_vectors Cloud.services args st
  = (Throw (ClientError "NotFoundException"), st).
Proof.
  intros Hf Hi. cbn [query_vectors Cloud.services].
  rewrite (guarded_no_fault _ _ Hf). unfold Cloud.do_query. rewrite Hi.
  reflexivity.
Qed.

(** Without injected faults [ensure_vector_index] returns and leaves
    the deployment [ensured]. *)
Lemma cloud_ensure tr st :
  Cloud.faults st = [] ->
  exists evs,
    ensure_vector_index Cloud.services cfg (mkWorld tr st)
    = (Ok tt, mkWorld (tr ++ evs) (ensured cfg st)).
Proof.
  intros Hf. destruct (cloud_ensure_bucket tr st Hf) as (evs & Hb).
  cbv zeta in Hb.
  rewrite (ensure_vector_index_run _ _ _ _ Hb). cbv zeta. cbn [ext trace].
  unfold ensured.
  set (st1 := if existsb _ _ then st else _) in *.
  assert (Cloud.faults st1 = []) as Hf1.
  { subst st1. destruct (existsb _ _); [exact Hf | exact Hf]. }
  assert (Cloud.index st1 = Cloud.index st) as Hi1.
  { subst st1. destruct (existsb _ _); reflexivity. }
  assert (Cloud.records st1 = Cloud.records st) as Hr1.
  { subst st1. destruct (existsb _ _); reflexivity. }
  destruct (Cloud.index st) as [spec |] eqn:Ei.
  - rewrite (cloud_put _ _ _ Hf1 Hi1). cbn [fst snd].
    rewrite (cloud_delete _ _ spec) by (destruct st1; assumption).
    cbn [fst snd]. rewrite Hr1.
    exists (evs ++ [EvPutVectors [ping_record]; EvDeleteVectors ["ping"]]).
    rewrite <- !app_assoc. destruct st1; reflexivity.
  - rewrite (cloud_put_missing _ _ Hf1 Hi1). cbn [fst snd].
    change (is_not_found (ClientError "NotFoundException")) with true.
    cbv iota. unfold creation. cbn [ext trace].
    rewrite (cloud_create_index _ _ Hf1 Hi1). cbn [fst snd].
    exists (evs ++ [EvPutVectors [ping_record];
                    EvCreateIndex tenant_index_spec]).
    rewrite <- !app_assoc. reflexivity.
Qed.

Lemma cloud_embed_query text st :
  Cloud.faults st = [] ->
  embed_query Cloud.services text st = (Return (Cloud.embedding text), st).
Proof.
  intros Hf. cbn [embed_query Cloud.services].
  rewrite (guarded_no_fault _ _ Hf). reflexivity.
Qed.

(** The answer of a fault-free query on an existing index. *)
Lemma cloud_query args st spec v off :
  Cloud.faults st = [] -> Cloud.index st = Some spec ->
  filter_value (snd (filter args)) = Some v ->
  Cloud.offset_of (nextToken args) = Some off ->
  (topK args <? 1)%Z = false ->
  let k := Z.to_nat (topK args) in
  let matching := List.filter (Cloud.tagged (fst (filter args)) v)
                              (Cloud.records st) in
  query_vectors Cloud.services args st
  = (Return {| resp_vectors :=
                 Some (map (Cloud.hit_of args) (take k (drop off matching)));
               resp_nextToken :=
                 if (off + k <? length matching)%nat
                 then Some (Cloud.numeral (N.of_nat (off + k)))
                 else None |}, st).
Proof.
  intros Hf Hi Hv Ho Hk. cbv zeta. cbn [query_vectors Cloud.services].
  rewrite (guarded_no_fault _ _ Hf). unfold Cloud.do_query.
  rewrite Hi, Hv, Ho, Hk. reflexivity.
Qed.

Lemma no_tagged_filter (tenant_id : Z) rs :
  (forall r, In r rs -> record_tenant r <> Some (tenant_tag tenant_id)) ->
  List.filter (Cloud.tagged TENANT_ID_KEY (Py.str_of_int tenant_id)) rs = [].
Proof.
  induction rs as [| r rs IH]; intros H; cbn; [reflexivity |].
  destruct (Cloud.tagged _ _ r) eqn:E.
  - apply tagged_iff in E. exfalso. apply (H r); [left; reflexivity | exact E].
  - apply IH. intros r' Hr'. apply H. right. exact Hr'.
Qed.

(** A tenant without stored records gets the empty list, whether or
    not the index exists when the query starts. *)
Lemma cloud_retrieve_none tr st query tenant_id top_k :
  Cloud.faults st = [] ->
  (forall r, In r (Cloud.records st) ->
             record_tenant r <> Some (tenant_tag tenant_id)) ->
  fst (retrieve_s3_vectors Cloud.services cfg query tenant_id top_k
         (mkWorld tr st)) = Ok [].
Proof.
  intros Hf Hnone.
  destruct (cloud_ensure tr st Hf) as (evs & He).
  assert (Cloud.faults (ensured cfg st) = []) as Hf'
      by (rewrite ensured_faults; exact Hf).
  pose proof (cloud_embed_query query _ Hf') as Hq.
  destruct (Cloud.index (ensured cfg st)) as [spec |] eqn:Hi;
    [| exfalso; exact (ensured_index _ Hi)].
  destruct (top_k <? 1)%Z eqn:Hk.
  - assert (query_vectors Cloud.services
              (retrieve_query_args (Cloud.embedding query) tenant_id top_k)
              (ensured cfg st)
            = (Throw (ClientError "ValidationException"), ensured cfg st)) as Hv.
    { cbn [query_vectors Cloud.services].
      rewrite (guarded_no_fault _ _ Hf'). unfold Cloud.do_query.
      rewrite Hi. cbn. rewrite Hk. reflexivity. }
    rewrite (retrieve_query_failure _ _ _ _ _ _ _ _ _ _ _ He Hq Hv).
    reflexivity.
  - pose proof (cloud_query
                  (retrieve_query_args (Cloud.embedding query) tenant_id top_k)
                  _ spec (Py.str_of_int tenant_id) 0 Hf' Hi eq_refl eq_refl Hk)
      as Hv.
    cbv zeta in Hv. cbn [filter fst snd retrieve_query_args] in Hv.
    rewrite no_tagged_filter in Hv
      by (intros r Hr; apply Hnone; eapply ensured_records; exact Hr).
    rewrite (retrieve_query_success _ _ _ _ _ _ _ _ _ _ _ He Hq Hv).
    cbn. rewrite take_nil. reflexivity.
Qed.

(** Deleting on a deployment without index changes nothing. *)
Lemma cloud_delete_missing tr st fuel tenant_id :
  Cloud.faults st = [] -> Cloud.index st = None ->
  delete_tenant_vectors Cloud.services (S fuel) tenant_id (mkWorld tr st)
  = (Ok tt,
     mkWorld (tr ++ [EvQueryVectors (scan_query_kwargs tenant_id None)]) st).
Proof.
  intros Hf Hi.
  exact (delete_first_query_failure Cloud.services fuel tenant_id
           (mkWorld tr st) "NotFoundException" st
           (cloud_query_missing _ _ Hf Hi)).
Qed.

End CloudFacts.

(** C6.  A query or a deletion that meets an index that is not there
    degrades instead of failing.  For every service: when
    [query_vectors] answers the similarity query with a ClientError
    (ResourceNotFoundException, or any other code), [retrieve_s3_vectors]
    returns the empty list; when it answers the first scan query of
    [delete_tenant_vectors] with a ClientError, the deletion returns
    normally and has called nothing but that query.  On the in-memory
    deployment whose index has not been created, [retrieve_s3_vectors]
    returns the empty list and [delete_tenant_vectors] returns with the
    deployment unchanged. *)
Theorem index_not_ready_degrades :
  forall (X : Type) (sv : Services X) (cfg : config) (tenant_id : Z),
    (forall query top_k w w1 q_vec x2 code x3,
        ensure_vector_index sv cfg w = (Ok tt, w1) ->
        embed_query sv query (ext w1) = (Return q_vec, x2) ->
        query_vectors sv (retrieve_query_args q_vec tenant_id top_k) x2
        = (Throw (ClientError code), x3) ->
        retrieve_s3_vectors sv cfg query tenant_id top_k w
        = (Ok [],
           mkWorld (trace w1 ++ [EvEmbedQuery query;
                                 EvQueryVectors
                                   (retrieve_query_args q_vec tenant_id top_k)])
                   x3))
    /\ (forall fuel w code x',
        query_vectors sv (scan_query_kwargs tenant_id None) (ext w)
        = (Throw (ClientError code), x') ->
        delete_tenant_vectors sv (S fuel) tenant_id w
        = (Ok tt,
           mkWorld (trace w ++ [EvQueryVectors (scan_query_kwargs tenant_id None)])
                   x'))
    /\ (forall tr st query top_k,
        Cloud.faults st = [] -> Cloud.index st = None -> Cloud.records st = [] ->
        fst (retrieve_s3_vectors Cloud.services cfg query tenant_id top_k
               (mkWorld tr st)) = Ok [])
    /\ (forall tr st fuel,
        Cloud.faults st = [] -> Cloud.index st = None ->
        delete_tenant_vectors Cloud.services (S fuel) tenant_id (mkWorld tr st)
        = (Ok tt,
           mkWorld (tr ++ [EvQueryVectors (scan_query_kwargs tenant_id None)])
                   st)).
Proof.
  intros X sv cfg tenant_id. repeat split.
  - intros * H1 H2 H3. exact (retrieve_query_failure sv cfg _ _ _ _ _ _ _ _ _ H1 H2 H3).
  - intros * H. exact (delete_first_query_failure sv _ _ _ _ _ H).
  - intros tr st query top_k Hf _ Hr.
    apply cloud_retrieve_none; [exact Hf |].
    rewrite Hr. intros r [].
  - intros tr st fuel Hf Hi. apply cloud_delete_missing; assumption.
Qed.

Lemma index_not_ready_degrades_witness :
  let cfg := default_config ∅ in
  (Cloud.faults Cloud.empty = [] /\ Cloud.index Cloud.empty = None
   /\ Cloud.records Cloud.empty = [])
  /\ fst (retrieve_s3_vectors Cloud.services cfg "hours" 7 8
            (mkWorld [] Cloud.empty)) = Ok []
  /\ delete_tenant_vectors Cloud.services 1 7 (mkWorld [] Cloud.empty)
     = (Ok tt, mkWorld ([] ++ [EvQueryVectors (scan_query_kwargs 7 None)])
                       Cloud.empty).
Proof.
  cbv zeta.
  destruct (index_not_ready_degrades _ Cloud.services (default_config ∅) 7)
    as (_ & _ & Hr & Hd).
  split; [repeat split |].
  split.
  - apply (Hr [] Cloud.empty "hours" 8%Z); reflexivity.
  - apply (Hd [] Cloud.empty 0%nat); reflexivity.
Defined.

(* ================================================================== *)
(** * Tenant isolation *)
(* ================================================================== *)

Section Isolation.

Context {X : Type}.
Variable sv : Services X.
Variable ns : namespace.
Variable cfg : config.

(** ** What the functions emit *)

Lemma emits_probe_index (P : event -> Prop) :
  P (EvPutVectors [ping_record]) -> P (EvDeleteVectors ["ping"]) ->
  emits P (probe_index sv).
Proof.
  intros Hp Hd. unfold probe_index.
  repeat emits_step assumption.
  destruct e as [c | | |]; try apply emits_raise.
  destruct (negb _); [apply emits_raise | apply emits_ret].
Qed.

Lemma emits_ensure_vector_index (P : event -> Prop) :
  P EvListVectorBuckets ->
  P (EvCreateVectorBucket (S3_VECTORS_BUCKET_NAME cfg)) ->
  P (EvPutVectors [ping_record]) -> P (EvDeleteVectors ["ping"]) ->
  P (EvCreateIndex tenant_index_spec) ->
  emits P (ensure_vector_index sv cfg).
Proof.
  intros Hl Hb Hp Hd Hc. unfold ensure_vector_index, ensure_bucket.
  apply emits_try_except.
  - apply emits_bind.
    + apply emits_bind; [apply emits_call; exact Hl | intros buckets].
      destruct (negb _); [apply emits_call; exact Hb | apply emits_ret].
    + intros _. apply emits_bind; [apply emits_probe_index; assumption |].
      intros [|]; [apply emits_ret | apply emits_call; exact Hc].
  - intros e. unfold tolerate_conflict.
    destruct e as [c | | |]; try apply emits_raise.
    destruct (code_in c _); [apply emits_ret | apply emits_raise].
Qed.

Lemma emits_documents_of_hits (P : event -> Prop) vs :
  emits P (documents_of_hits (X:=X) vs).
Proof.
  induction vs as [| v vs IH]; cbn; [apply emits_ret |].
  apply emits_bind.
  - unfold document_of_hit.
    destruct (default (PStr "") _); try apply emits_raise.
    destruct (negb _); apply emits_ret.
  - intros d. apply emits_bind; [exact IH | intros ds; apply emits_ret].
Qed.

Lemma tenant_scoped_other tenant_id ev :
  (forall args, ev <> EvQueryVectors args) -> tenant_scoped tenant_id ev.
Proof. intros H args E. exfalso. exact (H args E). Qed.

(** The query of [retrieve_s3_vectors] carries the caller's tenant
    filter, and no other query is made. *)
Lemma retrieve_is_tenant_scoped query tenant_id top_k :
  emits (tenant_scoped tenant_id)
        (retrieve_s3_vectors sv cfg query tenant_id top_k).
Proof.
  unfold retrieve_s3_vectors.
  apply emits_bind.
  { apply emits_ensure_vector_index;
      apply tenant_scoped_other; discriminate. }
  intros _. apply emits_bind.
  { apply emits_call. apply tenant_scoped_other. discriminate. }
  intros q_vec. apply emits_bind.
  - apply emits_try_except.
    + apply emits_bind; [| intros r; apply emits_ret].
      apply emits_call. intros args [= <-]. split; reflexivity.
    + intros e. destruct e as [c | | |]; try apply emits_raise.
      destruct (String.eqb c _); apply emits_ret.
  - intros [r |]; [apply emits_documents_of_hits | apply emits_ret].
Qed.

Lemma emits_scan_tenant_keys fuel tenant_id keys token :
  emits (delete_step tenant_id)
        (scan_tenant_keys sv fuel tenant_id keys token).
Proof.
  revert keys token. induction fuel as [| fuel IH]; intros keys token; cbn.
  - apply emits_diverge.
  - apply emits_bind.
    + apply emits_call. left. eexists. reflexivity.
    + intros resp. destruct (negb _); [apply emits_ret | apply IH].
Qed.

Lemma batch_at_length keys i : length (batch_at keys i) <= 100.
Proof. unfold batch_at. apply firstn_le_length. Qed.

(** [delete_tenant_vectors] only issues tenant-filtered scan queries
    with page size 30 and deletions of at most 100 keys. *)
Lemma emits_delete_tenant_vectors fuel tenant_id :
  emits (delete_step tenant_id) (delete_tenant_vectors sv fuel tenant_id).
Proof.
  unfold delete_tenant_vectors, scan_and_delete.
  apply emits_try_except.
  - apply emits_bind; [apply emits_scan_tenant_keys | intros keys].
    destruct (nonempty keys); [| apply emits_ret].
    apply emits_for_each. intros i. apply emits_call.
    right. eexists. split; [reflexivity | apply batch_at_length].
  - intros e. destruct e as [c | | |]; try apply emits_raise.
    destruct (code_in c _); apply emits_ret.
Qed.

Lemma delete_step_scoped tenant_id ev :
  delete_step tenant_id ev -> tenant_scoped tenant_id ev.
Proof.
  intros [(token & ->) | (batch & -> & _)] args [= <-].
  split; reflexivity.
Qed.

Lemma delete_is_tenant_scoped fuel tenant_id :
  emits (tenant_scoped tenant_id) (delete_tenant_vectors sv fuel tenant_id).
Proof.
  eapply emits_weaken; [apply delete_step_scoped |].
  apply emits_delete_tenant_vectors.
Qed.

(** ** What the upload writes *)

Lemma vector_record_tenant tenant_id uuid vec chunk :
  record_tenant (vector_record tenant_id uuid vec chunk)
  = Some (tenant_tag tenant_id).
Proof. reflexivity. Qed.

Lemma puts_tagged_other tenant_id ev :
  (forall vs, ev <> EvPutVectors vs) -> puts_tagged tenant_id ev.
Proof. intros H vs E. exfalso. exact (H vs E). Qed.

Lemma emits_upload_in_batches tenant_id pairs payload total :
  Forall (fun r => record_tenant r = Some (tenant_tag tenant_id)) payload ->
  emits (puts_tagged tenant_id)
        (upload_in_batches sv tenant_id pairs payload total).
Proof.
  revert payload total.
  induction pairs as [| [vec chunk] rest IH]; intros payload total Hp;
    cbn [upload_in_batches].
  - destruct (nonempty payload); [| apply emits_ret].
    apply emits_bind; [| intros _; apply emits_ret].
    apply emits_call. intros vs [= <-]. exact Hp.
  - apply emits_bind; [apply emits_local | intros uuid].
    assert (Forall (fun r => record_tenant r = Some (tenant_tag tenant_id))
                   (payload ++ [vector_record tenant_id uuid vec chunk]))
      as Hp'.
    { apply Forall_app. split; [exact Hp |].
      constructor; [apply vector_record_tenant | constructor]. }
    destruct (batch_size <=? length (payload ++ _))%nat.
    + apply emits_bind.
      * apply emits_call. intros vs [= <-]. exact Hp'.
      * intros _. apply IH. constructor.
    + apply IH. exact Hp'.
Qed.

Lemma emits_fetch_url_content P url :
  P (EvHttpGet url) -> emits P (fetch_url_content sv url).
Proof.
  intros H. unfold fetch_url_content.
  apply emits_try_except; [| intros e; apply emits_ret].
  apply emits_bind; [apply emits_call; exact H | intros [status body]].
  destruct (negb _); [apply emits_ret |].
  destruct (_ <? _)%nat; apply emits_ret.
Qed.

Lemma emits_crawl (P : event -> Prop) urls :
  (forall url, P (EvHttpGet url)) -> emits P (crawl_urls_lightweight sv urls).
Proof.
  intros H. unfold crawl_urls_lightweight.
  apply emits_bind; [apply emits_local | intros named].
  apply emits_bind; [| intros results; apply emits_ret].
  induction (schedule (length urls) named) as [| i rest IH];
    cbn [run_fetches]; [apply emits_ret |].
  apply emits_bind.
  - destruct (urls !! i); [apply emits_fetch_url_content; apply H
                          | apply emits_ret].
  - intros d. apply emits_bind; [exact IH | intros ds; apply emits_ret].
Qed.

Lemma emits_valid_url_lines (P : event -> Prop) lines :
  emits P (valid_url_lines (X:=X) ns lines).
Proof.
  induction lines as [| line rest IH]; cbn; [apply emits_ret |].
  apply emits_bind.
  - destruct (Py.truthy _); [| apply emits_ret].
    destruct (is_valid_url ns); [apply emits_ret | apply emits_raise].
  - intros keep. apply emits_bind; [exact IH | intros t; apply emits_ret].
Qed.

Lemma emits_s3_load_urls (P : event -> Prop) tenant_id :
  P (EvGetObject (urls_key tenant_id)) ->
  emits P (s3_load_urls_from_file sv ns tenant_id).
Proof.
  intros H. unfold s3_load_urls_from_file.
  apply emits_try_except.
  - apply emits_bind; [apply emits_call; exact H | intros content].
    apply emits_valid_url_lines.
  - intros e. destruct e; first [apply emits_ret | apply emits_raise].
Qed.

Lemma emits_load_tenant_files (P : event -> Prop) tenant_id temp_dir keys :
  (forall k p, P (EvDownloadFile k p)) -> (forall e p, P (EvLoad e p)) ->
  emits P (load_tenant_files sv cfg tenant_id temp_dir keys).
Proof.
  intros Hd Hl. induction keys as [| k rest IH]; cbn; [apply emits_ret |].
  apply emits_bind.
  - unfold load_tenant_file. destruct (negb _); [apply emits_ret |].
    apply emits_bind; [apply emits_call; apply Hd | intros _].
    apply emits_bind; [apply emits_call; apply Hl | intros docs].
    apply emits_ret.
  - intros docs. apply emits_bind; [exact IH | intros more; apply emits_ret].
Qed.

(** Every record the body of the re-index writes is tagged with the
    tenant that is being indexed. *)
Lemma index_documents_puts_tagged tenant_id additional_urls temp_dir :
  emits (puts_tagged tenant_id)
        (index_documents sv ns cfg tenant_id additional_urls temp_dir).
Proof.
  unfold index_documents, s3_list_tenant_files.
  apply emits_bind.
  { apply emits_bind; [| intros pages; apply emits_ret].
    apply emits_call. apply puts_tagged_other. discriminate. }
  intros keys. apply emits_bind.
  { apply emits_load_tenant_files; intros; apply puts_tagged_other;
      discriminate. }
  intros file_docs. apply emits_bind.
  { apply emits_s3_load_urls. apply puts_tagged_other. discriminate. }
  intros urls. apply emits_bind.
  { destruct (nonempty _); [| apply emits_ret].
    apply emits_crawl. intros url. apply puts_tagged_other. discriminate. }
  intros url_docs. destruct (negb _); [apply emits_ret |].
  apply emits_bind.
  { apply emits_call. apply puts_tagged_other. discriminate. }
  intros vectors. apply emits_upload_in_batches. constructor.
Qed.

(** In the whole re-index the only other put is the probe's sentinel,
    which [ensure_vector_index] writes and removes. *)
Lemma index_tenant_files_puts fuel tenant_id additional_urls :
  emits (puts_tagged_or_probe tenant_id)
        (index_tenant_files sv ns cfg fuel tenant_id additional_urls).
Proof.
  assert (forall ev, (forall vs, ev <> EvPutVectors vs) ->
                     puts_tagged_or_probe tenant_id ev) as Hother.
  { intros ev H vs E. exfalso. exact (H vs E). }
  unfold index_tenant_files.
  apply emits_bind.
  { apply emits_ensure_vector_index; try (apply Hother; discriminate).
    intros vs [= <-]. left. reflexivity. }
  intros _. apply emits_bind.
  { eapply emits_weaken; [| apply emits_delete_tenant_vectors].
    intros ev [(token & ->) | (batch & -> & _)]; apply Hother; discriminate. }
  intros _. apply emits_bind; [apply emits_global | intros _].
  apply emits_bind; [apply emits_call; apply Hother; discriminate |].
  intros temp_dir. apply emits_try_finally.
  - eapply emits_weaken; [| apply index_documents_puts_tagged].
    intros ev H vs E. right. exact (H vs E).
  - apply emits_bind; [apply emits_global | intros _].
    apply emits_call. apply Hother. discriminate.
Qed.

(** ** What a query returns *)

Lemma retrieve_inversion query tenant_id top_k (w w' : world X) docs :
  retrieve_s3_vectors sv cfg query tenant_id top_k w = (Ok docs, w') ->
  exists w1 q_vec x2,
    ensure_vector_index sv cfg w = (Ok tt, w1)
    /\ embed_query sv query (ext w1) = (Return q_vec, x2)
    /\ ((exists resp x3,
            query_vectors sv (retrieve_query_args q_vec tenant_id top_k) x2
            = (Return resp, x3)
            /\ documents_of_hits (default [] (resp_vectors resp)) w'
               = (Ok docs, w'))
        \/ (exists code x3,
               query_vectors sv (retrieve_query_args q_vec tenant_id top_k) x2
               = (Throw (ClientError code), x3)
               /\ docs = [])).
Proof.
  intros H.
  destruct (ensure_vector_index sv cfg w) as [[[] | e |] w1] eqn:E1.
  2: { rewrite (retrieve_ensure_failure _ _ _ _ _ _ _ _ E1) in H.
       discriminate. }
  2: { unfold retrieve_s3_vectors in H.
       rewrite (bind_Diverge _ _ _ _ E1) in H. discriminate. }
  destruct (embed_query sv query (ext w1)) as [[q_vec | e] x2] eqn:E2.
  2: { rewrite (retrieve_embed_failure _ _ _ _ _ _ _ _ _ E1 E2) in H.
       discriminate. }
  exists w1, q_vec, x2. split; [reflexivity |]. split; [first [reflexivity | exact E2] |].
  destruct (query_vectors sv (retrieve_query_args q_vec tenant_id top_k) x2)
    as [[resp | e] x3] eqn:E3.
  - left. exists resp, x3. split; [first [reflexivity | exact E3] |].
    rewrite (retrieve_query_success _ _ _ _ _ _ _ _ _ _ _ E1 E2 E3) in H.
    pose proof (documents_of_hits_pure _ _ _ _ H) as Hw.
    rewrite <- Hw in H at 1. exact H.
  - destruct e as [code | name | what | what].
    + right. exists code, x3. split; [first [reflexivity | exact E3] |].
      rewrite (retrieve_query_failure _ _ _ _ _ _ _ _ _ _ _ E1 E2 E3) in H.
      congruence.
    + exfalso. unfold retrieve_s3_vectors in H.
      rewrite (bind_Ok _ _ _ _ _ E1) in H.
      rewrite (bind_Ok _ _ _ _ _ (call_Return _ _ _ _ _ E2)) in H.
      unfold bind, try_except, call in H. cbn [ext trace] in H.
      rewrite E3 in H. discriminate.
    + exfalso. unfold retrieve_s3_vectors in H.
      rewrite (bind_Ok _ _ _ _ _ E1) in H.
      rewrite (bind_Ok _ _ _ _ _ (call_Return _ _ _ _ _ E2)) in H.
      unfold bind, try_except, call in H. cbn [ext trace] in H.
      rewrite E3 in H. discriminate.
    + exfalso. unfold retrieve_s3_vectors in H.
      rewrite (bind_Ok _ _ _ _ _ E1) in H.
      rewrite (bind_Ok _ _ _ _ _ (call_Return _ _ _ _ _ E2)) in H.
      unfold bind, try_except, call in H. cbn [ext trace] in H.
      rewrite E3 in H. discriminate.
Qed.

End Isolation.

Lemma In_take {A} (x : A) n l : In x (take n l) -> In x l.
Proof.
  revert l. induction n as [| n IH]; intros [| y l]; cbn; try tauto.
  intros [-> | H]; [left; reflexivity | right; apply IH; exact H].
Qed.

Lemma In_drop {A} (x : A) n l : In x (drop n l) -> In x l.
Proof.
  revert l. induction n as [| n IH]; intros [| y l]; cbn; try tauto.
  intros H. right. apply IH. exact H.
Qed.

Lemma do_query_respects_filter args st resp st' k v :
  Cloud.do_query args st = (Return resp, st') ->
  returnMetadata args = true ->
  filter args = (k, FValue v) ->
  Forall (fun h => exists m, hit_metadata h = Some m /\ m !! k = Some (PStr v))
         (default [] (resp_vectors resp)).
Proof.
  intros Hq Hm Hf. unfold Cloud.do_query in Hq. rewrite Hf in Hq.
  cbn [fst snd filter_value] in Hq.
  destruct (Cloud.index st); [| discriminate].
  destruct (Cloud.offset_of (nextToken args)) as [off |]; [| discriminate].
  destruct (topK args <? 1)%Z; [discriminate |].
  injection Hq as <- _. unfold default. cbn [resp_vectors from_option id].
  apply List.Forall_forall. intros h Hh.
  apply in_map_iff in Hh as (r & <- & Hr).
  apply In_take, In_drop, filter_In in Hr as [_ Ht].
  exists (vmetadata r). unfold Cloud.hit_of. rewrite Hm. cbn. split; [reflexivity |].
  unfold Cloud.tagged in Ht.
  destruct (vmetadata r !! k) as [[s | |] |]; try discriminate.
  apply String.eqb_eq in Ht. subst. reflexivity.
Qed.

(** The in-memory service keeps the filter's promise, also under
    injected faults. *)
Lemma cloud_filter_respected : filter_respected Cloud.services.
Proof.
  intros args x resp x' k v Hq Hm Hf.
  cbn [query_vectors Cloud.services] in Hq. unfold Cloud.guarded in Hq.
  destruct (Cloud.faults x) as [| [e |] rest].
  - exact (do_query_respects_filter _ _ _ _ _ _ Hq Hm Hf).
  - discriminate.
  - exact (do_query_respects_filter _ _ _ _ _ _ Hq Hm Hf).
Qed.

(** C1.  Tenant isolation.  Let the service keep the filter's promise
    ([filter_respected]) and let [a] and [b] be different tenants.
    Whenever [retrieve_s3_vectors] for tenant [a] returns documents,
    they are built from the hits of its one query and from nothing
    else, every one of those hits carries the tag of [a] and none the
    tag of [b]; a failed query gives no document.  Every query that
    [retrieve_s3_vectors] or [delete_tenant_vectors] issues for [a]
    carries the filter on tenant_id with the numeral of [a], and every
    record the re-index body puts is tagged with the numeral of [a];
    in the whole of [index_tenant_files] the only other put is the
    sentinel of the index probe. *)
Theorem tenant_isolation :
  forall (X : Type) (sv : Services X) (ns : namespace) (cfg : config)
         (a b : Z),
    filter_respected sv ->
    a <> b ->
    (forall query top_k w docs w',
        retrieve_s3_vectors sv cfg query a top_k w = (Ok docs, w') ->
        exists w1 q_vec x2,
          ensure_vector_index sv cfg w = (Ok tt, w1)
          /\ embed_query sv query (ext w1) = (Return q_vec, x2)
          /\ match fst (query_vectors sv (retrieve_query_args q_vec a top_k) x2)
             with
             | Return resp =>
                 let hits := default [] (resp_vectors resp) in
                 documents_of_hits hits w' = (Ok docs, w')
                 /\ Forall (fun h => hit_tenant h = Some (tenant_tag a)) hits
                 /\ Forall (fun h => hit_tenant h <> Some (tenant_tag b)) hits
             | Throw _ => docs = []
             end)
    /\ (forall query top_k,
           emits (tenant_scoped a) (retrieve_s3_vectors sv cfg query a top_k))
    /\ (forall fuel, emits (tenant_scoped a) (delete_tenant_vectors sv fuel a))
    /\ (forall additional_urls temp_dir,
           emits (puts_tagged a)
                 (index_documents sv ns cfg a additional_urls temp_dir))
    /\ (forall fuel additional_urls,
           emits (puts_tagged_or_probe a)
                 (index_tenant_files sv ns cfg fuel a additional_urls)).
Proof.
  intros X sv ns cfg a b Hcontract Hab.
  split; [| split; [| split; [| split]]];
    [| intros; apply retrieve_is_tenant_scoped
     | intros; apply delete_is_tenant_scoped
     | intros; apply index_documents_puts_tagged
     | intros; apply index_tenant_files_puts].
  - intros query top_k w docs w' H.
    destruct (retrieve_inversion sv cfg _ _ _ _ _ _ H)
      as (w1 & q_vec & x2 & E1 & E2 & [(resp & x3 & E3 & Hd) | (c & x3 & E3 & ->)]).
    + exists w1, q_vec, x2. split; [exact E1 |]. split; [exact E2 |].
      rewrite E3. cbn [fst]. cbv zeta. split; [exact Hd |].
      pose proof (Hcontract _ _ _ _ TENANT_ID_KEY (Py.str_of_int a) E3
                    eq_refl eq_refl) as Hhits.
      assert (Forall (fun h => hit_tenant h = Some (tenant_tag a))
                     (default [] (resp_vectors resp))) as Ha.
      { eapply List.Forall_impl; [| exact Hhits].
        intros h (m & Hm & Hk). unfold hit_tenant. rewrite Hm. exact Hk. }
      split; [exact Ha |].
      eapply List.Forall_impl; [| exact Ha].
      intros h Hh Hb. rewrite Hh in Hb. injection Hb as Hb.
      apply Hab. apply str_of_int_inj. exact Hb.
    + exists w1, q_vec, x2. split; [exact E1 |]. split; [exact E2 |].
      rewrite E3. reflexivity.
Qed.

(** Tenants 7 and 8 side by side: the query of tenant 7 comes back with
    the two documents of tenant 7. *)
Lemma tenant_isolation_witness :
  let sv := Cloud.services in
  let cfg := default_config ∅ in
  let w := start (Cloud.ready two_tenants) in
  let w' := snd (retrieve_s3_vectors sv cfg "hours" 7 8 w) in
  let docs :=
    map (fun p => mkDocument p
           {[ "similarity_score" := PFloat 0%float;
              "source" := PStr "s3://rag-chat-uploads/knowledge_base/manual.pdf" ]})
        ["Opening hours are 9 to 5."; "Closed on Sundays."] in
  (7 <> 8)%Z
  /\ retrieve_s3_vectors sv cfg "hours" 7 8 w = (Ok docs, w')
  /\ exists w1 q_vec x2,
      ensure_vector_index sv cfg w = (Ok tt, w1)
      /\ embed_query sv "hours" (ext w1) = (Return q_vec, x2)
      /\ match fst (query_vectors sv (retrieve_query_args q_vec 7 8) x2) with
         | Return resp =>
             let hits := default [] (resp_vectors resp) in
             documents_of_hits hits w' = (Ok docs, w')
             /\ Forall (fun h => hit_tenant h = Some (tenant_tag 7)) hits
             /\ Forall (fun h => hit_tenant h <> Some (tenant_tag 8)) hits
         | Throw _ => docs = []
         end.
Proof.
  cbv zeta.
  assert (7 <> 8)%Z as Hne by discriminate.
  split; [exact Hne |].
  match goal with |- ?run = ?res /\ _ => assert (run = res) as Hrun end.
  { vm_compute. reflexivity. }
  split; [exact Hrun |].
  exact (proj1 (tenant_isolation _ Cloud.services rag_utils_namespace
                  (default_config ∅) 7 8 cloud_filter_respected Hne)
           _ _ _ _ _ Hrun).
Defined.

(* ================================================================== *)
(** * Deleting a tenant's vectors on the in-memory deployment *)
(* ================================================================== *)

Section Deletion.

Variable tenant_id : Z.

(** ** Continuation tokens *)

Lemma numeral_truthy (n : N) : Py.truthy (Cloud.numeral n) = true.
Proof.
  unfold Cloud.numeral. destruct (N.to_uint n); reflexivity.
Qed.

Lemma to_uint_not_nil (n : N) : N.to_uint n <> Decimal.Nil.
Proof.
  destruct n as [| p]; cbn; [discriminate |].
  apply DecimalPos.Unsigned.to_uint_nonnil.
Qed.

Lemma offset_of_numeral (n : nat) :
  Cloud.offset_of (Some (Cloud.numeral (N.of_nat n))) = Some n.
Proof.
  unfold Cloud.offset_of, Cloud.numeral.
  rewrite (NilZero.usu _ (to_uint_not_nil _)). cbn.
  rewrite DecimalN.Unsigned.of_to, Nat2N.id. reflexivity.
Qed.

(** ** The scan *)

Lemma token_at_offset off : Cloud.offset_of (token_at off) = Some off.
Proof. destruct off; [reflexivity | apply offset_of_numeral]. Qed.

Lemma scan_query_kwargs_token off :
  nextToken (scan_query_kwargs tenant_id (token_at off)) = token_at off.
Proof.
  destruct off; [reflexivity |]. cbn [scan_query_kwargs nextToken token_at].
  cbn [token_truthy]. rewrite numeral_truthy. reflexivity.
Qed.

Lemma key_of_hit args r : hit_key (Cloud.hit_of args r) = key r.
Proof. reflexivity. Qed.

(** From offset [off] the scan collects the keys of the remaining
    matching records and changes nothing. *)
Lemma cloud_scan (st : Cloud.state) spec :
  Cloud.faults st = [] -> Cloud.index st = Some spec ->
  let m := Cloud.tenant_records tenant_id st in
  forall fuel off acc tr,
    off <= length m -> length m < off + 30 * fuel ->
    exists scans,
      scan_tenant_keys Cloud.services fuel tenant_id acc (token_at off)
        (mkWorld tr st)
      = (Ok (acc ++ map key (drop off m)), mkWorld (tr ++ scans) st)
      /\ Forall (fun ev => exists args, ev = EvQueryVectors args) scans.
Proof.
  intros Hf Hi m fuel.
  induction fuel as [| fuel IH]; intros off acc tr Hoff Hlen; [lia |].
  cbn [scan_tenant_keys].
  pose proof (cloud_query (scan_query_kwargs tenant_id (token_at off)) st spec
                (Py.str_of_int tenant_id) off Hf Hi eq_refl) as Hq.
  rewrite scan_query_kwargs_token in Hq.
  specialize (Hq (token_at_offset off) eq_refl). cbv zeta in Hq.
  cbn [filter fst snd scan_query_kwargs topK] in Hq.
  change (Z.to_nat 30) with 30%nat in Hq.
  fold (Cloud.tenant_records tenant_id st) in Hq. fold m in Hq.
  match goal with
  | |- exists _, bind ?c ?k ?w = _ /\ _ =>
      pose proof (bind_Ok c k w _ _ (call_Return _ _ w _ _ Hq)) as Hstep
  end.
  assert (forall (acc0 : list string) (l : list VectorRecord),
             acc0 ++ map hit_key
                       (default []
                          (Some (map (Cloud.hit_of
                                        (scan_query_kwargs tenant_id
                                                           (token_at off))) l)))
             = acc0 ++ map key l) as Hkeys.
  { intros acc0 l. unfold default. cbn [from_option id].
    rewrite map_map. reflexivity. }
  destruct (off + 30 <? length m)%nat eqn:Hmore.
  - apply Nat.ltb_lt in Hmore.
    assert (Some (Cloud.numeral (N.of_nat (off + 30))) = token_at (off + 30))
      as Htok by (destruct (off + 30)%nat eqn:E; [lia | reflexivity]).
    destruct (IH (off + 30)%nat (acc ++ map key (take 30 (drop off m)))
                (tr ++ [EvQueryVectors
                          (scan_query_kwargs tenant_id (token_at off))]))
      as (scans & Hrun & Hscans); [lia | lia |].
    exists (EvQueryVectors (scan_query_kwargs tenant_id (token_at off))
            :: scans).
    split.
    + rewrite Hstep. cbn [resp_vectors resp_nextToken ext trace].
      cbn [token_truthy]. rewrite numeral_truthy. cbn [negb].
      rewrite Hkeys, Htok, Hrun. f_equal.
      * f_equal. rewrite <- app_assoc. f_equal.
        rewrite <- map_app. f_equal.
        rewrite <- (drop_drop m 30 off). apply take_drop.
      * rewrite <- app_assoc. reflexivity.
    + constructor; [eexists; reflexivity | exact Hscans].
  - apply Nat.ltb_ge in Hmore.
    exists [EvQueryVectors (scan_query_kwargs tenant_id (token_at off))].
    split.
    + rewrite Hstep. cbn [resp_vectors resp_nextToken ext trace].
      cbn [token_truthy negb]. rewrite Hkeys.
      unfold ret. f_equal. f_equal. f_equal. f_equal.
      apply take_ge. rewrite length_drop. lia.
    + constructor; [eexists; reflexivity | constructor].
Qed.

(** ** The batches *)

Lemma set_records_twice r r' st :
  Cloud.set_records r (Cloud.set_records r' st) = Cloud.set_records r st.
Proof. reflexivity. Qed.

Lemma set_records_same st : Cloud.set_records (Cloud.records st) st = st.
Proof. destruct st. reflexivity. Qed.

(** What is left after the deletions that start at [starts]. *)
Lemma cloud_delete_batches (keys : list string) spec :
  forall starts st tr,
    Cloud.faults st = [] -> Cloud.index st = Some spec ->
    for_each starts
      (fun i => call (EvDeleteVectors (batch_at keys i))
                     (delete_vectors Cloud.services (batch_at keys i)))
      (mkWorld tr st)
    = (Ok tt,
       mkWorld (tr ++ map (fun i => EvDeleteVectors (batch_at keys i)) starts)
         (Cloud.set_records
            (fold_left (fun rs i => Cloud.remove_keys (batch_at keys i) rs)
                       starts (Cloud.records st))
            st)).
Proof.
  induction starts as [| i rest IH]; intros st tr Hf Hi; cbn [for_each].
  - cbn. rewrite app_nil_r, set_records_same. reflexivity.
  - rewrite (bind_Ok _ _ _ _ _
               (call_Return _ _ (mkWorld tr st) _ _
                  (cloud_delete (batch_at keys i) st spec Hf Hi))).
    rewrite IH by assumption.
    cbn [map fold_left Cloud.records Cloud.set_records].
    rewrite <- app_assoc. reflexivity.
Qed.

Lemma batches_left (keys : list string) starts rs r :
  In r (fold_left (fun rs i => Cloud.remove_keys (batch_at keys i) rs)
                  starts rs)
  <-> In r rs /\ forall i, In i starts -> ~ In (key r) (batch_at keys i).
Proof.
  revert rs. induction starts as [| i rest IH]; intros rs; cbn [fold_left].
  - split; [intros H; split; [exact H | intros i []] | tauto].
  - rewrite IH, remove_keys_In. split.
    + intros [[Hr Hi] Hrest]. split; [exact Hr |].
      intros j [<- | Hj]; [exact Hi | apply Hrest; exact Hj].
    + intros [Hr Hall]. split; [split; [exact Hr |] |].
      * apply Hall. left. reflexivity.
      * intros j Hj. apply Hall. right. exact Hj.
Qed.

(** Every accumulated key falls into one of the batches. *)
Lemma key_in_some_batch (keys : list string) (k : string) :
  In k keys ->
  exists i, In i (batch_starts (length keys)) /\ In k (batch_at keys i).
Proof.
  intros Hk. apply list_elem_of_In, list_elem_of_lookup in Hk as (n & Hn).
  pose proof (lookup_lt_Some _ _ _ Hn) as Hlt.
  pose proof (Nat.Div0.div_mod n 100) as Hdm.
  pose proof (Nat.mod_upper_bound n 100 ltac:(lia)) as Hmod.
  exists (n / 100 * 100)%nat. split.
  - unfold batch_starts. apply in_map_iff. exists (n / 100)%nat.
    split; [reflexivity |]. apply in_seq. split; [lia |]. cbn [plus].
    apply Nat.Div0.div_lt_upper_bound.
    pose proof (Nat.Div0.div_mod (length keys + 99) 100) as Hq.
    pose proof (Nat.mod_upper_bound (length keys + 99) 100 ltac:(lia)).
    lia.
  - apply list_elem_of_In. unfold batch_at.
    apply (list_elem_of_lookup_2 _ (n mod 100)).
    rewrite lookup_take_lt by exact Hmod.
    rewrite lookup_drop.
    replace (n / 100 * 100 + n mod 100)%nat with n by lia.
    exact Hn.
Qed.

Lemma batch_keys_from (keys : list string) i k :
  In k (batch_at keys i) -> In k keys.
Proof. unfold batch_at. intros H. eapply In_drop, In_take, H. Qed.

(** After all batches exactly the records with an accumulated key are
    gone. *)
Lemma all_batches_left (keys : list string) rs r :
  In r (fold_left (fun rs i => Cloud.remove_keys (batch_at keys i) rs)
                  (batch_starts (length keys)) rs)
  <-> In r rs /\ ~ In (key r) keys.
Proof.
  rewrite batches_left. split; intros [Hr Hk]; (split; [exact Hr |]).
  - intros Hin. destruct (key_in_some_batch _ _ Hin) as (i & Hi & Hb).
    exact (Hk i Hi Hb).
  - intros i _ Hb. apply Hk. eapply batch_keys_from, Hb.
Qed.

End Deletion.



(** C5 as stated fails: a normal return of [delete_tenant_vectors] does
    not mean that the tenant's records are gone.  When the scan query
    fails, or when the scan succeeds and the batched deletion fails, the
    ClientError is swallowed (lines 258-264): the function returns, the
    deployment is as before, with its index and with both records of
    tenant 7, and a query scoped to tenant 7 still returns their
    documents. *)
Lemma delete_returns_with_records_left :
  let sv := Cloud.services in
  let cfg := default_config ∅ in
  let stored := Cloud.ready two_tenants in
  let run faults :=
    delete_tenant_vectors sv 1 7 (start (Cloud.set_faults faults stored)) in
  (fst (run [Some access_denied]) = Ok tt
   /\ trace (snd (run [Some access_denied]))
      = [EvQueryVectors (scan_query_kwargs 7 None)]
   /\ ext (snd (run [Some access_denied])) = stored)
  /\ (fst (run [None; Some access_denied]) = Ok tt
      /\ trace (snd (run [None; Some access_denied]))
         = [EvQueryVectors (scan_query_kwargs 7 None);
            EvDeleteVectors ["k1"; "k3"]]
      /\ ext (snd (run [None; Some access_denied])) = stored)
  /\ Cloud.faults stored = [] /\ Cloud.index stored <> None
  /\ map key (Cloud.tenant_records 7 stored) = ["k1"; "k3"]
  /\ exists docs,
      fst (retrieve_s3_vectors sv cfg "hours" 7 8 (start stored)) = Ok docs
      /\ map page_content docs
         = ["Opening hours are 9 to 5."; "Closed on Sundays."].
Proof.
  cbv zeta. split; [| split; [| split; [| split; [| split]]]].
  - repeat split; vm_compute; reflexivity.
  - repeat split; vm_compute; reflexivity.
  - reflexivity.
  - discriminate.
  - vm_compute. reflexivity.
  - eexists. split; vm_compute; reflexivity.
Qed.

(* ================================================================== *)
(** * Fixed responses *)
(* ================================================================== *)

Section FixedResponses.

Context {X : Type}.
Variable sv : Services X.
Variable cfg : config.

(** A hit on a plain string. *)
Lemma fixed_plain_string question tenant_id user_id context_messages
      (w : world X) s :
  FIXED_RESPONSES cfg !! Py.lower (Py.strip question) = Some (JStr s) ->
  answer_question_modern sv cfg question tenant_id user_id context_messages w
  = (Ok {| answer := Py.strip s; sources := [PStr "Fixed Response"] |}, w).
Proof.
  intros H. unfold answer_question_modern. rewrite H. reflexivity.
Qed.

(** A hit on a structured value that carries the answer string. *)
Lemma fixed_structured question tenant_id user_id context_messages
      (w : world X) fields s :
  FIXED_RESPONSES cfg !! Py.lower (Py.strip question) = Some (JObject fields) ->
  fields !! "answer" = Some (JStr s) ->
  answer_question_modern sv cfg question tenant_id user_id context_messages w
  = (Ok {| answer := Py.strip s; sources := [PStr "Fixed Response"] |}, w).
Proof.
  intros H Ha. unfold answer_question_modern. rewrite H.
  unfold fixed_answer. rewrite Ha. reflexivity.
Qed.

End FixedResponses.

(** C7 (amended).  [answer_question_modern] looks the trimmed and
    lowercased question up in the fixed-response table first; on a hit
    it returns the canned answer with leading and trailing whitespace
    removed (the plain string value, or the inner answer string of a
    structured value) with sources exactly ["Fixed Response"], and the
    world is the one it started from: no embedding call, no call to the
    vector service, no call at all. *)
Theorem fixed_response_override :
  forall (X : Type) (sv : Services X) (cfg : config) (question : string)
         (tenant_id : Z) (user_id : pyval)
         (context_messages : option (list message)) (w : world X)
         (fixed_resp : json) (canned : string),
    FIXED_RESPONSES cfg !! Py.lower (Py.strip question) = Some fixed_resp ->
    (fixed_resp = JStr canned
     \/ exists fields, fixed_resp = JObject fields
                       /\ fields !! "answer" = Some (JStr canned)) ->
    answer_question_modern sv cfg question tenant_id user_id context_messages w
    = (Ok {| answer := Py.strip canned; sources := [PStr "Fixed Response"] |}, w).
Proof.
  intros X sv cfg question tenant_id user_id context_messages w fixed_resp
         canned Hhit [-> | (fields & -> & Ha)].
  - apply fixed_plain_string. exact Hhit.
  - eapply fixed_structured; eassumption.
Qed.

Lemma fixed_response_override_witness :
  let cfg := default_config padded_table in
  FIXED_RESPONSES cfg !! Py.lower (Py.strip " BYE ")
  = Some (JObject {[ "answer" := JStr " See you. " ]})
  /\ answer_question_modern Cloud.services cfg " BYE " 7 (PInt 1) None
       (start Cloud.empty)
     = (Ok {| answer := Py.strip " See you. ";
              sources := [PStr "Fixed Response"] |}, start Cloud.empty).
Proof.
  cbv zeta. split; [reflexivity |].
  apply (fixed_response_override _ Cloud.services (default_config padded_table)
           " BYE " 7 (PInt 1) None (start Cloud.empty)
           (JObject {[ "answer" := JStr " See you. " ]}) " See you. ").
  - reflexivity.
  - right. eexists. split; reflexivity.
Defined.

(** C7 as stated fails: the value stored under "hi" has blanks around
    it, and the answer returned on the hit is not that value. *)
Lemma fixed_response_is_trimmed :
  let cfg := default_config padded_table in
  let run := answer_question_modern Cloud.services cfg "hi" 7 (PInt 1) None
               (start Cloud.empty) in
  FIXED_RESPONSES cfg !! Py.lower (Py.strip "hi") = Some (JStr "  Hello there.  ")
  /\ fst run = Ok {| answer := "Hello there.";
                     sources := [PStr "Fixed Response"] |}
  /\ fst run <> Ok {| answer := "  Hello there.  ";
                      sources := [PStr "Fixed Response"] |}.
Proof.
  cbv zeta. split; [reflexivity |]. split; [reflexivity |].
  vm_compute. discriminate.
Qed.

(** C8 (amended).  With the table that maps "hours" to "We're open
    9-5.", every question that trims and lowercases to "hours" (as
    "Hours" or " HOURS " do) gets exactly that answer with sources
    ["Fixed Response"] and causes no call, for every tenant.  The
    question "Hours?" normalizes to "hours?", which is not a key of the
    table. *)
Theorem fixed_response_scenario :
  forall (X : Type) (sv : Services X) (cfg : config) (question : string)
         (tenant_id : Z) (user_id : pyval)
         (context_messages : option (list message)) (w : world X),
    FIXED_RESPONSES cfg = hours_table ->
    Py.lower (Py.strip question) = "hours" ->
    answer_question_modern sv cfg question tenant_id user_id context_messages w
    = (Ok {| answer := "We're open 9-5."; sources := [PStr "Fixed Response"] |},
       w)
    /\ Py.lower (Py.strip "Hours?") = "hours?"
    /\ FIXED_RESPONSES cfg !! "hours?" = None.
Proof.
  intros X sv cfg question tenant_id user_id context_messages w Ht Hq.
  split; [| split].
  - rewrite (fixed_plain_string sv cfg question tenant_id user_id
               context_messages w "We're open 9-5.").
    + reflexivity.
    + rewrite Ht, Hq. reflexivity.
  - reflexivity.
  - rewrite Ht. reflexivity.
Qed.

Lemma fixed_response_scenario_witness :
  let cfg := default_config hours_table in
  (FIXED_RESPONSES cfg = hours_table /\ Py.lower (Py.strip "Hours") = "hours")
  /\ answer_question_modern Cloud.services cfg "Hours" 7 (PInt 1) None
       (start Cloud.empty)
     = (Ok {| answer := "We're open 9-5."; sources := [PStr "Fixed Response"] |},
        start Cloud.empty).
Proof.
  cbv zeta. split; [split; reflexivity |].
  apply (fixed_response_scenario _ Cloud.services (default_config hours_table)
           "Hours" 7 (PInt 1) None (start Cloud.empty)); reflexivity.
Defined.

(** C8 as stated fails: with that table the question "Hours?" is not
    answered from the table; the run probes the index, embeds the
    question, queries the vector service and asks the chat model. *)
Lemma hours_question_mark_misses :
  let cfg := default_config hours_table in
  let run := answer_question_modern Cloud.services cfg "Hours?" 7 (PInt 1) None
               (start (Cloud.ready two_tenants)) in
  fst run <> Ok {| answer := "We're open 9-5.";
                   sources := [PStr "Fixed Response"] |}
  /\ trace (snd run)
     = [EvListVectorBuckets; EvPutVectors [ping_record];
        EvDeleteVectors ["ping"]; EvEmbedQuery "Hours?";
        EvQueryVectors (retrieve_query_args (Cloud.embedding "Hours?") 7 8);
        EvChat []
          (map (fun p => mkDocument p
                  {[ "similarity_score" := PFloat 0%float;
                     "source" :=
                       PStr "s3://rag-chat-uploads/knowledge_base/manual.pdf" ]})
               ["Opening hours are 9 to 5."; "Closed on Sundays."])
          "Hours?"].
Proof.
  cbv zeta. split.
  - vm_compute. discriminate.
  - vm_compute. reflexivity.
Qed.

(* ================================================================== *)
(** * The registered URLs *)
(* ================================================================== *)

Section UrlRegistry.

Context {X : Type}.
Variable sv : Services X.

(** With [is_valid_url] unbound the comprehension raises at the first
    line that is not blank. *)
Lemma valid_url_lines_unbound (lines : list string) (w : world X) :
  (exists line, In line lines /\ Py.truthy (Py.strip line) = true) ->
  valid_url_lines rag_utils_namespace lines w
  = (Raise (NameError "is_valid_url"), w).
Proof.
  induction lines as [| line rest IH]; intros (l & Hin & Hl).
  - destruct Hin.
  - cbn [valid_url_lines]. unfold bind.
    destruct (Py.truthy (Py.strip line)) eqn:E; [reflexivity |].
    cbn [is_valid_url rag_utils_namespace ret].
    destruct Hin as [-> | Hin]; [congruence |].
    rewrite IH by (exists l; split; assumption). reflexivity.
Qed.

(** Blank lines alone never reach the call. *)
Lemma valid_url_lines_blank ns (lines : list string) (w : world X) :
  (forall line, In line lines -> Py.truthy (Py.strip line) = false) ->
  valid_url_lines ns lines w = (Ok [], w).
Proof.
  induction lines as [| line rest IH]; intros H; [reflexivity |].
  cbn [valid_url_lines]. unfold bind.
  rewrite (H line) by (left; reflexivity). cbn [ret].
  rewrite IH by (intros l Hl; apply H; right; exact Hl). reflexivity.
Qed.

(** With [is_valid_url] bound the result is the stripped lines that
    are not blank and pass the test. *)
Lemma valid_url_lines_bound valid (lines : list string) (w : world X) :
  valid_url_lines (bound_namespace valid) lines w
  = (Ok (List.filter (fun l => Py.truthy l && valid l) (map Py.strip lines)),
     w).
Proof.
  induction lines as [| line rest IH]; [reflexivity |].
  cbn [valid_url_lines map List.filter]. unfold bind.
  destruct (Py.truthy (Py.strip line));
    cbn [is_valid_url bound_namespace ret andb]; rewrite IH;
    [destruct (valid (Py.strip line)) |]; reflexivity.
Qed.

(** The registry object exists and has a line that is not blank: the
    call ends in NameError. *)
Lemma s3_load_urls_unbound tenant_id (w : world X) content x' :
  get_object sv (urls_key tenant_id) (ext w) = (Return content, x') ->
  (exists line, In line (Py.splitlines content)
                /\ Py.truthy (Py.strip line) = true) ->
  s3_load_urls_from_file sv rag_utils_namespace tenant_id w
  = (Raise (NameError "is_valid_url"),
     mkWorld (trace w ++ [EvGetObject (urls_key tenant_id)]) x').
Proof.
  intros Hg Hl. unfold s3_load_urls_from_file.
  rewrite (try_except_Raise _ _ _ (NameError "is_valid_url")
             (mkWorld (trace w ++ [EvGetObject (urls_key tenant_id)]) x')).
  - reflexivity.
  - rewrite (bind_Ok _ _ _ _ _ (call_Return _ _ w _ _ Hg)).
    apply valid_url_lines_unbound. exact Hl.
Qed.

(** The registry object does not exist (any ClientError): the empty
    list. *)
Lemma s3_load_urls_missing ns tenant_id (w : world X) code x' :
  get_object sv (urls_key tenant_id) (ext w) = (Throw (ClientError code), x') ->
  s3_load_urls_from_file sv ns tenant_id w
  = (Ok [], mkWorld (trace w ++ [EvGetObject (urls_key tenant_id)]) x').
Proof.
  intros Hg. unfold s3_load_urls_from_file.
  rewrite (try_except_Raise _ _ _ (ClientError code)
             (mkWorld (trace w ++ [EvGetObject (urls_key tenant_id)]) x')).
  - reflexivity.
  - apply bind_Raise. apply (call_Throw _ _ w). exact Hg.
Qed.

(** With [is_valid_url] bound: the stripped, valid, non-blank lines. *)
Lemma s3_load_urls_bound valid tenant_id (w : world X) content x' :
  get_object sv (urls_key tenant_id) (ext w) = (Return content, x') ->
  s3_load_urls_from_file sv (bound_namespace valid) tenant_id w
  = (Ok (List.filter (fun l => Py.truthy l && valid l)
                     (map Py.strip (Py.splitlines content))),
     mkWorld (trace w ++ [EvGetObject (urls_key tenant_id)]) x').
Proof.
  intros Hg. unfold s3_load_urls_from_file. apply try_except_Ok.
  rewrite (bind_Ok _ _ _ _ _ (call_Return _ _ w _ _ Hg)).
  apply valid_url_lines_bound.
Qed.

End UrlRegistry.

(** C3, at the failing input.  Tenant 7's registry object exists and
    holds two URLs around a blank line.  [s3_load_urls_from_file] reads
    the object and ends in NameError for [is_valid_url], which the
    module never defines; it returns no list.  With the name bound to a
    test that accepts every line, the same call returns the two
    URLs. *)
Theorem s3_load_urls_raises_name_error :
  let w := start with_registry in
  s3_load_urls_from_file Cloud.services rag_utils_namespace 7 w
  = (Raise (NameError "is_valid_url"),
     mkWorld [EvGetObject "knowledge_base/7/urls.txt"] with_registry)
  /\ s3_load_urls_from_file Cloud.services (bound_namespace (fun _ => true)) 7 w
     = (Ok ["https://example.com/about"; "https://example.com/faq"],
        mkWorld [EvGetObject "knowledge_base/7/urls.txt"] with_registry).
Proof. cbv zeta. split; vm_compute; reflexivity. Qed.

(* ================================================================== *)
(** * The re-index *)
(* ================================================================== *)

(** Without [tempfile] in the namespace the re-index ends right after
    the deletion, before anything is listed, loaded or uploaded. *)
Lemma index_tenant_files_unbound_tempfile
      {X : Type} (sv : Services X) (ns : namespace) (cfg : config)
      (fuel : nat) (tenant_id : Z) (additional_urls : option (list string))
      (w w1 w2 : world X) :
  has_tempfile ns = false ->
  ensure_vector_index sv cfg w = (Ok tt, w1) ->
  delete_tenant_vectors sv fuel tenant_id w1 = (Ok tt, w2) ->
  index_tenant_files sv ns cfg fuel tenant_id additional_urls w
  = (Raise (NameError "tempfile"), w2).
Proof.
  intros Hns He Hd. unfold index_tenant_files.
  rewrite (bind_Ok _ _ _ _ _ He), (bind_Ok _ _ _ _ _ Hd), Hns.
  reflexivity.
Qed.

(** With [tempfile] bound and [shutil] not, the clean-up of the
    [finally] clause turns every outcome of the body into NameError. *)
Lemma index_tenant_files_unbound_shutil
      {X : Type} (sv : Services X) (ns : namespace) (cfg : config)
      (fuel : nat) (tenant_id : Z) (additional_urls : option (list string))
      (w w1 w2 w4 : world X) (temp_dir : string) (x3 : X) (r : outcome nat) :
  has_tempfile ns = true -> has_shutil ns = false ->
  ensure_vector_index sv cfg w = (Ok tt, w1) ->
  delete_tenant_vectors sv fuel tenant_id w1 = (Ok tt, w2) ->
  mkdtemp sv (ext w2) = (Return temp_dir, x3) ->
  index_documents sv ns cfg tenant_id additional_urls temp_dir
    (mkWorld (trace w2 ++ [EvMkdtemp]) x3) = (r, w4) ->
  index_tenant_files sv ns cfg fuel tenant_id additional_urls w
  = (Raise (NameError "shutil"), w4).
Proof.
  intros Ht Hs He Hd Hm Hb. unfold index_tenant_files.
  rewrite (bind_Ok _ _ _ _ _ He), (bind_Ok _ _ _ _ _ Hd), Ht.
  unfold bind at 1. cbn [global ret].
  rewrite (bind_Ok _ _ _ _ _ (call_Return _ _ w2 _ _ Hm)).
  unfold try_finally. rewrite Hb, Hs. reflexivity.
Qed.

(** C2, at the failing input.  Tenant 7 has one uploaded PDF and no
    URLs.  [index_tenant_files] ensures the index and deletes the
    tenant's vectors, then ends in NameError for [tempfile], which the
    module never imports: storage is not listed, nothing is downloaded,
    embedded or upserted, and no count is returned.  With the two
    imports in place the same call runs the whole pipeline in the
    claimed order and returns 1. *)
Theorem index_tenant_files_raises_name_error :
  let cfg := default_config ∅ in
  let run := index_tenant_files Cloud.services rag_utils_namespace cfg 1 7 None
               (start one_pdf) in
  let fixed := index_tenant_files Cloud.services (bound_namespace (fun _ => true))
                 cfg 1 7 None (start one_pdf) in
  let chunk :=
    mkDocument "Opening hours are 9 to 5."
      {[ "source" := PStr "s3://rag-chat-uploads/knowledge_base/7/manual.pdf";
         "tenant_id" := PStr "7" ]} in
  fst run = Raise (NameError "tempfile")
  /\ trace (snd run)
     = [EvListVectorBuckets; EvPutVectors [ping_record];
        EvDeleteVectors ["ping"]; EvQueryVectors (scan_query_kwargs 7 None)]
  /\ Cloud.records (ext (snd run)) = []
  /\ fst fixed = Ok 1%nat
  /\ trace (snd fixed)
     = [EvListVectorBuckets; EvPutVectors [ping_record];
        EvDeleteVectors ["ping"]; EvQueryVectors (scan_query_kwargs 7 None);
        EvMkdtemp; EvListObjects "knowledge_base/7/";
        EvDownloadFile "knowledge_base/7/manual.pdf" "/tmp/tmp0/manual.pdf";
        EvLoad ".pdf" "/tmp/tmp0/manual.pdf";
        EvGetObject "knowledge_base/7/urls.txt";
        EvEmbedDocuments ["Opening hours are 9 to 5."];
        EvPutVectors
          [vector_record 7 "1" (Cloud.embedding "Opening hours are 9 to 5.")
                         chunk];
        EvRmtree "/tmp/tmp0"]
  /\ map record_tenant (Cloud.records (ext (snd fixed))) = [Some (tenant_tag 7)].
Proof. cbv zeta. repeat split; vm_compute; reflexivity. Qed.

(* ================================================================== *)
(** * Facts about splitting and joining *)
(* ================================================================== *)

Lemma split_from_nonempty sep cur s : PyStr.split_from sep cur s <> [].
Proof.
  revert cur. induction s as [| c r IH]; intros cur; cbn; [discriminate |].
  destruct (Ascii.eqb c sep); [discriminate | apply IH].
Qed.

Lemma append_cons (x : ascii) (a b : string) :
  (String x a ++ b = String x (a ++ b))%string.
Proof. reflexivity. Qed.

Lemma append_nil (b : string) : ("" ++ b = b)%string.
Proof. reflexivity. Qed.

Lemma string_app_assoc (a b c : string) : ((a ++ b) ++ c = a ++ (b ++ c))%string.
Proof.
  induction a as [| x a IH]; [reflexivity |].
  now rewrite !append_cons, IH.
Qed.

Lemma string_app_nil_r (a : string) : (a ++ "" = a)%string.
Proof.
  induction a as [| x a IH]; [reflexivity |]. now rewrite append_cons, IH.
Qed.

Lemma string_app_length (a b : string) :
  String.length (a ++ b) = (String.length a + String.length b)%nat.
Proof.
  induction a as [| x a IH]; [reflexivity |].
  rewrite append_cons. cbn [String.length]. now rewrite IH.
Qed.

Lemma join_cons sep x l :
  l <> [] -> PyStr.join sep (x :: l) = (x ++ sep ++ PyStr.join sep l)%string.
Proof. destruct l; [congruence | reflexivity]. Qed.

(** Joining what [split] gives restores the string. *)
Lemma join_split_from sep cur s :
  PyStr.join (String sep "") (PyStr.split_from sep cur s) = (cur ++ s)%string.
Proof.
  revert cur. induction s as [| c r IH]; intros cur; cbn [PyStr.split_from].
  - cbn. now rewrite string_app_nil_r.
  - destruct (Ascii.eqb_spec c sep) as [-> | Hne].
    + rewrite join_cons by apply split_from_nonempty.
      rewrite IH. reflexivity.
    + rewrite IH, string_app_assoc. reflexivity.
Qed.

Lemma join_split sep s : PyStr.join (String sep "") (PyStr.split sep s) = s.
Proof. unfold PyStr.split. now rewrite join_split_from. Qed.

Lemma join_app sep l1 l2 :
  l1 <> [] -> l2 <> [] ->
  PyStr.join sep (l1 ++ l2)
  = (PyStr.join sep l1 ++ sep ++ PyStr.join sep l2)%string.
Proof.
  intros H1 H2. induction l1 as [| x l1 IH]; [congruence |].
  destruct l1 as [| y l1].
  - cbn [app]. now rewrite join_cons.
  - change ((x :: y :: l1) ++ l2) with (x :: ((y :: l1) ++ l2)).
    rewrite join_cons by (cbn [app]; discriminate).
    rewrite IH by discriminate.
    rewrite (join_cons sep x (y :: l1)) by discriminate.
    now rewrite !string_app_assoc.
Qed.

(** A joined group in the middle of a list joins like its members. *)
Lemma join_flatten sep a cur b :
  cur <> [] ->
  PyStr.join sep (a ++ [PyStr.join sep cur] ++ b) = PyStr.join sep (a ++ cur ++ b).
Proof.
  intros Hc.
  assert (Hm : PyStr.join sep ([PyStr.join sep cur] ++ b) = PyStr.join sep (cur ++ b)).
  { destruct b as [| y b].
    - now rewrite !app_nil_r.
    - rewrite (join_app sep cur (y :: b)) by (congruence || discriminate).
      cbn [app]. now rewrite join_cons by discriminate. }
  destruct a as [| x a]; [exact Hm |].
  rewrite (join_app sep (x :: a)); [| discriminate | discriminate].
  rewrite (join_app sep (x :: a)); [| discriminate |].
  - now rewrite Hm.
  - destruct cur; [congruence | discriminate].
Qed.

(* ================================================================== *)
(** * Splitting a reply *)
(* ================================================================== *)

Lemma split_message_loop_join max_length lines chunks cur len :
  PyStr.join newline (split_message_loop max_length lines chunks cur len)
  = PyStr.join newline (chunks ++ cur ++ lines).
Proof.
  revert chunks cur len.
  induction lines as [| line rest IH]; intros chunks cur len;
    cbn [split_message_loop].
  - rewrite app_nil_r. destruct cur as [| x cur]; cbn [nonempty].
    + now rewrite app_nil_r.
    + pose proof (join_flatten newline chunks (x :: cur) []) as H.
      rewrite !app_nil_r in H. apply H. discriminate.
  - destruct (_ <=? _)%Z.
    + rewrite IH. now rewrite <- app_assoc.
    + rewrite IH. destruct cur as [| x cur]; cbn [nonempty].
      * reflexivity.
      * rewrite <- app_assoc.
        apply (join_flatten newline chunks (x :: cur) ([line] ++ rest)).
        discriminate.
Qed.

Lemma split_message_loop_nonempty max_length lines chunks cur len :
  lines <> [] \/ cur <> [] ->
  split_message_loop max_length lines chunks cur len <> [].
Proof.
  revert chunks cur len.
  induction lines as [| line rest IH]; intros chunks cur len H;
    cbn [split_message_loop].
  - destruct H as [H | H]; [congruence |].
    destruct cur; [congruence |]. cbn [nonempty].
    intros E. apply app_eq_nil in E. destruct E; discriminate.
  - destruct (_ <=? _)%Z; apply IH; right.
    + intros E. apply app_eq_nil in E. destruct E; discriminate.
    + discriminate.
Qed.

(** X1.  [split_message] loses nothing: the chunks joined by newlines
    are the text again, whatever the limit, and there is always at least
    one chunk. *)
Theorem split_message_round_trip (text : string) (max_length : Z) :
  PyStr.join newline (split_message text max_length) = text
  /\ split_message text max_length <> [].
Proof.
  unfold split_message. split.
  - rewrite split_message_loop_join. cbn [app].
    apply (join_split PyStr.LF).
  - apply split_message_loop_nonempty. left. apply split_from_nonempty.
Qed.

Lemma split_message_loop_bound max_length all lines chunks cur len :
  let ok := fun c => (Z.of_nat (String.length c) < max_length)%Z \/ In c all in
  (forall l, In l lines -> In l all) ->
  Forall ok chunks ->
  (cur = [] /\ len = 0%Z)
  \/ (cur <> []
      /\ len = (Z.of_nat (String.length (PyStr.join newline cur)) + 1)%Z
      /\ ((len <= max_length)%Z \/ exists l, cur = [l] /\ In l all)) ->
  Forall ok (split_message_loop max_length lines chunks cur len).
Proof.
  intros ok. revert chunks cur len.
  assert (Hflush : forall chunks cur len,
    Forall ok chunks ->
    (cur = [] /\ len = 0%Z)
    \/ (cur <> []
        /\ len = (Z.of_nat (String.length (PyStr.join newline cur)) + 1)%Z
        /\ ((len <= max_length)%Z \/ exists l, cur = [l] /\ In l all)) ->
    Forall ok (if nonempty cur then chunks ++ [PyStr.join newline cur]
               else chunks)).
  { intros chunks cur len Hc Hinv.
    destruct cur as [| x cur]; cbn [nonempty]; [exact Hc |].
    apply Forall_app. split; [exact Hc |].
    constructor; [| constructor]. unfold ok.
    destruct Hinv as [[E _] | (_ & El & [Hle | (l & E & Hin)])];
      [discriminate | left; lia |].
    injection E as -> ->. right. exact Hin. }
  induction lines as [| line rest IH]; intros chunks cur len Hall Hc Hinv;
    cbn [split_message_loop].
  - exact (Hflush chunks cur len Hc Hinv).
  - destruct (Z.leb_spec (len + (Z.of_nat (String.length line) + 1)) max_length)
      as [Hfit | Hno].
    + apply IH; [intros l Hl; apply Hall; now right | exact Hc |].
      right. split; [intros E; apply app_eq_nil in E; destruct E; discriminate |].
      split; [| left; exact Hfit].
      destruct Hinv as [[-> ->] | (Hne & El & _)]; [reflexivity |].
      rewrite join_app by (exact Hne || discriminate).
      rewrite !string_app_length. cbn [PyStr.join newline String.length].
      lia.
    + apply IH; [intros l Hl; apply Hall; now right | |].
      * exact (Hflush chunks cur len Hc Hinv).
      * right. split; [discriminate |]. split; [reflexivity |].
        right. exists line. split; [reflexivity |]. apply Hall. now left.
Qed.

(** X2.  A chunk of [split_message] is shorter than [max_length] unless
    it is a line of the text standing alone: lines are grouped, never
    cut, so a line that is too long is passed through whole. *)
Theorem split_message_chunk_bound (text : string) (max_length : Z) (c : string) :
  In c (split_message text max_length) ->
  (Z.of_nat (String.length c) < max_length)%Z
  \/ In c (PyStr.split PyStr.LF text).
Proof.
  intros Hin.
  pose proof (split_message_loop_bound max_length (PyStr.split PyStr.LF text)
                (PyStr.split PyStr.LF text) [] [] 0) as H.
  cbv zeta in H.
  assert (HF : Forall (fun c => (Z.of_nat (String.length c) < max_length)%Z
                                \/ In c (PyStr.split PyStr.LF text))
                      (split_message text max_length)).
  { apply H; [auto | constructor | left; split; reflexivity]. }
  rewrite List.Forall_forall in HF. exact (HF c Hin).
Qed.

(** Two short lines share a chunk; the long third line stands alone
    and exceeds the limit of 6. *)
Lemma split_message_chunk_bound_witness :
  let text := ("ab" ++ newline ++ "cd" ++ newline ++ "efghijkl")%string in
  split_message text 6 = [("ab" ++ newline ++ "cd")%string; "efghijkl"]
  /\ ((Z.of_nat (String.length "efghijkl") < 6)%Z
      \/ In "efghijkl" (PyStr.split PyStr.LF text)).
Proof.
  split; [reflexivity |].
  apply (split_message_chunk_bound _ 6 "efghijkl").
  vm_compute. right. left. reflexivity.
Defined.

(* ================================================================== *)
(** * Reading integers *)
(* ================================================================== *)

Lemma digits_value_acc (d : Decimal.uint) (acc : positive) :
  PyStr.digits_value (N.pos acc) true (NilEmpty.string_of_uint d)
  = Some (N.pos (Pos.of_uint_acc d acc)).
Proof.
  revert acc. induction d; intros acc; cbn [NilEmpty.string_of_uint];
    [reflexivity | ..];
    cbn [PyStr.digits_value]; cbv [PyStr.digit_of]; cbn;
    rewrite <- IHd; f_equal; lia.
Qed.

Lemma digits_value_uint (d : Decimal.uint) (b : bool) :
  d <> Decimal.Nil \/ b = true ->
  PyStr.digits_value 0 b (NilEmpty.string_of_uint d) = Some (Pos.of_uint d).
Proof.
  revert b. induction d; intros b H; cbn [NilEmpty.string_of_uint];
    [destruct H as [H | ->]; [congruence | reflexivity] | ..];
    cbn [PyStr.digits_value]; cbv [PyStr.digit_of]; cbn [N_of_ascii N.leb N.compare Pos.compare Pos.compare_cont andb N.sub N.mul N.add];
    try (apply IHd; now right);
    apply (digits_value_acc d).
Qed.

Lemma all_chars_impl (p q : ascii -> bool) (s : string) :
  (forall c, p c = true -> q c = true) ->
  all_chars p s = true -> all_chars q s = true.
Proof.
  intros Hpq. induction s as [| c r IH]; cbn; [reflexivity |].
  intros [Hc Hr]%andb_true_iff. rewrite (Hpq c Hc), (IH Hr). reflexivity.
Qed.

Lemma all_chars_app (p : ascii -> bool) (a b : string) :
  all_chars p (a ++ b) = all_chars p a && all_chars p b.
Proof.
  induction a as [| c r IH]; [reflexivity |].
  rewrite append_cons. cbn [all_chars]. now rewrite IH, andb_assoc.
Qed.

Lemma uint_digits (d : Decimal.uint) :
  all_chars is_digit (NilEmpty.string_of_uint d) = true.
Proof. induction d; cbn [NilEmpty.string_of_uint all_chars]; auto. Qed.

Lemma str_of_int_chars (z : Z) :
  all_chars is_numeral_char (Py.str_of_int z) = true.
Proof.
  assert (Hu : forall d, all_chars is_numeral_char (NilZero.string_of_uint d) = true).
  { intros d. destruct d; try reflexivity;
      apply (all_chars_impl is_digit);
      try (intros c Hc; unfold is_numeral_char; now rewrite Hc);
      apply (uint_digits (_ d)). }
  unfold Py.str_of_int, NilZero.string_of_int.
  destruct (Z.to_int z) as [d | d]; [apply Hu |].
  cbn [all_chars]. now rewrite Hu.
Qed.

(* ================================================================== *)
(** * The blanks around an integer literal *)
(* ================================================================== *)

Lemma skip_trailing_none (s : string) :
  all_chars (fun c => negb (PyStr.is_int_space c)) s = true ->
  PyStr.skip_trailing s = s.
Proof.
  induction s as [| c r IH]; [reflexivity |].
  cbn [all_chars PyStr.skip_trailing]. intros [Hc Hr]%andb_true_iff.
  rewrite (IH Hr). apply negb_true_iff in Hc. rewrite Hc.
  destruct r; reflexivity.
Qed.

Lemma skip_leading_none (s : string) :
  all_chars (fun c => negb (PyStr.is_int_space c)) s = true ->
  PyStr.skip_leading s = s.
Proof.
  destruct s as [| c r]; [reflexivity |]. cbn [all_chars].
  intros [Hc _]%andb_true_iff. apply negb_true_iff in Hc.
  cbn [PyStr.skip_leading]. now rewrite Hc.
Qed.

Lemma numeral_char_no_int_space (c : ascii) :
  is_numeral_char c = true -> negb (PyStr.is_int_space c) = true.
Proof.
  destruct c as [[] [] [] [] [] [] [] []]; vm_compute; congruence.
Qed.

(** [int] has nothing to skip around what [str] writes. *)
Lemma skip_str_of_int (z : Z) :
  PyStr.skip_trailing (PyStr.skip_leading (Py.str_of_int z)) = Py.str_of_int z.
Proof.
  assert (all_chars (fun c => negb (PyStr.is_int_space c)) (Py.str_of_int z)
          = true) as H.
  { apply (all_chars_impl is_numeral_char); [apply numeral_char_no_int_space |].
    apply str_of_int_chars. }
  rewrite (skip_leading_none _ H). exact (skip_trailing_none _ H).
Qed.

Lemma count_digits_le (s : string) :
  (PyStr.count_digits s <= N.of_nat (String.length s))%N.
Proof.
  induction s as [| c r IH]; [reflexivity |].
  cbn [PyStr.count_digits String.length].
  destruct (PyStr.digit_of c); lia.
Qed.

(** [int(str(z))] is [z]. *)
Lemma int_str_of_int (max_str_digits : N) (z : Z) :
  within_digit_limit max_str_digits (Py.str_of_int z) ->
  PyStr.int max_str_digits (Py.str_of_int z) = Some z.
Proof.
  intros Hlim. unfold PyStr.int. rewrite skip_str_of_int.
  assert (Hok : (negb (max_str_digits =? 0)
                 && (max_str_digits <? PyStr.count_digits (Py.str_of_int z)))%N
                = false).
  { pose proof (count_digits_le (Py.str_of_int z)) as Hle.
    destruct Hlim as [-> | Hlim]; [reflexivity |].
    apply andb_false_iff. right. apply N.ltb_ge. lia. }
  rewrite Hok. clear Hok Hlim.
  unfold Py.str_of_int.
  destruct z as [| p | p]; cbn [Z.to_int NilZero.string_of_int].
  - reflexivity.
  - pose proof (DecimalPos.Unsigned.to_uint_nonnil p) as Hnn.
    pose proof (DecimalPos.Unsigned.of_to p) as Hof.
    unfold NilZero.string_of_uint.
    destruct (Pos.to_uint p) as [| d | d | d | d | d | d | d | d | d | d] eqn:E;
      [congruence | ..];
      match goal with
      | |- context [NilEmpty.string_of_uint ?u] =>
          change (Z.of_N <$> PyStr.digits_value 0 false (NilEmpty.string_of_uint u)
                  = Some (Z.pos p));
          rewrite (digits_value_uint u false) by (left; discriminate)
      end; rewrite Hof; reflexivity.
  - pose proof (DecimalPos.Unsigned.to_uint_nonnil p) as Hnn.
    pose proof (DecimalPos.Unsigned.of_to p) as Hof.
    unfold NilZero.string_of_uint.
    destruct (Pos.to_uint p) as [| d | d | d | d | d | d | d | d | d | d] eqn:E;
      [congruence | ..];
      match goal with
      | |- context [NilEmpty.string_of_uint ?u] =>
          change ((fun n => (- Z.of_N n)%Z)
                    <$> PyStr.digits_value 0 false (NilEmpty.string_of_uint u)
                  = Some (Z.neg p));
          rewrite (digits_value_uint u false) by (left; discriminate)
      end; rewrite Hof; reflexivity.
Qed.

(* ================================================================== *)
(** * The tenant of an object key *)
(* ================================================================== *)

Lemma split_from_app sep cur a r :
  all_chars (fun c => negb (Ascii.eqb c sep)) a = true ->
  PyStr.split_from sep cur (a ++ String sep r)
  = (cur ++ a)%string :: PyStr.split_from sep "" r.
Proof.
  revert cur. induction a as [| c a IH]; intros cur H.
  - rewrite append_nil, string_app_nil_r. cbn [PyStr.split_from].
    now rewrite Ascii.eqb_refl.
  - cbn [all_chars] in H. apply andb_true_iff in H. destruct H as [Hc Ha].
    apply negb_true_iff in Hc.
    rewrite append_cons. cbn [PyStr.split_from]. rewrite Hc.
    rewrite (IH _ Ha), string_app_assoc. reflexivity.
Qed.

Lemma numeral_char_no_slash (c : ascii) :
  is_numeral_char c = true -> negb (Ascii.eqb c "/") = true.
Proof.
  destruct c as [[] [] [] [] [] [] [] []]; vm_compute; congruence.
Qed.

Lemma split_tenant_key (tenant_id : Z) (name : string) :
  PyStr.split "/" (tenant_prefix tenant_id ++ name)
  = "knowledge_base" :: Py.str_of_int tenant_id :: PyStr.split "/" name.
Proof.
  unfold tenant_prefix, S3_PREFIX_KNOWLEDGE, PyStr.split.
  rewrite !string_app_assoc.
  change (("/" ++ Py.str_of_int tenant_id ++ "/" ++ name)%string)
    with (String "/" (Py.str_of_int tenant_id ++ String "/" name)).
  rewrite (split_from_app "/" "" "knowledge_base") by reflexivity.
  rewrite split_from_app.
  - reflexivity.
  - apply (all_chars_impl is_numeral_char); [apply numeral_char_no_slash |].
    apply str_of_int_chars.
Qed.

Lemma extract_tenant_key (max_str_digits : N) (tenant_id : Z) (name : string) :
  within_digit_limit max_str_digits (Py.str_of_int tenant_id) ->
  extract_tenant_id_from_s3_path max_str_digits (tenant_prefix tenant_id ++ name)
  = Some tenant_id.
Proof.
  intros Hlim. unfold extract_tenant_id_from_s3_path.
  rewrite split_tenant_key. cbn [length Nat.leb lookup list_lookup default andb].
  change (("knowledge_base" =? "knowledge_base")%string) with true. cbn [andb].
  change (default "" (Some (Py.str_of_int tenant_id)))
    with (Py.str_of_int tenant_id).
  apply int_str_of_int. exact Hlim.
Qed.

(** X3.  The Lambda handler's path parser inverts the key layout of
    [rag_utils.py]: every object key under a tenant's prefix
    [knowledge_base/<tenant_id>/], whatever follows the prefix, is
    attributed to that tenant. *)
Theorem extract_tenant_id_of_tenant_key
    (max_str_digits : N) (tenant_id : Z) (name : string) :
  within_digit_limit max_str_digits (Py.str_of_int tenant_id) ->
  extract_tenant_id_from_s3_path max_str_digits (tenant_prefix tenant_id ++ name)
  = Some tenant_id.
Proof. apply extract_tenant_key. Qed.

(** Tenant 25's upload, with the default digit limit. *)
Lemma extract_tenant_id_of_tenant_key_witness :
  extract_tenant_id_from_s3_path 4300 (tenant_prefix 25 ++ "reports/q1.pdf")
  = Some 25%Z.
Proof.
  apply (extract_tenant_id_of_tenant_key 4300 25 "reports/q1.pdf").
  right. vm_compute. discriminate.
Defined.

(* ================================================================== *)
(** * Whitespace normal forms *)
(* ================================================================== *)

Section Spacing.

Variable good : ascii -> bool.
Hypothesis good_not_space : forall c, good c = true -> Py.is_space c = false.

Lemma space_is_space : Py.is_space " " = true.
Proof. reflexivity. Qed.

Lemma not_space_neq (c : ascii) : Py.is_space c = false -> Ascii.eqb c " " = false.
Proof.
  intros H. destruct (Ascii.eqb_spec c " ") as [-> | _]; [| reflexivity].
  rewrite space_is_space in H. discriminate.
Qed.

Lemma spaced_collapse (b : bool) (t : string) :
  all_chars (fun c => Py.is_space c || good c) t = true ->
  spaced good b (Py.collapse_spaces b t) = true.
Proof.
  revert b. induction t as [| c r IH]; intros b H; [reflexivity |].
  cbn [all_chars] in H. apply andb_true_iff in H. destruct H as [Hc Hr].
  cbn [Py.collapse_spaces].
  destruct (Py.is_space c) eqn:Es.
  - destruct b; [apply IH, Hr |].
    cbn [spaced]. rewrite Ascii.eqb_refl. cbn [negb andb]. apply IH, Hr.
  - cbn [orb] in Hc. cbn [spaced]. rewrite (not_space_neq c Es), Hc.
    cbn [andb]. apply IH, Hr.
Qed.

Lemma spaced_lstrip (b : bool) (u : string) :
  spaced good b u = true -> spaced good true (Py.lstrip u) = true.
Proof.
  revert b. induction u as [| c r IH]; intros b H; [reflexivity |].
  cbn [spaced] in H. cbn [Py.lstrip].
  destruct (Ascii.eqb_spec c " ") as [-> | Hne].
  - rewrite space_is_space. apply andb_true_iff in H. destruct H as [_ H].
    exact (IH true H).
  - apply andb_true_iff in H. destruct H as [Hg Hr].
    rewrite (good_not_space c Hg). cbn [spaced].
    rewrite (not_space_neq c (good_not_space c Hg)), Hg, Hr. reflexivity.
Qed.

Lemma normal_rstrip (b : bool) (u : string) :
  spaced good b u = true ->
  Py.rstrip u = "" \/ normal_from good b (Py.rstrip u) = true.
Proof.
  revert b. induction u as [| c r IH]; intros b H; [now left |].
  cbn [spaced] in H. cbn [Py.rstrip].
  destruct (Ascii.eqb_spec c " ") as [-> | Hne].
  - apply andb_true_iff in H. destruct H as [Hb Hr].
    rewrite space_is_space.
    destruct (IH true Hr) as [E | Hn].
    + rewrite E. now left.
    + destruct (Py.rstrip r) as [| c' r'] eqn:E; [discriminate |].
      right. cbn [normal_from]. rewrite Ascii.eqb_refl, Hb.
      exact Hn.
  - apply andb_true_iff in H. destruct H as [Hg Hr].
    rewrite (good_not_space c Hg). right.
    pose proof (not_space_neq c (good_not_space c Hg)) as Hc.
    destruct (IH false Hr) as [E | Hn].
    + rewrite E. cbn [normal_from]. rewrite Hc, Hg. reflexivity.
    + destruct (Py.rstrip r) as [| c' r'] eqn:E;
        cbn [normal_from] in *; rewrite Hc, Hg; [reflexivity | exact Hn].
Qed.

(** Collapsing the whitespace and stripping gives a normal form. *)
Lemma single_spaced_strip_collapse (t : string) :
  all_chars (fun c => Py.is_space c || good c) t = true ->
  single_spaced good (Py.strip (Py.collapse_spaces false t)) = true.
Proof.
  intros H. unfold Py.strip, single_spaced.
  pose proof (spaced_lstrip _ _ (spaced_collapse false t H)) as Hl.
  destruct (normal_rstrip _ _ Hl) as [-> | Hn]; [reflexivity |].
  destruct (Py.rstrip _); [reflexivity | exact Hn].
Qed.

Lemma normal_rstrip_id (b : bool) (s : string) :
  normal_from good b s = true -> Py.rstrip s = s.
Proof.
  revert b. induction s as [| c r IH]; intros b H; [reflexivity |].
  cbn [normal_from] in H. cbn [Py.rstrip].
  destruct (Ascii.eqb_spec c " ") as [-> | Hne].
  - apply andb_true_iff in H. destruct H as [_ Hr].
    rewrite (IH true Hr). destruct r; [discriminate | reflexivity].
  - apply andb_true_iff in H. destruct H as [Hg Hr].
    rewrite (IH false Hr), (good_not_space c Hg). destruct r; reflexivity.
Qed.

Lemma normal_lstrip_id (s : string) :
  normal_from good true s = true -> Py.lstrip s = s.
Proof.
  destruct s as [| c r]; [reflexivity |]. cbn [normal_from Py.lstrip].
  destruct (Ascii.eqb_spec c " ") as [-> | Hne]; [discriminate |].
  intros [Hg _]%andb_true_iff. now rewrite (good_not_space c Hg).
Qed.

Lemma normal_strip_id (s : string) :
  normal_from good true s = true -> Py.strip s = s.
Proof.
  intros H. unfold Py.strip. rewrite (normal_lstrip_id s H).
  exact (normal_rstrip_id true s H).
Qed.

Lemma normal_collapse_id (b in_run : bool) (s : string) :
  normal_from good b s = true ->
  (b = false -> in_run = false) ->
  Py.collapse_spaces in_run s = s.
Proof.
  revert b in_run. induction s as [| c r IH]; intros b in_run H Hb;
    [reflexivity |].
  cbn [normal_from] in H. cbn [Py.collapse_spaces].
  destruct (Ascii.eqb_spec c " ") as [-> | Hne].
  - apply andb_true_iff in H. destruct H as [Hnb Hr].
    apply negb_true_iff in Hnb. rewrite space_is_space, (Hb Hnb).
    now rewrite (IH true true Hr).
  - apply andb_true_iff in H. destruct H as [Hg Hr].
    rewrite (good_not_space c Hg).
    now rewrite (IH false false Hr).
Qed.

Lemma normal_chars (b : bool) (s : string) :
  normal_from good b s = true ->
  all_chars (fun c => Ascii.eqb c " " || good c) s = true.
Proof.
  revert b. induction s as [| c r IH]; intros b H; [reflexivity |].
  cbn [normal_from] in H. cbn [all_chars].
  destruct (Ascii.eqb_spec c " ") as [-> | Hne];
    apply andb_true_iff in H; destruct H as [H1 Hr].
  - cbn [orb andb]. exact (IH true Hr).
  - rewrite H1, orb_true_r. cbn [andb]. exact (IH false Hr).
Qed.

(** A normal form is a fixed point of collapsing and stripping. *)
Lemma single_spaced_fixed (s : string) :
  single_spaced good s = true ->
  Py.strip (Py.collapse_spaces false s) = s.
Proof.
  destruct s as [| c r]; [reflexivity |]. unfold single_spaced. intros H.
  rewrite (normal_collapse_id true false _ H) by discriminate.
  exact (normal_strip_id _ H).
Qed.

End Spacing.

(** X5.  [clean_text] yields a text in normal form: no whitespace but
    single spaces, none at either end; and cleaning a clean text
    changes nothing. *)
Theorem clean_text_normal_form (text : string) :
  single_spaced not_space (clean_text text) = true
  /\ clean_text (clean_text text) = clean_text text.
Proof.
  assert (Hg : forall c, not_space c = true -> Py.is_space c = false).
  { intros c H. now apply negb_true_iff in H. }
  assert (H : single_spaced not_space (clean_text text) = true).
  { apply (single_spaced_strip_collapse not_space Hg).
    induction text as [| c r IH]; [reflexivity |]. cbn [all_chars].
    rewrite IH. unfold not_space. now destruct (Py.is_space c). }
  split; [exact H |].
  exact (single_spaced_fixed not_space Hg _ H).
Qed.

(* ================================================================== *)
(** * Normalizing a question *)
(* ================================================================== *)

Lemma lower_char_idem (c : ascii) :
  Ascii.eqb (Py.lower_char (Py.lower_char c)) (Py.lower_char c) = true.
Proof. destruct c as [[] [] [] [] [] [] [] []]; vm_compute; reflexivity. Qed.

Lemma lower_word_not_space (c : ascii) :
  lower_word c = true -> Py.is_space c = false.
Proof. destruct c as [[] [] [] [] [] [] [] []]; vm_compute; congruence. Qed.

Lemma all_chars_lower (s : string) :
  all_chars (fun c => Ascii.eqb (Py.lower_char c) c) (Py.lower s) = true.
Proof.
  induction s as [| c r IH]; [reflexivity |].
  cbn [Py.lower all_chars]. now rewrite lower_char_idem, IH.
Qed.

Lemma all_chars_lstrip (p : ascii -> bool) (s : string) :
  all_chars p s = true -> all_chars p (Py.lstrip s) = true.
Proof.
  induction s as [| c r IH]; [reflexivity |]. cbn [Py.lstrip].
  destruct (Py.is_space c); [| tauto].
  cbn [all_chars]. intros [_ H]%andb_true_iff. exact (IH H).
Qed.

Lemma all_chars_rstrip (p : ascii -> bool) (s : string) :
  all_chars p s = true -> all_chars p (Py.rstrip s) = true.
Proof.
  induction s as [| c r IH]; [reflexivity |]. cbn [Py.rstrip all_chars].
  intros [Hc Hr]%andb_true_iff. specialize (IH Hr).
  destruct (Py.rstrip r).
  - destruct (Py.is_space c); [reflexivity |]. cbn [all_chars]. now rewrite Hc.
  - cbn [all_chars] in *. now rewrite Hc, IH.
Qed.

Lemma all_chars_strip (p : ascii -> bool) (s : string) :
  all_chars p s = true -> all_chars p (Py.strip s) = true.
Proof. intros H. apply all_chars_rstrip, all_chars_lstrip, H. Qed.

Lemma all_chars_remove_punctuation (p : ascii -> bool) (s : string) :
  all_chars p s = true ->
  all_chars (fun c => (PyStr.is_word c || Py.is_space c) && p c)
            (PyStr.remove_punctuation s) = true.
Proof.
  induction s as [| c r IH]; [reflexivity |].
  cbn [all_chars PyStr.remove_punctuation].
  intros [Hc Hr]%andb_true_iff. specialize (IH Hr).
  destruct (PyStr.is_word c || Py.is_space c) eqn:E; [| exact IH].
  cbn [all_chars]. now rewrite E, Hc, IH.
Qed.

Lemma lower_fixed (s : string) :
  all_chars (fun c => Ascii.eqb (Py.lower_char c) c) s = true -> Py.lower s = s.
Proof.
  induction s as [| c r IH]; [reflexivity |]. cbn [all_chars Py.lower].
  intros [Hc Hr]%andb_true_iff. apply Ascii.eqb_eq in Hc.
  now rewrite Hc, (IH Hr).
Qed.

Lemma remove_punctuation_fixed (s : string) :
  all_chars (fun c => PyStr.is_word c || Py.is_space c) s = true ->
  PyStr.remove_punctuation s = s.
Proof.
  induction s as [| c r IH]; [reflexivity |].
  cbn [all_chars PyStr.remove_punctuation].
  intros [Hc Hr]%andb_true_iff. now rewrite Hc, (IH Hr).
Qed.

(** A question in normal form is left as it is. *)
Lemma clean_query_fixed (s : string) :
  single_spaced lower_word s = true -> clean_query s = s.
Proof.
  destruct s as [| c0 r0]; [reflexivity |]. intros H.
  unfold clean_query. cbn [Py.truthy negb].
  pose proof H as Hn. unfold single_spaced in Hn.
  pose proof (normal_chars lower_word true _ Hn) as Hc.
  rewrite lower_fixed.
  2:{ revert Hc. apply all_chars_impl. intros c.
      destruct c as [[] [] [] [] [] [] [] []]; vm_compute; congruence. }
  rewrite (normal_strip_id lower_word lower_word_not_space _ Hn).
  rewrite remove_punctuation_fixed.
  2:{ revert Hc. apply all_chars_impl. intros c.
      destruct c as [[] [] [] [] [] [] [] []]; vm_compute; congruence. }
  exact (single_spaced_fixed lower_word lower_word_not_space _ H).
Qed.

(** X6.  [clean_query] yields a question in normal form: lower-case
    word code points with single spaces between them and none at either
    end; and it leaves a question in normal form as it is, so that
    cleaning twice is cleaning once. *)
Theorem clean_query_normal_form (question : string) :
  single_spaced lower_word (clean_query question) = true
  /\ clean_query (clean_query question) = clean_query question.
Proof.
  assert (H : single_spaced lower_word (clean_query question) = true).
  { unfold clean_query. destruct (Py.truthy question); [| reflexivity].
    cbn [negb].
    apply (single_spaced_strip_collapse lower_word lower_word_not_space).
    pose proof (all_chars_remove_punctuation _ _
                  (all_chars_strip _ _ (all_chars_lower question))) as Hc.
    revert Hc. apply all_chars_impl. intros c.
    unfold lower_word.
    destruct (PyStr.is_word c), (Py.is_space c),
      (Ascii.eqb (Py.lower_char c) c); cbn; congruence. }
  split; [exact H | exact (clean_query_fixed _ H)].
Qed.

(* ================================================================== *)
(** * The crawler *)
(* ================================================================== *)

Lemma prefix_length (n : nat) (s : string) :
  String.length (Py.prefix n s) = Nat.min n (String.length s).
Proof.
  unfold Py.prefix. revert n. induction s as [| c r IH]; intros [| n];
    cbn [substring String.length Nat.min]; try reflexivity.
  now rewrite IH.
Qed.

Lemma fetch_url_content_run {X} (sv : Services X) (url : string) (w : world X) :
  exists r w',
    fetch_url_content sv url w = (Ok r, w')
    /\ trace w' = trace w ++ [EvHttpGet url]
    /\ ext w' = snd (http_get sv url (ext w))
    /\ forall doc, r = Some doc ->
         metadata doc = {[ "source" := PStr url ]}
         /\ (150 <= N.of_nat (String.length (page_content doc)) <= 15000)%N
         /\ exists body,
              fst (http_get sv url (ext w)) = Return (200%Z, body)
              /\ page_content doc
                 = Py.prefix (N.to_nat 15000) (clean_text (soup_text sv body)).
Proof.
  unfold fetch_url_content, try_except, bind, call.
  destruct (http_get sv url (ext w)) as [[[status body] | e] x'] eqn:E;
    cbn [fst snd].
  - destruct (Z.eqb_spec status 200) as [-> | Hne]; cbn [negb].
    + destruct (Nat.ltb_spec (String.length (clean_text (soup_text sv body))) 150)
        as [Hlt | Hge].
      * eexists _, _. split; [reflexivity |]. cbn [trace ext].
        repeat split. all: discriminate.
      * eexists _, _. split; [reflexivity |]. cbn [trace ext].
        split; [reflexivity |]. split; [reflexivity |].
        intros doc [= <-]. cbn [metadata page_content].
        split; [reflexivity |]. rewrite prefix_length.
        split; [| exists body; split; reflexivity].
        lia.
    + eexists _, _. split; [reflexivity |]. cbn [trace ext].
      repeat split. all: discriminate.
  - eexists _, _. split; [reflexivity |]. cbn [trace ext].
    repeat split. all: discriminate.
Qed.

(** X7.  [fetch_url_content] never raises and makes exactly one HTTP
    request.  It yields a document only for a reply with status 200
    whose cleaned text has at least 150 code points; the document holds
    the first 15000 code points of that text and names the URL as its
    source.  Every failure of the request becomes [None]. *)
Theorem fetch_url_content_total {X} (sv : Services X) (url : string) (w : world X) :
  exists r w',
    fetch_url_content sv url w = (Ok r, w')
    /\ trace w' = trace w ++ [EvHttpGet url]
    /\ ext w' = snd (http_get sv url (ext w))
    /\ forall doc, r = Some doc ->
         metadata doc = {[ "source" := PStr url ]}
         /\ (150 <= N.of_nat (String.length (page_content doc)) <= 15000)%N
         /\ exists body,
              fst (http_get sv url (ext w)) = Return (200%Z, body)
              /\ page_content doc
                 = Py.prefix (N.to_nat 15000) (clean_text (soup_text sv body)).
Proof. exact (fetch_url_content_run sv url w). Qed.







(* ================================================================== *)
(** * Listing a tenant's files *)
(* ================================================================== *)

Lemma rev_string_acc (acc s : string) :
  Py.rev_string acc s = (Py.rev_string "" s ++ acc)%string.
Proof.
  revert acc. induction s as [| c r IH]; intros acc; cbn [Py.rev_string];
    [reflexivity |].
  rewrite (IH (String c acc)), (IH (String c "")), string_app_assoc.
  reflexivity.
Qed.

Lemma rev_string_app (acc a b : string) :
  Py.rev_string acc (a ++ b) = Py.rev_string (Py.rev_string acc a) b.
Proof.
  revert acc. induction a as [| c r IH]; intros acc; [reflexivity |].
  rewrite append_cons. cbn [Py.rev_string]. apply IH.
Qed.

Lemma prefix_app (x y : string) : String.prefix x (x ++ y) = true.
Proof.
  induction x as [| c r IH]; [destruct y; reflexivity |].
  rewrite append_cons. cbn [String.prefix].
  destruct (ascii_dec c c); [exact IH | congruence].
Qed.

Lemma endswith_app (a b : string) : Py.endswith (a ++ b) b = true.
Proof.
  unfold Py.endswith.
  rewrite rev_string_app, (rev_string_acc (Py.rev_string "" a) b).
  apply prefix_app.
Qed.

Lemma urls_key_is_registry (tenant_id : Z) :
  Py.endswith (urls_key tenant_id) "/urls.txt" = true.
Proof.
  unfold urls_key.
  rewrite <- (string_app_assoc _ (Py.str_of_int tenant_id) "/urls.txt").
  rewrite <- (string_app_assoc S3_PREFIX_KNOWLEDGE).
  apply endswith_app.
Qed.

(** X9.  What [s3_list_tenant_files] returns is the listing of the
    tenant's prefix without the keys that end in [/urls.txt]: the
    tenant's URL registry is never handed to a document loader, and
    neither is any other object of that name further down. *)
Theorem s3_list_tenant_files_skips_registry {X} (sv : Services X)
    (tenant_id : Z) (w w' : world X) (keys : list string) :
  s3_list_tenant_files sv tenant_id w = (Ok keys, w') ->
  ~ In (urls_key tenant_id) keys
  /\ exists pages,
       fst (list_objects_v2 sv (tenant_prefix tenant_id) (ext w)) = Return pages
       /\ forall k, In k keys
                    <-> In k (concat pages) /\ Py.endswith k "/urls.txt" = false.
Proof.
  unfold s3_list_tenant_files, bind, call, ret.
  destruct (list_objects_v2 sv (tenant_prefix tenant_id) (ext w))
    as [[pages | e] x'] eqn:E; [| discriminate].
  intros [= <- _].
  assert (Hk : forall k,
             In k (List.filter (fun k => negb (Py.endswith k "/urls.txt"))
                               (concat pages))
             <-> In k (concat pages) /\ Py.endswith k "/urls.txt" = false).
  { intros k. rewrite filter_In, negb_true_iff. reflexivity. }
  split.
  - intros Hin. apply Hk in Hin as [_ Hin].
    rewrite urls_key_is_registry in Hin. discriminate.
  - exists pages. split; [reflexivity | exact Hk].
Qed.

(** Tenant 7's folder holds the registry and one PDF: the PDF alone is
    listed. *)
Lemma s3_list_tenant_files_skips_registry_witness :
  let w := start registry_and_pdf in
  s3_list_tenant_files Cloud.services 7 w
  = (Ok ["knowledge_base/7/manual.pdf"],
     mkWorld [EvListObjects "knowledge_base/7/"] registry_and_pdf)
  /\ ~ In (urls_key 7) ["knowledge_base/7/manual.pdf"]
  /\ exists pages,
       fst (list_objects_v2 Cloud.services (tenant_prefix 7) (ext w))
       = Return pages
       /\ forall k, In k ["knowledge_base/7/manual.pdf"]
                    <-> In k (concat pages) /\ Py.endswith k "/urls.txt" = false.
Proof.
  cbv zeta. split; [reflexivity |].
  apply (s3_list_tenant_files_skips_registry Cloud.services 7
           (start registry_and_pdf)
           (mkWorld [EvListObjects "knowledge_base/7/"] registry_and_pdf)).
  reflexivity.
Defined.

(* ================================================================== *)
(** * The module as it is *)
(* ================================================================== *)

(** X10.  With [is_valid_url] undefined, as it is in the module,
    [s3_load_urls_from_file] never yields a URL: it returns the empty
    list (registry missing, unreadable with a ClientError, or blank) or
    raises something that is not a ClientError. *)
Theorem s3_load_urls_never_yields_urls {X} (sv : Services X) (tenant_id : Z)
    (w : world X) :
  let r := fst (s3_load_urls_from_file sv rag_utils_namespace tenant_id w) in
  r = Ok [] \/ exists e, r = Raise e /\ forall code, e <> ClientError code.
Proof.
  cbv zeta.
  destruct (get_object sv (urls_key tenant_id) (ext w)) as [[content | e] x']
    eqn:E.
  - destruct (existsb (fun l => Py.truthy (Py.strip l)) (Py.splitlines content))
      eqn:Eb.
    + apply existsb_exists in Eb.
      rewrite (s3_load_urls_unbound sv tenant_id w content x' E Eb).
      right. eexists. split; [reflexivity | discriminate].
    + left. unfold s3_load_urls_from_file.
      erewrite try_except_Ok; [reflexivity |].
      rewrite (bind_Ok _ _ _ _ _ (call_Return _ _ w _ _ E)).
      apply valid_url_lines_blank. intros line Hl.
      destruct (Py.truthy (Py.strip line)) eqn:Et; [| reflexivity].
      assert (existsb (fun l => Py.truthy (Py.strip l)) (Py.splitlines content)
              = true) as Hc
          by (apply existsb_exists; exists line; split; assumption).
      congruence.
  - destruct e as [code | name | what | what].
    + left. now rewrite (s3_load_urls_missing sv _ tenant_id w code x' E).
    + right. unfold s3_load_urls_from_file, try_except, bind, call.
      rewrite E. eexists. split; [reflexivity | discriminate].
    + right. unfold s3_load_urls_from_file, try_except, bind, call.
      rewrite E. eexists. split; [reflexivity | discriminate].
    + right. unfold s3_load_urls_from_file, try_except, bind, call.
      rewrite E. eexists. split; [reflexivity | discriminate].
Qed.

Lemma index_tenant_files_unbound {X} (sv : Services X) (cfg : config)
    (fuel : nat) (tenant_id : Z) (additional_urls : option (list string))
    (w : world X) :
  index_tenant_files sv rag_utils_namespace cfg fuel tenant_id additional_urls w
  = (ensure_vector_index sv cfg ;;;
     delete_tenant_vectors sv fuel tenant_id ;;;
     raise (NameError "tempfile")) w.
Proof.
  unfold index_tenant_files, bind.
  destruct (ensure_vector_index sv cfg w) as [[[] | e |] w1]; reflexivity.
Qed.

Lemma index_tenant_files_never_returns_aux {X} (sv : Services X) (cfg : config)
    (fuel : nat) (tenant_id : Z) (additional_urls : option (list string)) :
  (forall w n,
      fst (index_tenant_files sv rag_utils_namespace cfg fuel tenant_id
             additional_urls w) <> Ok n)
  /\ emits index_setup_event
       (index_tenant_files sv rag_utils_namespace cfg fuel tenant_id
          additional_urls).
Proof.
  split.
  - intros w n. rewrite index_tenant_files_unbound. unfold bind, raise.
    destruct (ensure_vector_index sv cfg w) as [[[] | e |] w1];
      try discriminate.
    destruct (delete_tenant_vectors sv fuel tenant_id w1) as [[[] | e |] w2];
      discriminate.
  - intros w r w' H. rewrite index_tenant_files_unbound in H.
    revert w r w' H.
    change (emits index_setup_event
              (ensure_vector_index sv cfg ;;;
               delete_tenant_vectors sv fuel tenant_id ;;;
               raise (A:=nat) (NameError "tempfile"))).
    apply emits_bind.
    { apply emits_ensure_vector_index; cbn; auto. }
    intros _. apply emits_bind; [| intros _; apply emits_raise].
    eapply emits_weaken; [| apply emits_delete_tenant_vectors].
    intros ev [(token & ->) | (batch & -> & _)]; exact I.
Qed.

(** X11.  As the module is ([tempfile] is not imported),
    [index_tenant_files] never returns a count, on any deployment, and
    all it ever calls are the index probe and the scan and deletion of
    the tenant's vectors: it lists no file, downloads and embeds
    nothing, and puts no document vector. *)
Theorem index_tenant_files_never_returns {X} (sv : Services X) (cfg : config)
    (fuel : nat) (tenant_id : Z) (additional_urls : option (list string)) :
  (forall w n,
      fst (index_tenant_files sv rag_utils_namespace cfg fuel tenant_id
             additional_urls w) <> Ok n)
  /\ emits index_setup_event
       (index_tenant_files sv rag_utils_namespace cfg fuel tenant_id
          additional_urls).
Proof.
  exact (index_tenant_files_never_returns_aux sv cfg fuel tenant_id
           additional_urls).
Qed.

(* ================================================================== *)
(** * Deletion and the other tenants *)
(* ================================================================== *)

Lemma filter_filter_and {A} (f g : A -> bool) (l : list A) :
  List.filter f (List.filter g l) = List.filter (fun x => g x && f x) l.
Proof.
  induction l as [| x l IH]; [reflexivity |]. cbn [List.filter].
  destruct (g x); cbn [List.filter andb]; [destruct (f x) |]; now rewrite IH.
Qed.

Lemma filter_all {A} (l : list A) : List.filter (fun _ => true) l = l.
Proof. induction l as [| x l IH]; [reflexivity |]. cbn. now rewrite IH. Qed.

Lemma fold_remove_is_filter (keys : list string) (starts : list nat)
    (rs : list VectorRecord) :
  fold_left (fun rs i => Cloud.remove_keys (batch_at keys i) rs) starts rs
  = List.filter
      (fun r => forallb (fun i => negb (Cloud.has_key (batch_at keys i) r)) starts)
      rs.
Proof.
  revert rs. induction starts as [| i rest IH]; intros rs; cbn [fold_left forallb].
  - now rewrite filter_all.
  - rewrite IH. unfold Cloud.remove_keys at 1. apply filter_filter_and.
Qed.

Lemma NoDup_map_eq {A B} (f : A -> B) (l : list A) (x y : A) :
  List.NoDup (map f l) -> In x l -> In y l -> f x = f y -> x = y.
Proof.
  induction l as [| a l IH]; [intros _ [] |].
  cbn [map]. intros Hnd Hx Hy E. apply NoDup_cons_iff in Hnd as [Ha Hnd].
  destruct Hx as [-> | Hx], Hy as [-> | Hy].
  - reflexivity.
  - exfalso. apply Ha. rewrite E. now apply in_map.
  - exfalso. apply Ha. rewrite <- E. now apply in_map.
  - now apply IH.
Qed.

(** The run of [delete_tenant_vectors] on a fault-free deployment with
    an index: the records are filtered by a test that rejects exactly
    the keys of the tenant's records, and nothing else changes. *)
Lemma cloud_delete_run (tenant_id : Z) (st : Cloud.state) (tr : list event)
    (fuel : nat) :
  Cloud.faults st = [] ->
  Cloud.index st <> None ->
  length (Cloud.tenant_records tenant_id st) < 30 * fuel ->
  exists evs f,
    delete_tenant_vectors Cloud.services fuel tenant_id (mkWorld tr st)
    = (Ok tt,
       mkWorld (tr ++ evs)
               (Cloud.set_records (List.filter f (Cloud.records st)) st))
    /\ Forall (delete_step tenant_id) evs
    /\ forall r, In r (Cloud.records st) ->
         (f r = true
          <-> ~ In (key r) (map key (Cloud.tenant_records tenant_id st))).
Proof.
  intros Hf Hi Hfuel.
  destruct (Cloud.index st) as [spec |] eqn:Ei; [clear Hi | congruence].
  set (keys := map key (Cloud.tenant_records tenant_id st)).
  destruct (cloud_scan tenant_id st spec Hf Ei fuel 0 [] tr ltac:(lia) ltac:(lia))
    as (scans & Hscan & Hscans).
  cbn [token_at app] in Hscan. rewrite drop_0 in Hscan. fold keys in Hscan.
  set (f := fun r => forallb (fun i => negb (Cloud.has_key (batch_at keys i) r))
                             (batch_starts (length keys))).
  set (deletions := map (fun i => EvDeleteVectors (batch_at keys i))
                        (batch_starts (length keys))).
  assert (Hrun :
    delete_tenant_vectors Cloud.services fuel tenant_id (mkWorld tr st)
    = (Ok tt, mkWorld (tr ++ scans ++ deletions)
                      (Cloud.set_records (List.filter f (Cloud.records st)) st))).
  { unfold delete_tenant_vectors. apply try_except_Ok.
    unfold scan_and_delete. rewrite (bind_Ok _ _ _ _ _ Hscan).
    destruct (nonempty keys) eqn:En.
    - rewrite (cloud_delete_batches keys spec _ st (tr ++ scans) Hf Ei).
      rewrite fold_remove_is_filter. subst deletions f.
      rewrite <- app_assoc. reflexivity.
    - assert (keys = []) as Ek by (destruct keys; [reflexivity | discriminate]).
      subst deletions f. rewrite Ek.
      change (batch_starts (length (@nil string))) with (@nil nat).
      cbn [map forallb]. rewrite filter_all, !app_nil_r, set_records_same.
      reflexivity. }
  exists (scans ++ deletions), f. split; [exact Hrun |]. split.
  - destruct (emits_delete_tenant_vectors Cloud.services fuel tenant_id _ _ _ Hrun)
      as (evs & Ht & Hall).
    cbn [trace] in Ht. apply app_inv_head in Ht. rewrite Ht. exact Hall.
  - intros r Hr.
    pose proof (all_batches_left keys (Cloud.records st) r) as Hleft.
    rewrite fold_remove_is_filter, filter_In in Hleft. fold f in Hleft.
    tauto.
Qed.

(** X12.  When the stored keys are unique, [delete_tenant_vectors]
    removes the records tagged with the tenant and nothing else: the
    records of all other tenants stay, in their order, and no other part
    of the deployment changes. *)
Theorem delete_tenant_vectors_keeps_others (tenant_id : Z) (st : Cloud.state)
    (tr : list event) (fuel : nat) :
  Cloud.faults st = [] ->
  Cloud.index st <> None ->
  length (Cloud.tenant_records tenant_id st) < 30 * fuel ->
  List.NoDup (map key (Cloud.records st)) ->
  exists evs,
    delete_tenant_vectors Cloud.services fuel tenant_id (mkWorld tr st)
    = (Ok tt,
       mkWorld (tr ++ evs)
         (Cloud.set_records
            (List.filter
               (fun r => negb (Cloud.tagged TENANT_ID_KEY
                                 (Py.str_of_int tenant_id) r))
               (Cloud.records st))
            st)).
Proof.
  intros Hf Hi Hfuel Hnd.
  destruct (cloud_delete_run tenant_id st tr fuel Hf Hi Hfuel)
    as (evs & f & Hrun & _ & Hkeep).
  exists evs. rewrite Hrun. do 3 f_equal.
  apply filter_ext_in. intros r Hr. specialize (Hkeep r Hr).
  destruct (Cloud.tagged TENANT_ID_KEY (Py.str_of_int tenant_id) r) eqn:Et;
    cbn [negb].
  - apply not_true_is_false. intros E. apply Hkeep in E. apply E.
    apply in_map. unfold Cloud.tenant_records. apply filter_In. now split.
  - apply Hkeep. intros Hin. apply in_map_iff in Hin as (r' & Hk & Hr').
    unfold Cloud.tenant_records in Hr'. apply filter_In in Hr' as [Hr' Ht'].
    assert (r' = r) by (eapply NoDup_map_eq; eauto). subst r'. congruence.
Qed.

(** Tenants 7 and 8 side by side: deleting tenant 7 leaves the record
    of tenant 8. *)
Lemma delete_tenant_vectors_keeps_others_witness :
  let st := Cloud.ready two_tenants in
  exists evs,
    delete_tenant_vectors Cloud.services 1 7 (mkWorld [] st)
    = (Ok tt,
       mkWorld ([] ++ evs)
         (Cloud.set_records
            (List.filter
               (fun r => negb (Cloud.tagged TENANT_ID_KEY (Py.str_of_int 7) r))
               (Cloud.records st))
            st)).
Proof.
  apply (delete_tenant_vectors_keeps_others 7 (Cloud.ready two_tenants) [] 1).
  - reflexivity.
  - discriminate.
  - vm_compute. lia.
  - cbn. repeat constructor; cbn; intuition discriminate.
Defined.

(* ================================================================== *)
(** * The index probe on the in-memory deployment *)
(* ================================================================== *)

Lemma remove_ping_twice (rs : list VectorRecord) :
  Cloud.remove_keys ["ping"] (Cloud.remove_keys ["ping"] rs ++ [ping_record])
  = Cloud.remove_keys ["ping"] rs.
Proof.
  unfold Cloud.remove_keys at 1. rewrite List.filter_app.
  change (List.filter (fun r => negb (Cloud.has_key ["ping"] r)) [ping_record])
    with (@nil VectorRecord).
  rewrite app_nil_r. unfold Cloud.remove_keys.
  rewrite filter_filter_and. apply filter_ext. intros r.
  now destruct (negb (Cloud.has_key ["ping"] r)).
Qed.

Lemma ensured_records_eq (cfg : config) (st : Cloud.state) :
  Cloud.records (ensured cfg st)
  = match Cloud.index st with
    | Some _ => Cloud.remove_keys ["ping"] (Cloud.records st)
    | None => Cloud.records st
    end.
Proof.
  unfold ensured.
  destruct (existsb _ _), (Cloud.index st);
    cbn [Cloud.records Cloud.set_records Cloud.set_index Cloud.set_buckets];
    try reflexivity; apply remove_ping_twice.
Qed.

Lemma filter_length_le {A} (f : A -> bool) (l : list A) :
  length (List.filter f l) <= length l.
Proof.
  induction l as [| x l IH]; [reflexivity |]. cbn [List.filter].
  destruct (f x); cbn [length]; lia.
Qed.

Lemma ensured_tenant_records (cfg : config) (tenant_id : Z) (st : Cloud.state) :
  length (Cloud.tenant_records tenant_id (ensured cfg st))
  <= length (Cloud.tenant_records tenant_id st).
Proof.
  unfold Cloud.tenant_records. rewrite ensured_records_eq.
  destruct (Cloud.index st); [| reflexivity].
  unfold Cloud.remove_keys. generalize (Cloud.records st) as rs.
  induction rs as [| r rs IH]; [reflexivity |]. cbn [List.filter].
  destruct (negb (Cloud.has_key ["ping"] r)); cbn [List.filter];
    destruct (Cloud.tagged _ _ r); cbn [length]; lia.
Qed.

(** X13.  What the missing import costs: on a fault-free deployment a
    re-index deletes the tenant's vectors and then stops with
    NameError.  The tenant is left with no vector at all, and nothing
    has been listed, loaded or uploaded to replace them. *)
Theorem reindex_erases_tenant (cfg : config) (tenant_id : Z) (st : Cloud.state)
    (tr : list event) (fuel : nat) (additional_urls : option (list string)) :
  Cloud.faults st = [] ->
  length (Cloud.tenant_records tenant_id st) < 30 * fuel ->
  exists evs st',
    index_tenant_files Cloud.services rag_utils_namespace cfg fuel tenant_id
      additional_urls (mkWorld tr st)
    = (Raise (NameError "tempfile"), mkWorld (tr ++ evs) st')
    /\ Cloud.tenant_records tenant_id st' = []
    /\ (forall r, In r (Cloud.records st') -> In r (Cloud.records st))
    /\ Forall index_setup_event evs.
Proof.
  intros Hf Hfuel.
  destruct (cloud_ensure cfg tr st Hf) as (evs1 & He).
  pose proof (ensured_faults cfg st) as Hf1. rewrite Hf in Hf1.
  pose proof (ensured_index cfg st) as Hi1.
  pose proof (ensured_tenant_records cfg tenant_id st) as Hlen.
  destruct (cloud_delete_run tenant_id (ensured cfg st) (tr ++ evs1) fuel
              Hf1 Hi1 ltac:(lia))
    as (evs2 & f & Hd & _ & Hkeep).
  pose proof (index_tenant_files_unbound_tempfile Cloud.services
                rag_utils_namespace cfg fuel tenant_id additional_urls
                _ _ _ eq_refl He Hd) as Hrun.
  exists (evs1 ++ evs2),
    (Cloud.set_records (List.filter f (Cloud.records (ensured cfg st)))
                       (ensured cfg st)).
  split; [rewrite Hrun, <- app_assoc; reflexivity |].
  split; [| split].
  - unfold Cloud.tenant_records. cbn [Cloud.records Cloud.set_records].
    apply no_tagged_filter. intros r Hr Ht.
    apply filter_In in Hr as [Hr Hfr].
    apply (Hkeep r Hr) in Hfr. apply Hfr. apply in_map.
    unfold Cloud.tenant_records. apply filter_In.
    split; [exact Hr | apply tagged_iff; exact Ht].
  - cbn [Cloud.records Cloud.set_records]. intros r Hr.
    apply filter_In in Hr as [Hr _]. eapply ensured_records, Hr.
  - destruct (proj2 (index_tenant_files_never_returns_aux Cloud.services cfg fuel
                       tenant_id additional_urls) _ _ _ Hrun) as (evs & Ht & Hall).
    cbn [trace] in Ht. rewrite <- app_assoc in Ht.
    apply app_inv_head in Ht. rewrite Ht. exact Hall.
Qed.

(** Tenant 7 has two of the three stored records; the re-index leaves
    the record of tenant 8 alone and tenant 7 without any. *)
Lemma reindex_erases_tenant_witness :
  let st := Cloud.ready two_tenants in
  exists evs st',
    index_tenant_files Cloud.services rag_utils_namespace (default_config ∅) 1 7
      None (mkWorld [] st)
    = (Raise (NameError "tempfile"), mkWorld ([] ++ evs) st')
    /\ Cloud.tenant_records 7 st' = []
    /\ (forall r, In r (Cloud.records st') -> In r (Cloud.records st))
    /\ Forall index_setup_event evs.
Proof.
  apply (reindex_erases_tenant (default_config ∅) 7 (Cloud.ready two_tenants)
           [] 1 None).
  - reflexivity.
  - vm_compute. lia.
Defined.

Lemma remove_keys_absent (keys : list string) (rs : list VectorRecord) :
  (forall r, In r rs -> ~ In (key r) keys) -> Cloud.remove_keys keys rs = rs.
Proof.
  intros H. unfold Cloud.remove_keys.
  rewrite <- (filter_all rs) at 2. apply filter_ext_in. intros r Hr.
  apply negb_true_iff, not_true_is_false. unfold Cloud.has_key. intros E.
  apply existsb_exists in E as (k & Hk & Ek). apply String.eqb_eq in Ek.
  subst k. exact (H r Hr Hk).
Qed.

Lemma ensured_twice (cfg : config) (st : Cloud.state) :
  (forall r, In r (Cloud.records st) -> key r <> "ping") ->
  Cloud.records (ensured cfg st) = Cloud.records st
  /\ ensured cfg (ensured cfg st) = ensured cfg st.
Proof.
  intros Hp.
  assert (Hrm : Cloud.remove_keys ["ping"] (Cloud.records st) = Cloud.records st).
  { apply remove_keys_absent. intros r Hr [E | []]. exact (Hp r Hr (eq_sym E)). }
  assert (Hr : Cloud.records (ensured cfg st) = Cloud.records st).
  { rewrite ensured_records_eq. now destruct (Cloud.index st). }
  split; [exact Hr |].
  unfold ensured at 1. rewrite remove_ping_twice, Hr, Hrm, <- Hr.
  assert (Hb : existsb (String.eqb (S3_VECTORS_BUCKET_NAME cfg))
                       (Cloud.vector_buckets (ensured cfg st)) = true).
  { unfold ensured.
    destruct (existsb (String.eqb (S3_VECTORS_BUCKET_NAME cfg))
                      (Cloud.vector_buckets st)) eqn:E, (Cloud.index st);
      cbn [Cloud.vector_buckets Cloud.set_records Cloud.set_index
           Cloud.set_buckets]; try exact E;
      rewrite existsb_app; cbn [existsb]; rewrite String.eqb_refl;
      now rewrite orb_true_r. }
  rewrite Hb.
  destruct (Cloud.index (ensured cfg st)) eqn:Ei;
    [apply set_records_same | exfalso; exact (ensured_index cfg st Ei)].
Qed.

(** X14.  [ensure_vector_index] is idempotent and leaves the tenants'
    data alone: on a fault-free deployment that stores no record under
    the probe's key it returns, keeps every stored record and an
    existing index as they are (an index that was missing now exists
    with dimension 1024 and the cosine metric), and a second call
    returns again and changes nothing. *)
Theorem ensure_vector_index_idempotent (cfg : config) (st : Cloud.state)
    (tr tr' : list event) :
  Cloud.faults st = [] ->
  (forall r, In r (Cloud.records st) -> key r <> "ping") ->
  exists evs evs' st1,
    ensure_vector_index Cloud.services cfg (mkWorld tr st)
    = (Ok tt, mkWorld (tr ++ evs) st1)
    /\ Cloud.records st1 = Cloud.records st
    /\ Cloud.index st1 = Some (default tenant_index_spec (Cloud.index st))
    /\ ensure_vector_index Cloud.services cfg (mkWorld tr' st1)
       = (Ok tt, mkWorld (tr' ++ evs') st1).
Proof.
  intros Hf Hp.
  destruct (cloud_ensure cfg tr st Hf) as (evs & He).
  pose proof (ensured_faults cfg st) as Hf1. rewrite Hf in Hf1.
  destruct (cloud_ensure cfg tr' (ensured cfg st) Hf1) as (evs' & He').
  destruct (ensured_twice cfg st Hp) as [Hr Ht]. rewrite Ht in He'.
  exists evs, evs', (ensured cfg st).
  split; [exact He |]. split; [exact Hr |]. split; [| exact He'].
  unfold ensured.
  destruct (existsb _ _); destruct (Cloud.index st) eqn:Ei;
    cbn [Cloud.index Cloud.set_records Cloud.set_index Cloud.set_buckets];
    try rewrite Ei; reflexivity.
Qed.

(** A fresh account: the first call creates bucket and index, the
    second finds them. *)
Lemma ensure_vector_index_idempotent_witness :
  exists evs evs' st1,
    ensure_vector_index Cloud.services (default_config ∅) (mkWorld [] Cloud.empty)
    = (Ok tt, mkWorld ([] ++ evs) st1)
    /\ Cloud.records st1 = Cloud.records Cloud.empty
    /\ Cloud.index st1
       = Some (default tenant_index_spec (Cloud.index Cloud.empty))
    /\ ensure_vector_index Cloud.services (default_config ∅) (mkWorld [] st1)
       = (Ok tt, mkWorld ([] ++ evs') st1).
Proof.
  apply (ensure_vector_index_idempotent (default_config ∅) Cloud.empty [] []).
  - reflexivity.
  - cbn. intros r [].
Defined.

(* ================================================================== *)
(** * The upload loop *)
(* ================================================================== *)

Section Upload.

Context {X : Type}.
Variable sv : Services X.

Lemma emits_upload_sizes tenant_id pairs payload total :
  length payload < batch_size ->
  emits put_within_limit (upload_in_batches sv tenant_id pairs payload total).
Proof.
  revert payload total.
  induction pairs as [| [vec chunk] rest IH]; intros payload total Hp;
    cbn [upload_in_batches].
  - destruct payload as [| r payload]; cbn [nonempty]; [apply emits_ret |].
    apply emits_bind; [| intros _; apply emits_ret].
    apply emits_call. intros vs [= <-]. cbn [length] in *. lia.
  - apply emits_bind; [apply emits_local | intros uuid].
    assert (Hl : length (payload ++ [vector_record tenant_id uuid vec chunk])
                 = S (length payload)).
    { rewrite length_app. cbn [length]. lia. }
    destruct (Nat.leb_spec batch_size
                (length (payload ++ [vector_record tenant_id uuid vec chunk])))
      as [Hfull | Hroom].
    + apply emits_bind.
      * apply emits_call. intros vs [= <-]. lia.
      * intros _. apply IH. unfold batch_size. cbn [length]. lia.
    + apply IH. lia.
Qed.

Lemma upload_in_batches_run tenant_id pairs :
  forall payload total (w w' : world X) n,
    upload_in_batches sv tenant_id pairs payload total w = (Ok n, w') ->
    n = (total + length payload + length pairs)%nat
    /\ exists batches records,
         trace w' = trace w ++ map EvPutVectors batches
         /\ concat batches = payload ++ records
         /\ Forall2 (record_of_pair tenant_id) records pairs.
Proof.
  induction pairs as [| [vec chunk] rest IH]; intros payload total w w' n;
    cbn [upload_in_batches].
  - destruct payload as [| r payload]; cbn [nonempty].
    + intros [= <- <-]. split; [cbn [length]; lia |].
      exists [], []. cbn. rewrite app_nil_r. repeat split. constructor.
    + unfold bind, call, ret.
      destruct (put_vectors sv (r :: payload) (ext w)) as [[[] | e] x'];
        [| discriminate].
      intros [= <- <-]. split; [cbn [length]; lia |].
      exists [r :: payload], []. cbn [trace map concat].
      rewrite !app_nil_r. repeat split. constructor.
  - unfold bind at 1. unfold local.
    destruct (uuid4 sv (ext w)) as [uuid x1].
    set (rec := vector_record tenant_id uuid vec chunk).
    assert (Hl : length (payload ++ [rec]) = S (length payload)).
    { rewrite length_app. cbn [length]. lia. }
    assert (Hrec : record_of_pair tenant_id rec (vec, chunk))
      by (exists uuid; reflexivity).
    destruct (Nat.leb_spec batch_size (length (payload ++ [rec])))
      as [Hfull | Hroom].
    + unfold bind at 1. unfold call. cbn [ext trace].
      destruct (put_vectors sv (payload ++ [rec]) x1) as [[[] | e] x2];
        [| discriminate].
      intros H. apply IH in H as (Hn & batches & records & Ht & Hc & Hr).
      cbn [trace length] in *. split; [lia |].
      exists ((payload ++ [rec]) :: batches), (rec :: records).
      split; [rewrite Ht, <- app_assoc; reflexivity |].
      split; [cbn [concat]; rewrite Hc, <- app_assoc; reflexivity |].
      now constructor.
    + intros H. apply IH in H as (Hn & batches & records & Ht & Hc & Hr).
      cbn [trace length] in *. split; [lia |].
      exists batches, (rec :: records).
      split; [exact Ht |].
      split; [rewrite Hc, <- app_assoc; reflexivity | now constructor].
Qed.

End Upload.

(** X15.  Every [put_vectors] call of a re-index carries between 1 and
    500 records, on every deployment and in every namespace: the probe
    puts one, the upload loop flushes at 500 and never flushes an empty
    batch. *)
Theorem put_batches_within_limit {X} (sv : Services X) (ns : namespace)
    (cfg : config) (fuel : nat) (tenant_id : Z)
    (additional_urls : option (list string)) :
  emits put_within_limit
        (index_tenant_files sv ns cfg fuel tenant_id additional_urls).
Proof.
  assert (Hother : forall ev, (forall vs, ev <> EvPutVectors vs) ->
                              put_within_limit ev).
  { intros ev H vs E. exfalso. exact (H vs E). }
  unfold index_tenant_files.
  apply emits_bind.
  { apply emits_ensure_vector_index; try (apply Hother; discriminate).
    intros vs [= <-]. unfold batch_size. cbn [length]. lia. }
  intros _. apply emits_bind.
  { eapply emits_weaken; [| apply emits_delete_tenant_vectors].
    intros ev [(token & ->) | (batch & -> & _)]; apply Hother; discriminate. }
  intros _. apply emits_bind; [apply emits_global | intros _].
  apply emits_bind; [apply emits_call; apply Hother; discriminate |].
  intros temp_dir. apply emits_try_finally.
  - unfold index_documents, s3_list_tenant_files.
    apply emits_bind.
    { apply emits_bind; [| intros pages; apply emits_ret].
      apply emits_call. apply Hother. discriminate. }
    intros keys. apply emits_bind.
    { apply emits_load_tenant_files; intros; apply Hother; discriminate. }
    intros file_docs. apply emits_bind.
    { apply emits_s3_load_urls. apply Hother. discriminate. }
    intros urls. apply emits_bind.
    { destruct (nonempty _); [| apply emits_ret].
      apply emits_crawl. intros url. apply Hother. discriminate. }
    intros url_docs. destruct (negb _); [apply emits_ret |].
    apply emits_bind.
    { apply emits_call. apply Hother. discriminate. }
    intros vectors. apply emits_upload_sizes. unfold batch_size. cbn. lia.
  - apply emits_bind; [apply emits_global | intros _].
    apply emits_call. apply Hother. discriminate.
Qed.

(** X16.  When the upload loop returns, the count it returns is the
    number of (vector, chunk) pairs it was given, and the batches it
    has put, taken together, hold one record per pair, in the order of
    the pairs: no chunk is lost or sent twice at a batch boundary. *)
Theorem upload_in_batches_complete {X} (sv : Services X) (tenant_id : Z)
    (pairs : list (list float * Document)) (w w' : world X) (n : nat) :
  upload_in_batches sv tenant_id pairs [] 0 w = (Ok n, w') ->
  n = length pairs
  /\ exists batches,
       trace w' = trace w ++ map EvPutVectors batches
       /\ Forall2 (record_of_pair tenant_id) (concat batches) pairs.
Proof.
  intros H.
  apply upload_in_batches_run in H as (Hn & batches & records & Ht & Hc & Hr).
  cbn [length app] in *. split; [lia |].
  exists batches. split; [exact Ht | now rewrite Hc].
Qed.

(** One pair on a deployment with an index: one batch of one record. *)
Lemma upload_in_batches_complete_witness :
  let w := start (Cloud.ready []) in
  let run := upload_in_batches Cloud.services 7 one_pair [] 0 w in
  fst run = Ok 1%nat
  /\ 1%nat = length one_pair
  /\ exists batches,
       trace (snd run) = trace w ++ map EvPutVectors batches
       /\ Forall2 (record_of_pair 7) (concat batches) one_pair.
Proof.
  cbv zeta. split; [vm_compute; reflexivity |].
  apply (upload_in_batches_complete Cloud.services 7 one_pair
           (start (Cloud.ready []))).
  vm_compute. reflexivity.
Defined.

(* ================================================================== *)
(** * Provenance of the loaded files *)
(* ================================================================== *)

Lemma tag_file_doc_provenance cfg tenant_id k doc :
  metadata (tag_file_doc cfg tenant_id k doc) !! "tenant_id"
  = Some (tenant_tag tenant_id)
  /\ metadata (tag_file_doc cfg tenant_id k doc) !! "source"
     = Some (PStr (file_source cfg k)).
Proof.
  unfold tag_file_doc. cbn [metadata]. split.
  - apply lookup_insert_eq.
  - rewrite lookup_insert_ne by discriminate. apply lookup_insert_eq.
Qed.

(** X17.  Every document [load_tenant_files] returns carries the
    tenant's tag and the [s3://] address of one of the listed objects
    as its source, whatever metadata the loader gave it; and it returns
    only if every download and every loader call succeeded. *)
Theorem load_tenant_files_provenance {X} (sv : Services X) (cfg : config)
    (tenant_id : Z) (temp_dir : string) (object_keys : list string)
    (w w' : world X) (docs : list Document) :
  load_tenant_files sv cfg tenant_id temp_dir object_keys w = (Ok docs, w') ->
  Forall (file_provenance cfg tenant_id object_keys) docs.
Proof.
  revert w w' docs.
  induction object_keys as [| k rest IH]; intros w w' docs;
    cbn [load_tenant_files].
  - intros [= <- _]. constructor.
  - unfold bind at 1.
    destruct (load_tenant_file sv cfg tenant_id temp_dir k w)
      as [[first | e |] w1] eqn:E1; try discriminate.
    unfold bind at 1.
    destruct (load_tenant_files sv cfg tenant_id temp_dir rest w1)
      as [[more | e |] w2] eqn:E2; try discriminate.
    intros [= <- _]. apply Forall_app. split.
    + unfold load_tenant_file in E1.
      destruct (negb _) in E1.
      { injection E1 as <- _. constructor. }
      unfold bind, call, ret in E1.
      destruct (download_file sv k _ (ext w)) as [[[] | e] x1];
        [| discriminate].
      cbn [ext trace] in E1.
      destruct (load sv _ _ x1) as [[loaded | e] x2]; [| discriminate].
      injection E1 as <- _.
      apply List.Forall_forall. intros d Hd.
      apply in_map_iff in Hd as (d0 & <- & _).
      destruct (tag_file_doc_provenance cfg tenant_id k d0) as [Ht Hs].
      split; [exact Ht |]. exists k. split; [now left | exact Hs].
    + eapply List.Forall_impl; [| exact (IH _ _ _ E2)].
      intros d (Ht & k' & Hk & Hs). split; [exact Ht |].
      exists k'. split; [now right | exact Hs].
Qed.

(** Tenant 7's PDF. *)
Lemma load_tenant_files_provenance_witness :
  let cfg := default_config ∅ in
  let keys := ["knowledge_base/7/manual.pdf"] in
  let run := load_tenant_files Cloud.services cfg 7 "/tmp/t" keys (start one_pdf) in
  fst run
  = Ok [mkDocument "Opening hours are 9 to 5."
          {[ "source" := PStr "s3://rag-chat-uploads/knowledge_base/7/manual.pdf";
             "tenant_id" := PStr "7" ]}]
  /\ Forall (file_provenance cfg 7 keys)
       [mkDocument "Opening hours are 9 to 5."
          {[ "source" := PStr "s3://rag-chat-uploads/knowledge_base/7/manual.pdf";
             "tenant_id" := PStr "7" ]}].
Proof.
  cbv zeta. split; [vm_compute; reflexivity |].
  apply (load_tenant_files_provenance Cloud.services (default_config ∅) 7
           "/tmp/t" ["knowledge_base/7/manual.pdf"] (start one_pdf)
           (snd (load_tenant_files Cloud.services (default_config ∅) 7 "/tmp/t"
                   ["knowledge_base/7/manual.pdf"] (start one_pdf)))).
  vm_compute. reflexivity.
Defined.

(* ================================================================== *)
(** * What retrieval hands on *)
(* ================================================================== *)

Lemma rstrip_idem (s : string) : Py.rstrip (Py.rstrip s) = Py.rstrip s.
Proof.
  induction s as [| c r IH]; [reflexivity |]. cbn [Py.rstrip].
  destruct (Py.rstrip r) as [| c' r'] eqn:E.
  - destruct (Py.is_space c) eqn:Es; [reflexivity |].
    cbn [Py.rstrip]. now rewrite Es.
  - cbn [Py.rstrip]. cbn [Py.rstrip] in IH. rewrite IH. reflexivity.
Qed.

Lemma lstrip_rstrip_lstrip (s : string) :
  Py.lstrip (Py.rstrip (Py.lstrip s)) = Py.rstrip (Py.lstrip s).
Proof.
  induction s as [| c r IH]; [reflexivity |]. cbn [Py.lstrip].
  destruct (Py.is_space c) eqn:Es; [exact IH |].
  cbn [Py.rstrip]. rewrite Es.
  destruct (Py.rstrip r); cbn [Py.lstrip]; now rewrite Es.
Qed.

Lemma strip_idem (s : string) : Py.strip (Py.strip s) = Py.strip s.
Proof.
  unfold Py.strip. now rewrite lstrip_rstrip_lstrip, rstrip_idem.
Qed.

Section Retrieved.

Context {X : Type}.
Variable sv : Services X.
Variable cfg : config.

Lemma document_of_hit_inv (h : hit) (w w' : world X) (d : Document) :
  document_of_hit h w = (Ok (Some d), w') ->
  retrieved_shape d /\ metadata d !! "source" = Some (hit_source h).
Proof.
  unfold document_of_hit, retrieved_shape, hit_source.
  destruct (default (PStr "") _) as [preview | |]; try discriminate.
  destruct (Py.truthy (Py.strip preview)) eqn:Et; cbn [negb]; [| discriminate].
  intros [= <- _]. cbn [page_content metadata].
  assert (Hs : forall m : gmap string pyval,
             (match hit_distance h with
              | Some dist =>
                  <[ "similarity_score" := PFloat dist ]>
                    ({[ "source" := default (PStr "S3 Vectors") (m !! SOURCE_KEY) ]}
                     : gmap string pyval)
              | None => {[ "source" := default (PStr "S3 Vectors") (m !! SOURCE_KEY) ]}
              end) !! "source"
             = Some (default (PStr "S3 Vectors") (m !! SOURCE_KEY))).
  { intros m. destruct (hit_distance h).
    - rewrite lookup_insert_ne by discriminate. apply lookup_singleton_eq.
    - apply lookup_singleton_eq. }
  split; [split; [exact Et | split; [apply strip_idem |]] |].
  - rewrite Hs. eexists. reflexivity.
  - apply Hs.
Qed.

Lemma documents_of_hits_inv (hits : list hit) :
  forall (w w' : world X) docs,
    documents_of_hits hits w = (Ok docs, w') ->
    length docs <= length hits
    /\ Forall (fun d => retrieved_shape d
                        /\ exists h, In h hits
                                     /\ metadata d !! "source" = Some (hit_source h))
              docs.
Proof.
  induction hits as [| h rest IH]; intros w w' docs; cbn [documents_of_hits].
  - intros [= <- _]. split; [reflexivity | constructor].
  - unfold bind at 1.
    destruct (document_of_hit h w) as [[od | e |] w1] eqn:E1; try discriminate.
    unfold bind at 1.
    destruct (documents_of_hits rest w1) as [[more | e |] w2] eqn:E2;
      try discriminate.
    intros [= <- _]. destruct (IH _ _ _ E2) as [Hlen Hall].
    assert (Hall' : Forall (fun d => retrieved_shape d
                      /\ exists h0, In h0 (h :: rest)
                           /\ metadata d !! "source" = Some (hit_source h0))
                      more).
    { eapply List.Forall_impl; [| exact Hall].
      intros d (Hs & h0 & Hin & Hm). split; [exact Hs |].
      exists h0. split; [now right | exact Hm]. }
    destruct od as [d |]; cbn [length]; (split; [lia |]); [| exact Hall'].
    constructor; [| exact Hall'].
    destruct (document_of_hit_inv h w w1 d E1) as [Hs Hm].
    split; [exact Hs |]. exists h. split; [now left | exact Hm].
Qed.

End Retrieved.

(** X18.  Every document [retrieve_s3_vectors] returns has text that is
    trimmed and not empty, and names a source: hits whose stored preview
    is blank are dropped, not passed to the chat model as empty
    context. *)
Theorem retrieved_documents_shape {X} (sv : Services X) (cfg : config)
    (query : string) (tenant_id top_k : Z) (w w' : world X)
    (docs : list Document) :
  retrieve_s3_vectors sv cfg query tenant_id top_k w = (Ok docs, w') ->
  Forall retrieved_shape docs.
Proof.
  intros H.
  destruct (retrieve_inversion sv cfg _ _ _ _ _ _ H)
    as (w1 & q_vec & x2 & E1 & E2 & [(resp & x3 & E3 & Hd) | (c & x3 & E3 & ->)]);
    [| constructor].
  destruct (documents_of_hits_inv _ _ _ _ Hd) as [_ Hall].
  eapply List.Forall_impl; [| exact Hall]. intros d [Hs _]. exact Hs.
Qed.

(** The blank preview gives no document, the other one is trimmed. *)
Lemma retrieved_documents_shape_witness :
  let cfg := default_config ∅ in
  let run := retrieve_s3_vectors Cloud.services cfg "hours" 7 8
               (start (Cloud.ready blank_preview)) in
  let docs :=
    [mkDocument "Opening hours are 9 to 5."
       {[ "similarity_score" := PFloat 0%float;
          "source" := PStr "s3://rag-chat-uploads/knowledge_base/manual.pdf" ]}] in
  fst run = Ok docs /\ Forall retrieved_shape docs.
Proof.
  cbv zeta. split; [vm_compute; reflexivity |].
  apply (retrieved_documents_shape Cloud.services (default_config ∅) "hours" 7 8
           (start (Cloud.ready blank_preview))
           (snd (retrieve_s3_vectors Cloud.services (default_config ∅) "hours" 7 8
                   (start (Cloud.ready blank_preview))))).
  vm_compute. reflexivity.
Defined.

(* ================================================================== *)
(** * The sources of an answer *)
(* ================================================================== *)

Lemma distinct_In (seen xs : list pyval) (x : pyval) :
  In x (distinct seen xs) -> In x xs.
Proof.
  revert seen. induction xs as [| y rest IH]; intros seen; cbn [distinct];
    [tauto |].
  destruct (existsb _ seen).
  - intros H. right. exact (IH _ H).
  - intros [-> | H]; [now left | right; exact (IH _ H)].
Qed.

(** X19.  Tenant isolation reaches the answer.  When the question is
    not in the fixed-response table and the vector service keeps its
    filter's promise, an answer of [answer_question_modern] comes after
    the index probe, the embedding of the question and one query, the
    one with the tenant's filter and [topK] 8.  Every hit in the
    response to that query carries the tenant's tag, and every source
    the answer reports is the source of one of these hits; when that
    query fails, the answer reports no source. *)
Theorem answer_sources_are_tenant_scoped {X} (sv : Services X) (cfg : config)
    (question : string) (tenant_id : Z) (user_id : pyval)
    (context_messages : option (list message)) (w w' : world X)
    (result : answer_dict) :
  filter_respected sv ->
  FIXED_RESPONSES cfg !! Py.lower (Py.strip question) = None ->
  answer_question_modern sv cfg question tenant_id user_id context_messages w
  = (Ok result, w') ->
  exists w1 q_vec x2,
    ensure_vector_index sv cfg w = (Ok tt, w1)
    /\ embed_query sv question (ext w1) = (Return q_vec, x2)
    /\ match fst (query_vectors sv (retrieve_query_args q_vec tenant_id 8) x2)
       with
       | Return resp =>
           let hits := default [] (resp_vectors resp) in
           Forall (fun h => hit_tenant h = Some (tenant_tag tenant_id)) hits
           /\ forall s, In s (sources result) ->
                exists h, In h hits /\ s = hit_source h
       | Throw _ => sources result = []
       end.
Proof.
  intros Hcontract Hmiss. unfold answer_question_modern. rewrite Hmiss.
  unfold rag_chain_invoke. unfold bind at 1. unfold bind at 1.
  destruct (retrieve_s3_vectors sv cfg question tenant_id 8 w)
    as [[docs | e |] w1] eqn:E1; try discriminate.
  unfold bind at 1. unfold call at 1.
  destruct (chat sv _ docs question (ext w1)) as [[reply_text | e] x2];
    [| discriminate].
  cbn [ret]. intros [= <- _]. cbn [sources].
  destruct (retrieve_inversion sv cfg _ _ _ _ _ _ E1)
    as (w0 & q_vec & x1 & E0 & Eq
        & [(resp & x3 & E3 & Hd) | (c & x3 & E3 & ->)]);
    exists w0, q_vec, x1; (split; [exact E0 |]); (split; [exact Eq |]);
    rewrite E3; cbn [fst]; [| reflexivity].
  cbv zeta. split.
  - pose proof (Hcontract _ _ _ _ TENANT_ID_KEY (Py.str_of_int tenant_id) E3
                  eq_refl eq_refl) as Hhits.
    eapply List.Forall_impl; [| exact Hhits].
    intros h (m & Hm & Hk). unfold hit_tenant. rewrite Hm. exact Hk.
  - destruct (documents_of_hits_inv _ _ _ _ Hd) as [_ Hdocs].
    intros s Hs. apply distinct_In, in_map_iff in Hs as (d & <- & Hin).
    rewrite List.Forall_forall in Hdocs.
    destruct (Hdocs d Hin) as (_ & h & Hh & Hm).
    exists h. split; [exact Hh |]. now rewrite Hm.
Qed.

(** Tenants 7 and 8 side by side: the one source of tenant 7's answer
    is the source of the two hits of tenant 7's query, which carry the
    tag of tenant 7. *)
Lemma answer_sources_are_tenant_scoped_witness :
  let cfg := default_config ∅ in
  let w := start (Cloud.ready two_tenants) in
  let run := answer_question_modern Cloud.services cfg "Hours?" 7 (PInt 1) None w in
  let result :=
    {| answer := "You asked: Hours?";
       sources := [PStr "s3://rag-chat-uploads/knowledge_base/manual.pdf"] |} in
  fst run = Ok result
  /\ exists w1 q_vec x2,
       ensure_vector_index Cloud.services cfg w = (Ok tt, w1)
       /\ embed_query Cloud.services "Hours?" (ext w1) = (Return q_vec, x2)
       /\ match fst (query_vectors Cloud.services
                       (retrieve_query_args q_vec 7 8) x2)
          with
          | Return resp =>
              let hits := default [] (resp_vectors resp) in
              Forall (fun h => hit_tenant h = Some (tenant_tag 7)) hits
              /\ forall s, In s (sources result) ->
                   exists h, In h hits /\ s = hit_source h
          | Throw _ => sources result = []
          end.
Proof.
  cbv zeta. split; [vm_compute; reflexivity |].
  apply (answer_sources_are_tenant_scoped Cloud.services (default_config ∅)
           "Hours?" 7 (PInt 1) None (start (Cloud.ready two_tenants))
           (snd (answer_question_modern Cloud.services (default_config ∅)
                   "Hours?" 7 (PInt 1) None (start (Cloud.ready two_tenants))))).
  - apply cloud_filter_respected.
  - reflexivity.
  - vm_compute. reflexivity.
Defined.

(** X20.  A question found in the fixed-response table never reaches the
    backend, whatever the table holds for it: the call leaves the world
    as it was and either returns a trimmed answer with sources
    ["Fixed Response"], or, when the entry's answer is not a string,
    raises AttributeError.  It never falls through to retrieval. *)
Theorem fixed_response_hit_is_local {X} (sv : Services X) (cfg : config)
    (question : string) (tenant_id : Z) (user_id : pyval)
    (context_messages : option (list message)) (w : world X)
    (fixed_resp : json) :
  FIXED_RESPONSES cfg !! Py.lower (Py.strip question) = Some fixed_resp ->
  let run := answer_question_modern sv cfg question tenant_id user_id
               context_messages w in
  snd run = w
  /\ (fst run = Raise (AttributeError "strip")
      \/ exists text,
           fst run = Ok {| answer := text; sources := [PStr "Fixed Response"] |}
           /\ Py.strip text = text).
Proof.
  intros Hhit. cbv zeta. unfold answer_question_modern. rewrite Hhit.
  unfold fixed_answer, bind, ret, raise.
  destruct fixed_resp as [| b | lit | s | items | fields]; cbn [fst snd];
    try (split; [reflexivity |]; right; eexists; split;
         [reflexivity | apply strip_idem]).
  destruct (default _ (fields !! "answer")); cbn [fst snd];
    (split; [reflexivity |]);
    first [left; reflexivity
          | right; eexists; split; [reflexivity | apply strip_idem]].
Qed.

(** The entry for "price" holds a number as its answer: the call ends
    in AttributeError before anything is called. *)
Lemma fixed_response_hit_is_local_witness :
  let cfg := default_config numeric_table in
  let run := answer_question_modern Cloud.services cfg "Price" 7 (PInt 1) None
               (start Cloud.empty) in
  fst run = Raise (AttributeError "strip")
  /\ snd run = start Cloud.empty
  /\ (fst run = Raise (AttributeError "strip")
      \/ exists text,
           fst run = Ok {| answer := text; sources := [PStr "Fixed Response"] |}
           /\ Py.strip text = text).
Proof.
  cbv zeta. split; [reflexivity |].
  apply (fixed_response_hit_is_local Cloud.services (default_config numeric_table)
           "Price" 7 (PInt 1) None (start Cloud.empty)
           (JObject {[ "answer" := JNumber "5" ]})).
  reflexivity.
Defined.

(* ================================================================== *)
(** * Registering a URL *)
(* ================================================================== *)

Lemma splitlines_from_line (cur l rest : string) :
  no_linebreak l = true ->
  Py.splitlines_from false cur (l ++ newline ++ rest)
  = (cur ++ l)%string :: Py.splitlines_from false "" rest.
Proof.
  revert cur. induction l as [| c l IH]; intros cur H.
  - rewrite append_nil, string_app_nil_r. reflexivity.
  - unfold no_linebreak in H. cbn [all_chars] in H.
    apply andb_true_iff in H. destruct H as [Hc Hl].
    apply negb_true_iff in Hc.
    rewrite append_cons. cbn [Py.splitlines_from andb]. rewrite Hc.
    rewrite (IH _ Hl), string_app_assoc. reflexivity.
Qed.

(** Reading back what [registry_content] writes. *)
Lemma splitlines_registry_content (lines : list string) :
  lines <> [] ->
  Forall (fun l => no_linebreak l = true) lines ->
  Py.splitlines (registry_content lines) = lines.
Proof.
  unfold registry_content, Py.splitlines.
  induction lines as [| l rest IH]; [congruence |]. intros _ Hall.
  apply Forall_cons_iff in Hall as [Hl Hrest].
  destruct rest as [| l' rest].
  - cbn [PyStr.join].
    pose proof (splitlines_from_line "" l "" Hl) as H.
    rewrite string_app_nil_r in H. rewrite H. reflexivity.
  - rewrite join_cons by discriminate. rewrite !string_app_assoc.
    rewrite (splitlines_from_line "" l _ Hl).
    rewrite IH by (discriminate || assumption). reflexivity.
Qed.

Lemma no_linebreak_app (a b : string) :
  no_linebreak (a ++ b) = no_linebreak a && no_linebreak b.
Proof. apply all_chars_app. Qed.

Lemma splitlines_from_no_linebreak (s : string) :
  forall after_cr cur,
    no_linebreak cur = true ->
    Forall (fun l => no_linebreak l = true) (Py.splitlines_from after_cr cur s).
Proof.
  induction s as [| c r IH]; intros after_cr cur Hcur;
    cbn [Py.splitlines_from].
  - destruct (Py.truthy cur); repeat constructor. exact Hcur.
  - destruct (after_cr && Py.is_lf c); [apply IH, Hcur |].
    destruct (Py.is_linebreak c) eqn:El.
    + constructor; [exact Hcur | apply IH; reflexivity].
    + apply IH. rewrite no_linebreak_app, Hcur.
      unfold no_linebreak. cbn [all_chars]. now rewrite El.
Qed.

(** The lines read from a registry are trimmed, not empty and free of
    line breaks. *)
Lemma registry_lines_clean (content : string) :
  Forall (fun l => no_linebreak l = true /\ Py.strip l = l /\ Py.truthy l = true)
         (registry_lines content).
Proof.
  unfold registry_lines. apply List.Forall_forall. intros l Hl.
  apply filter_In in Hl as [Hl Ht]. apply in_map_iff in Hl as (l0 & <- & Hl0).
  split; [| split; [apply strip_idem | exact Ht]].
  apply all_chars_strip.
  pose proof (splitlines_from_no_linebreak content false "" eq_refl) as H.
  rewrite List.Forall_forall in H. exact (H l0 Hl0).
Qed.

Lemma filter_strip_clean (lines : list string) :
  Forall (fun l => no_linebreak l = true /\ Py.strip l = l /\ Py.truthy l = true)
         lines ->
  List.filter Py.truthy (map Py.strip lines) = lines.
Proof.
  induction 1 as [| l rest (_ & Hs & Ht) _ IH]; [reflexivity |].
  cbn [map List.filter]. now rewrite Hs, Ht, IH.
Qed.

(** What is written is read back as the same lines. *)
Lemma registry_lines_content (lines : list string) :
  lines <> [] ->
  Forall (fun l => no_linebreak l = true /\ Py.strip l = l /\ Py.truthy l = true)
         lines ->
  registry_lines (registry_content lines) = lines.
Proof.
  intros Hne Hall. unfold registry_lines.
  rewrite splitlines_registry_content; [apply filter_strip_clean, Hall | exact Hne |].
  eapply List.Forall_impl; [| exact Hall]. intros l [H _]. exact H.
Qed.

Lemma with_url_member (lines : list string) (url : string) :
  existsb (String.eqb (Py.strip url)) (with_url lines url) = true.
Proof.
  unfold with_url.
  destruct (existsb (String.eqb (Py.strip url)) lines) eqn:E; cbn [negb];
    [exact E |].
  rewrite existsb_app. cbn [existsb]. rewrite String.eqb_refl.
  now rewrite orb_true_r.
Qed.

Lemma with_url_twice (lines : list string) (url : string) :
  with_url (with_url lines url) url = with_url lines url.
Proof.
  unfold with_url at 1. now rewrite with_url_member.
Qed.

Lemma with_url_nonempty (lines : list string) (url : string) :
  with_url lines url <> [].
Proof.
  unfold with_url.
  destruct (existsb (String.eqb (Py.strip url)) lines) eqn:E; cbn [negb].
  - destruct lines; [discriminate E | discriminate].
  - intros H. apply app_eq_nil in H. destruct H; discriminate.
Qed.

Lemma with_url_clean (lines : list string) (url : string) :
  no_linebreak (Py.strip url) = true ->
  Py.truthy (Py.strip url) = true ->
  Forall (fun l => no_linebreak l = true /\ Py.strip l = l /\ Py.truthy l = true)
         lines ->
  Forall (fun l => no_linebreak l = true /\ Py.strip l = l /\ Py.truthy l = true)
         (with_url lines url).
Proof.
  intros Hn Ht Hall. unfold with_url. destruct (negb _); [| exact Hall].
  apply Forall_app. split; [exact Hall |].
  constructor; [| constructor]. split; [exact Hn |].
  split; [apply strip_idem | exact Ht].
Qed.

(** ** The in-memory bucket *)

Lemma find_filter_implied {A} (p q : A -> bool) (l : list A) :
  (forall x, p x = true -> q x = true) ->
  List.find p (List.filter q l) = List.find p l.
Proof.
  intros H. induction l as [| x l IH]; [reflexivity |]. cbn [List.filter].
  destruct (q x) eqn:Eq; cbn [List.find].
  - now rewrite IH.
  - destruct (p x) eqn:Ep; [| exact IH].
    rewrite (H x Ep) in Eq. discriminate.
Qed.

Lemma lookup_after_put (k k' body : string) (objs : list (string * string)) :
  Cloud.lookup_key k'
    ((k, body) :: List.filter (fun kv => negb (String.eqb (fst kv) k)) objs)
  = if String.eqb k k' then Some body else Cloud.lookup_key k' objs.
Proof.
  unfold Cloud.lookup_key. cbn [List.find fst].
  destruct (String.eqb_spec k k') as [-> | Hne]; [reflexivity |].
  rewrite find_filter_implied; [reflexivity |].
  intros [k0 v0]. cbn [fst]. intros E. apply String.eqb_eq in E. subst k0.
  apply negb_true_iff. apply String.eqb_neq. congruence.
Qed.

Lemma append_inv_tail (a b c : string) :
  (a ++ c = b ++ c)%string -> a = b.
Proof.
  intros H.
  assert (Hlen : String.length a = String.length b).
  { apply (f_equal String.length) in H. rewrite !string_app_length in H. lia. }
  revert b H Hlen. induction a as [| x a IH]; intros [| y b] H Hlen;
    try discriminate; [reflexivity |].
  rewrite !append_cons in H. injection H as -> H.
  f_equal. apply IH; [exact H | now injection Hlen].
Qed.

Lemma urls_key_inj (a b : Z) : urls_key a = urls_key b -> a = b.
Proof.
  unfold urls_key. intros H.
  apply String.app_inj in H. apply (String.app_inj "/") in H.
  apply append_inv_tail in H. exact (str_of_int_inj _ _ H).
Qed.

Section AppendUrlFacts.

Context {X : Type}.
Variable sv : Services X.
Variable put_object : string -> string -> X -> reply unit * X.

Lemma s3_append_url_found tenant_id url (w : world X) content x1 :
  get_object sv (urls_key tenant_id) (ext w) = (Return content, x1) ->
  s3_append_url sv put_object tenant_id url w
  = call_untraced
      (put_object (urls_key tenant_id)
         (registry_content (with_url (registry_lines content) url)))
      (mkWorld (trace w ++ [EvGetObject (urls_key tenant_id)]) x1).
Proof.
  intros Hg. unfold s3_append_url, bind, try_except, call, ret.
  rewrite Hg. reflexivity.
Qed.

Lemma s3_append_url_missing tenant_id url (w : world X) x1 :
  get_object sv (urls_key tenant_id) (ext w)
  = (Throw (ClientError "NoSuchKey"), x1) ->
  s3_append_url sv put_object tenant_id url w
  = call_untraced
      (put_object (urls_key tenant_id) (registry_content (with_url [] url)))
      (mkWorld (trace w ++ [EvGetObject (urls_key tenant_id)]) x1).
Proof.
  intros Hg. unfold s3_append_url, bind, try_except, call, ret.
  rewrite Hg. reflexivity.
Qed.

Lemma s3_append_url_unreadable tenant_id url (w : world X) e x1 :
  get_object sv (urls_key tenant_id) (ext w) = (Throw e, x1) ->
  e <> ClientError "NoSuchKey" ->
  s3_append_url sv put_object tenant_id url w
  = (Raise e, mkWorld (trace w ++ [EvGetObject (urls_key tenant_id)]) x1).
Proof.
  intros Hg Hne. unfold s3_append_url, bind, try_except, call, ret, raise.
  rewrite Hg. destruct e as [code | name | what | what]; try reflexivity.
  destruct (String.eqb_spec code "NoSuchKey") as [-> | Hc]; [congruence |].
  reflexivity.
Qed.

End AppendUrlFacts.

(** X21.  A registry that cannot be read is never overwritten: when
    reading [urls.txt] fails with anything but the code NoSuchKey,
    [s3_append_url] raises that failure and does not call
    [put_object]; the collaborators stay as the failed read left
    them. *)
Theorem s3_append_url_read_failure {X} (sv : Services X)
    (put_object : string -> string -> X -> reply unit * X)
    (tenant_id : Z) (url : string) (w : world X) (e : exn) (x1 : X) :
  get_object sv (urls_key tenant_id) (ext w) = (Throw e, x1) ->
  e <> ClientError "NoSuchKey" ->
  s3_append_url sv put_object tenant_id url w
  = (Raise e, mkWorld (trace w ++ [EvGetObject (urls_key tenant_id)]) x1).
Proof. apply s3_append_url_unreadable. Qed.

(** The read is denied: the write that would have replaced tenant 7's
    registry does not happen. *)
Lemma s3_append_url_read_failure_witness :
  let st := Cloud.set_faults [Some access_denied] with_registry in
  s3_append_url Cloud.services cloud_put_object 7 "https://example.com/new"
    (start st)
  = (Raise access_denied,
     mkWorld ([] ++ [EvGetObject (urls_key 7)]) with_registry).
Proof.
  apply (s3_append_url_read_failure Cloud.services cloud_put_object 7
           "https://example.com/new"
           (start (Cloud.set_faults [Some access_denied] with_registry))
           access_denied with_registry).
  - reflexivity.
  - discriminate.
Defined.

Lemma cloud_append_run (tenant_id : Z) (url : string) (st : Cloud.state)
    (tr : list event) :
  Cloud.faults st = [] ->
  s3_append_url Cloud.services cloud_put_object tenant_id url (mkWorld tr st)
  = (Ok tt,
     mkWorld (tr ++ [EvGetObject (urls_key tenant_id)])
       (Cloud.with_objects
          ((urls_key tenant_id,
            registry_content (with_url (registered tenant_id st) url))
             :: List.filter
                  (fun kv => negb (String.eqb (fst kv) (urls_key tenant_id)))
                  (Cloud.objects st))
          st)).
Proof.
  intros Hf. unfold registered.
  destruct (Cloud.lookup_key (urls_key tenant_id) (Cloud.objects st))
    as [content |] eqn:El.
  - rewrite (s3_append_url_found Cloud.services cloud_put_object tenant_id url
               (mkWorld tr st) content st).
    + unfold call_untraced, cloud_put_object. cbn [ext trace].
      rewrite (guarded_no_fault _ _ Hf). reflexivity.
    + cbn [get_object Cloud.services ext].
      rewrite (guarded_no_fault _ _ Hf). unfold Cloud.do_get_object.
      now rewrite El.
  - rewrite (s3_append_url_missing Cloud.services cloud_put_object tenant_id url
               (mkWorld tr st) st).
    + unfold call_untraced, cloud_put_object. cbn [ext trace].
      rewrite (guarded_no_fault _ _ Hf). reflexivity.
    + cbn [get_object Cloud.services ext].
      rewrite (guarded_no_fault _ _ Hf). unfold Cloud.do_get_object.
      now rewrite El.
Qed.

Lemma registered_clean (tenant_id : Z) (st : Cloud.state) :
  Forall (fun l => no_linebreak l = true /\ Py.strip l = l /\ Py.truthy l = true)
         (registered tenant_id st).
Proof.
  unfold registered. destruct (Cloud.lookup_key _ _); [| constructor].
  apply registry_lines_clean.
Qed.

(** X22.  On the fault-free in-memory bucket, registering a URL that is
    not blank and holds no line break returns and leaves the tenant's
    registry with the lines it had, followed by the trimmed URL unless
    that was already one of them.  Every other object, and so every
    other tenant's registry, is as it was; and registering the same URL
    again changes nothing. *)
Theorem s3_append_url_registers (tenant_id : Z) (url : string)
    (st : Cloud.state) (tr tr' : list event) :
  Cloud.faults st = [] ->
  no_linebreak (Py.strip url) = true ->
  Py.truthy (Py.strip url) = true ->
  exists st',
    s3_append_url Cloud.services cloud_put_object tenant_id url (mkWorld tr st)
    = (Ok tt, mkWorld (tr ++ [EvGetObject (urls_key tenant_id)]) st')
    /\ registered tenant_id st' = with_url (registered tenant_id st) url
    /\ (forall k, k <> urls_key tenant_id ->
          Cloud.lookup_key k (Cloud.objects st')
          = Cloud.lookup_key k (Cloud.objects st))
    /\ (forall other, other <> tenant_id ->
          registered other st' = registered other st)
    /\ s3_append_url Cloud.services cloud_put_object tenant_id url
         (mkWorld tr' st')
       = (Ok tt, mkWorld (tr' ++ [EvGetObject (urls_key tenant_id)]) st').
Proof.
  intros Hf Hn Ht.
  pose proof (with_url_clean _ url Hn Ht (registered_clean tenant_id st)) as Hclean.
  set (lines := with_url (registered tenant_id st) url) in *.
  set (st' := Cloud.with_objects
                ((urls_key tenant_id, registry_content lines)
                   :: List.filter
                        (fun kv => negb (String.eqb (fst kv) (urls_key tenant_id)))
                        (Cloud.objects st))
                st).
  assert (Hreg : registered tenant_id st' = lines).
  { unfold registered, st'. cbn [Cloud.objects Cloud.with_objects].
    rewrite lookup_after_put, String.eqb_refl.
    apply registry_lines_content; [apply with_url_nonempty | exact Hclean]. }
  assert (Hother : forall k, k <> urls_key tenant_id ->
            Cloud.lookup_key k (Cloud.objects st')
            = Cloud.lookup_key k (Cloud.objects st)).
  { intros k Hk. unfold st'. cbn [Cloud.objects Cloud.with_objects].
    rewrite lookup_after_put.
    destruct (String.eqb_spec (urls_key tenant_id) k); [congruence | reflexivity]. }
  exists st'. split; [exact (cloud_append_run tenant_id url st tr Hf) |].
  split; [exact Hreg |]. split; [exact Hother |]. split.
  - intros other Hne. unfold registered. rewrite Hother; [reflexivity |].
    intros E. apply Hne. exact (urls_key_inj _ _ E).
  - rewrite (cloud_append_run tenant_id url st' tr') by exact Hf.
    rewrite Hreg. unfold lines at 1. rewrite with_url_twice. fold lines.
    do 2 f_equal. unfold st'.
    cbn [Cloud.objects Cloud.with_objects List.filter fst].
    rewrite String.eqb_refl. cbn [negb].
    rewrite filter_filter_and.
    assert (Hfil : forall l : list (string * string),
               List.filter (fun x => negb (fst x =? urls_key tenant_id)%string
                                     && negb (fst x =? urls_key tenant_id)%string) l
               = List.filter (fun kv => negb (fst kv =? urls_key tenant_id)%string) l).
    { intros l. apply filter_ext. intros x. now destruct (negb _). }
    rewrite Hfil. destruct st; reflexivity.
Qed.

(** Tenant 7 registers a third URL. *)
Lemma s3_append_url_registers_witness :
  exists st',
    s3_append_url Cloud.services cloud_put_object 7 " https://example.com/new "
      (mkWorld [] with_registry)
    = (Ok tt, mkWorld ([] ++ [EvGetObject (urls_key 7)]) st')
    /\ registered 7 st'
       = with_url (registered 7 with_registry) " https://example.com/new "
    /\ (forall k, k <> urls_key 7 ->
          Cloud.lookup_key k (Cloud.objects st')
          = Cloud.lookup_key k (Cloud.objects with_registry))
    /\ (forall other, other <> 7%Z ->
          registered other st' = registered other with_registry)
    /\ s3_append_url Cloud.services cloud_put_object 7
         " https://example.com/new " (mkWorld [] st')
       = (Ok tt, mkWorld ([] ++ [EvGetObject (urls_key 7)]) st').
Proof.
  apply (s3_append_url_registers 7 " https://example.com/new " with_registry
           [] []); reflexivity.
Defined.

(* ================================================================== *)
(** * The Lambda handler *)
(* ================================================================== *)

Section LambdaFacts.

Variable max_str_digits : N.
Variable loads : string -> option json.
Variable int_of_number : string -> option Z.

Lemma world_eta {X} (w : world X) : mkWorld (trace w) (ext w) = w.
Proof. destruct w; reflexivity. Qed.

(** The steps of lines 49-53 leave the set [add_s3_tenant] computes,
    and raise what it raises. *)
Lemma s3_record_steps_run (s3_record : json) (w : world (gset Z)) :
  s3_record_steps max_str_digits s3_record w
  = match add_s3_tenant max_str_digits s3_record (ext w) with
    | Ok ids => (Ok tt, mkWorld (trace w) ids)
    | Raise e => (Raise e, w)
    | Diverge => (Diverge, w)
    end.
Proof.
  unfold s3_record_steps, add_s3_tenant, bind, step, extract_value.
  destruct (s3_key_of s3_record) as [[| b | l | k | items | fields] | e |];
    try reflexivity.
  destruct (extract_tenant_id_from_s3_path max_str_digits k) as [t |];
    [| now rewrite world_eta].
  destruct (t =? 0)%Z; [now rewrite world_eta | reflexivity].
Qed.

(** The loop of lines 47-53 ends normally or with an exception, and
    leaves the set [wrapped_s3_records] computes. *)
Lemma wrapped_loop_run (s3_records : list json) (w : world (gset Z)) :
  exists r,
    for_each s3_records
      (fun s3_record =>
         from_s3 <- step (PyJson.event_source_is s3_record "aws:s3") ;;
         if from_s3 : bool then s3_record_steps max_str_digits s3_record
         else ret tt) w
    = (r, mkWorld (trace w)
                  (wrapped_s3_records max_str_digits s3_records (ext w)))
    /\ r <> Diverge.
Proof.
  revert w. induction s3_records as [| s3_record rest IH]; intros w;
    cbn [for_each wrapped_s3_records].
  - exists (Ok tt). rewrite world_eta. split; [reflexivity | discriminate].
  - unfold bind at 1. unfold bind at 1. unfold step at 1.
    destruct (PyJson.event_source_is s3_record "aws:s3") as [[|] | e |] eqn:Es.
    + rewrite s3_record_steps_run.
      destruct (add_s3_tenant max_str_digits s3_record (ext w))
        as [ids | e |] eqn:Ea.
      * destruct (IH (mkWorld (trace w) ids)) as (r & E & Hr).
        exists r. split; [exact E | exact Hr].
      * exists (Raise e). rewrite world_eta. split; [reflexivity | discriminate].
      * exfalso. unfold add_s3_tenant in Ea.
        destruct (s3_key_of s3_record) as [[| b | l | k | items | fields] | e |]
          eqn:Ek; try discriminate.
        -- destruct (extract_tenant_id_from_s3_path max_str_digits k) as [t |];
             [destruct (t =? 0)%Z |]; discriminate.
        -- unfold s3_key_of in Ek.
           destruct (PyJson.subscript s3_record "s3") as [v | |] eqn:E1;
             try discriminate.
           ++ destruct (PyJson.subscript v "object") as [v' | |] eqn:E2;
                try discriminate.
              ** unfold PyJson.subscript in Ek.
                 destruct v' as [| | | | |fs]; try discriminate.
                 destruct (fs !! "key"); discriminate.
              ** unfold PyJson.subscript in E2.
                 destruct v as [| | | | |fs]; try discriminate.
                 destruct (fs !! "object"); discriminate.
           ++ unfold PyJson.subscript in E1.
              destruct s3_record as [| | | | |fs]; try discriminate.
              destruct (fs !! "s3"); discriminate.
    + unfold ret at 1. exact (IH w).
    + exists (Raise e). rewrite world_eta. split; [reflexivity | discriminate].
    + destruct s3_record; discriminate.
Qed.

(** Lines 36-57 for one SQS record: whatever the record holds, the
    [try] statement ends normally, and with the set [sqs_record]
    computes.  No exception leaves it. *)
Lemma sqs_try_except_run (record : gmap string json) (w : world (gset Z)) :
  sqs_try_except max_str_digits loads int_of_number record w
  = (Ok tt,
     mkWorld (trace w)
             (sqs_record max_str_digits loads int_of_number record (ext w))).
Proof.
  unfold sqs_try_except, sqs_try, sqs_record, try_except.
  unfold bind at 1. unfold step at 1. cbn [PyJson.subscript].
  destruct (record !! "body") as [[| b | l | text | items | fields] |];
    try (cbn; now rewrite world_eta).
  unfold bind at 1. unfold step at 1. cbn [loads_value].
  destruct (loads text) as [body |]; [| cbn; now rewrite world_eta].
  unfold bind at 1. unfold step at 1.
  destruct body as [| b | l | s | items | body]; cbn [PyJson.contains];
    try (cbn; now rewrite world_eta).
  - (* a str *)
    destruct (String.index 0 "tenant_id" s);
      [cbn; now rewrite world_eta |].
    unfold bind at 1. unfold step at 1. cbn [PyJson.contains].
    destruct (String.index 0 "Records" s); cbn; now rewrite world_eta.
  - (* a list *)
    destruct (existsb _ items); [cbn; now rewrite world_eta |].
    unfold bind at 1. unfold step at 1. cbn [PyJson.contains].
    destruct (existsb _ items); cbn; now rewrite world_eta.
  - (* a dict *)
    destruct (body !! "tenant_id") as [v |] eqn:Et.
    + unfold bind at 1. unfold step at 1. cbn [PyJson.subscript]. rewrite Et.
      unfold bind at 1. unfold step at 1.
      assert (int_value max_str_digits int_of_number v
              = match int_of_json max_str_digits int_of_number v with
                | Some n => Ok n
                | None => int_value max_str_digits int_of_number v
                end
              /\ (int_of_json max_str_digits int_of_number v = None ->
                  exists e, int_value max_str_digits int_of_number v = Raise e))
        as [Hv Hnone].
      { unfold int_value, int_of_json.
        destruct v as [| b | l | s | items | fs]; cbn;
          try (split; [reflexivity | intros _; eexists; reflexivity]).
        - split; [reflexivity | discriminate].
        - destruct (int_of_number l);
            (split; [reflexivity |]); [discriminate | eexists; reflexivity].
        - destruct (PyStr.int max_str_digits s);
            (split; [reflexivity |]); [discriminate | eexists; reflexivity]. }
      destruct (int_of_json max_str_digits int_of_number v) as [n |].
      * rewrite Hv. unfold bind at 1. unfold add_tenant, local. cbn [ext trace].
        unfold bind at 1. unfold step at 1. cbn [PyJson.subscript].
        destruct (record !! "messageId"); reflexivity.
      * destruct (Hnone eq_refl) as (e & ->). cbn. now rewrite world_eta.
    + unfold bind at 1. unfold step at 1. cbn [PyJson.contains].
      destruct (body !! "Records") as [v |] eqn:Er;
        [| cbn; now rewrite world_eta].
      unfold bind at 1. unfold step at 1. cbn [PyJson.subscript]. rewrite Er.
      unfold bind at 1. unfold step at 1.
      destruct (PyJson.iterate v) as [rs | e |] eqn:Ei.
      * destruct (wrapped_loop_run rs w) as (r & -> & Hr).
        destruct r as [[] | e |]; [reflexivity | reflexivity | congruence].
      * cbn. now rewrite world_eta.
      * destruct v; discriminate.
Qed.

Lemma handle_records_sqs (records : list json) :
  Forall is_sqs_record records ->
  forall ids, exists ids',
    handle_records max_str_digits loads int_of_number records ids = Ok ids'.
Proof.
  induction 1 as [| record rest (fields & -> & Hs) _ IH]; intros ids;
    cbn [handle_records].
  - exists ids. reflexivity.
  - unfold PyJson.source_is at 1. rewrite Hs.
    change ("aws:sqs" =? "aws:sqs")%string with true. cbv iota.
    apply IH.
Qed.

End LambdaFacts.

(** X23.  The handler survives any batch of SQS records.  Whatever an
    SQS record holds (no body, a body that is not text, text that is not
    JSON, JSON of any shape, a tenant id that is no number, no message
    id), the [try] statement of lines 36-57, run statement by statement
    with the exceptions of every subscript, conversion and iteration,
    ends normally: its handler catches whatever is raised, and the set
    of tenants is then the one the handler goes on with.  So for a batch
    of SQS records the handler returns status 200: a record it cannot
    read is skipped, not retried. *)
Theorem lambda_handler_survives_sqs (max_str_digits : N)
    (loads : string -> option json) (int_of_number : string -> option Z) :
  (forall (record : gmap string json) (w : world (gset Z)),
      sqs_try_except max_str_digits loads int_of_number record w
      = (Ok tt,
         mkWorld (trace w)
                 (sqs_record max_str_digits loads int_of_number record (ext w))))
  /\ (forall (event : gmap string json) (records : list json),
         event !! "Records" = Some (JArray records) ->
         Forall is_sqs_record records ->
         exists response,
           lambda_handler max_str_digits loads int_of_number event = Ok response
           /\ statusCode response = 200%Z).
Proof.
  split; [apply sqs_try_except_run |].
  intros event records He Hall. unfold lambda_handler. rewrite He.
  cbn [PyJson.iterate].
  destruct (handle_records_sqs max_str_digits loads int_of_number records Hall ∅)
    as (ids & ->).
  eexists. split; reflexivity.
Qed.

(** Two records the handler cannot read: the [try] ends normally on
    the second, and the batch gives status 200. *)
Lemma lambda_handler_survives_sqs_witness :
  exists response,
    lambda_handler 4300 (fun _ => None) (fun _ => None) broken_sqs_event
    = Ok response
    /\ statusCode response = 200%Z.
Proof.
  apply (proj2 (lambda_handler_survives_sqs 4300 (fun _ => None) (fun _ => None))
           broken_sqs_event
           [JObject {[ "eventSource" := JStr "aws:sqs" ]};
            JObject {[ "eventSource" := JStr "aws:sqs";
                       "body" := JStr "not json" ]}]).
  - reflexivity.
  - repeat constructor; eexists; split; reflexivity.
Defined.

(** X24.  Producer and consumer agree: the message body that
    [trigger_reindexing] enqueues, once [json.loads] has decoded it,
    makes the handler select exactly the tenant the message was sent
    for, whatever else the SQS record carries. *)
Theorem reindex_message_selects_tenant (max_str_digits : N)
    (loads : string -> option json) (int_of_number : string -> option Z)
    (tenant_id : Z) (fields : gmap string json) :
  loads (reindex_body tenant_id)
  = Some (JObject {[ "tenant_id" := JNumber (Py.str_of_int tenant_id) ]}) ->
  int_of_number (Py.str_of_int tenant_id) = Some tenant_id ->
  fields !! "eventSource" = Some (JStr "aws:sqs") ->
  fields !! "body" = Some (JStr (reindex_body tenant_id)) ->
  lambda_handler max_str_digits loads int_of_number
    {[ "Records" := JArray [JObject fields] ]}
  = Ok {| statusCode := 200;
          response_message := "Processed 1 tenants";
          tenants := {[ tenant_id ]} |}.
Proof.
  intros Hl Hi Hs Hb. unfold lambda_handler.
  rewrite lookup_singleton_eq. cbn [PyJson.iterate handle_records].
  unfold PyJson.source_is. rewrite Hs.
  change ("aws:sqs" =? "aws:sqs")%string with true. cbv iota.
  unfold sqs_record. rewrite Hb, Hl, lookup_singleton_eq.
  cbn [int_of_json]. rewrite Hi.
  rewrite (right_id_L ∅ (∪)), size_singleton. reflexivity.
Qed.

(** The message for tenant 7, decoded by a [json.loads] that knows
    that message. *)
Lemma reindex_message_selects_tenant_witness :
  lambda_handler 4300 (loads_reindex 7) (PyStr.int 4300)
    {[ "Records" :=
         JArray [JObject {[ "eventSource" := JStr "aws:sqs";
                            "body" := JStr (reindex_body 7);
                            "messageId" := JStr "m-1" ]}] ]}
  = Ok {| statusCode := 200;
          response_message := "Processed 1 tenants";
          tenants := {[ 7%Z ]} |}.
Proof.
  apply (reindex_message_selects_tenant 4300 (loads_reindex 7) (PyStr.int 4300) 7).
  - reflexivity.
  - reflexivity.
  - reflexivity.
  - reflexivity.
Defined.

(** X25.  An S3 notification for an object under a tenant's prefix
    [knowledge_base/<tenant_id>/] makes the handler select that tenant,
    unless the tenant id is 0: the handler tests the id for truth, so
    uploads of tenant 0 select nobody. *)
Theorem s3_event_selects_tenant (max_str_digits : N)
    (loads : string -> option json) (int_of_number : string -> option Z)
    (tenant_id : Z) (name : string) :
  within_digit_limit max_str_digits (Py.str_of_int tenant_id) ->
  exists response,
    lambda_handler max_str_digits loads int_of_number
      (s3_event (tenant_prefix tenant_id ++ name))
    = Ok response
    /\ statusCode response = 200%Z
    /\ tenants response = if (tenant_id =? 0)%Z then ∅ else {[ tenant_id ]}.
Proof.
  intros Hlim. unfold lambda_handler, s3_event.
  rewrite lookup_singleton_eq. cbn [PyJson.iterate handle_records].
  unfold PyJson.source_is.
  rewrite lookup_insert_eq.
  change ("aws:s3" =? "aws:sqs")%string with false.
  change ("aws:s3" =? "aws:s3")%string with true. cbv iota.
  unfold add_s3_tenant, s3_key_of, PyJson.subscript.
  rewrite lookup_insert_ne by discriminate.
  rewrite !lookup_singleton_eq.
  rewrite (extract_tenant_key max_str_digits tenant_id name Hlim).
  destruct (tenant_id =? 0)%Z.
  - eexists. repeat split.
  - eexists. split; [reflexivity |]. split; [reflexivity |].
    cbn [tenants]. apply (right_id_L ∅ (∪)).
Qed.

(** An upload of tenant 25, and one of tenant 0. *)
Lemma s3_event_selects_tenant_witness :
  (exists response,
      lambda_handler 4300 (fun _ => None) (fun _ => None)
        (s3_event (tenant_prefix 25 ++ "manual.pdf"))
      = Ok response
      /\ statusCode response = 200%Z
      /\ tenants response = if (25 =? 0)%Z then ∅ else {[ 25%Z ]})
  /\ (exists response,
         lambda_handler 4300 (fun _ => None) (fun _ => None)
           (s3_event (tenant_prefix 0 ++ "manual.pdf"))
         = Ok response
         /\ statusCode response = 200%Z
         /\ tenants response = if (0 =? 0)%Z then ∅ else {[ 0%Z ]}).
Proof.
  split.
  - apply (s3_event_selects_tenant 4300 (fun _ => None) (fun _ => None) 25
             "manual.pdf").
    right. vm_compute. discriminate.
  - apply (s3_event_selects_tenant 4300 (fun _ => None) (fun _ => None) 0
             "manual.pdf").
    right. vm_compute. discriminate.
Defined.

(* ================================================================== *)
(** * The most asked questions *)
(* ================================================================== *)

(** ** The counter *)

Lemma tally_counter_add (k k' : string) (c : list (string * nat)) :
  tally (counter_add k c) k'
  = if String.eqb k k' then S (tally c k') else tally c k'.
Proof.
  unfold tally.
  induction c as [| [k0 n] rest IH]; cbn [counter_add List.find fst snd].
  - destruct (String.eqb k k'); reflexivity.
  - destruct (String.eqb_spec k0 k) as [-> | Hne]; cbn [List.find fst snd].
    + destruct (String.eqb k k'); reflexivity.
    + destruct (String.eqb_spec k0 k') as [-> | Hne']; [| exact IH].
      destruct (String.eqb_spec k k'); [congruence | reflexivity].
Qed.

Lemma keys_counter_add (k k' : string) (c : list (string * nat)) :
  In k' (map fst (counter_add k c)) <-> k' = k \/ In k' (map fst c).
Proof.
  induction c as [| [k0 n] rest IH]; cbn [counter_add map fst In].
  - intuition congruence.
  - destruct (String.eqb_spec k0 k) as [-> | Hne]; cbn [map fst In].
    + intuition congruence.
    + rewrite IH. tauto.
Qed.

Lemma nodup_counter_add (k : string) (c : list (string * nat)) :
  List.NoDup (map fst c) -> List.NoDup (map fst (counter_add k c)).
Proof.
  induction c as [| [k0 n] rest IH]; cbn [counter_add map fst].
  - intros _. repeat constructor. intros [].
  - intros H. apply NoDup_cons_iff in H as [Hk0 Hrest].
    destruct (String.eqb_spec k0 k) as [-> | Hne]; cbn [map fst].
    + apply NoDup_cons_iff. split; assumption.
    + apply NoDup_cons_iff. split; [| exact (IH Hrest)].
      rewrite keys_counter_add. intros [E | Hin]; [congruence | tauto].
Qed.

Lemma In_tally (c : list (string * nat)) (k : string) (n : nat) :
  List.NoDup (map fst c) -> In (k, n) c -> tally c k = n.
Proof.
  unfold tally. induction c as [| [k0 n0] rest IH]; [intros _ [] |].
  cbn [map fst]. intros H Hin. apply NoDup_cons_iff in H as [Hk0 Hrest].
  cbn [List.find fst snd].
  destruct Hin as [[= -> ->] | Hin].
  - now rewrite String.eqb_refl.
  - destruct (String.eqb_spec k0 k) as [-> | Hne]; [| exact (IH Hrest Hin)].
    exfalso. apply Hk0. apply in_map_iff. exists (k, n). split; [reflexivity | exact Hin].
Qed.

Lemma counter_fold (keys : list string) :
  forall c,
    List.NoDup (map fst c) ->
    List.NoDup (map fst (fold_left (fun c k => counter_add k c) keys c))
    /\ (forall k,
           tally (fold_left (fun c k => counter_add k c) keys c) k
           = (tally c k + length (List.filter (fun x => String.eqb x k) keys))%nat)
    /\ (forall k,
           In k (map fst (fold_left (fun c k => counter_add k c) keys c))
           <-> In k (map fst c) \/ In k keys).
Proof.
  induction keys as [| k0 rest IH]; intros c Hc; cbn [fold_left].
  - split; [exact Hc |]. split; [intros k; cbn; lia | intros k; cbn; tauto].
  - destruct (IH (counter_add k0 c) (nodup_counter_add k0 c Hc))
      as (Hnd & Ht & Hk).
    split; [exact Hnd |]. split.
    + intros k. rewrite Ht, tally_counter_add. cbn [List.filter].
      destruct (String.eqb k0 k); cbn [length]; lia.
    + intros k. rewrite Hk, keys_counter_add. cbn [In].
      intuition congruence.
Qed.

(** ** The ranking *)

Lemma insert_by_count_perm (x : string * nat) (s : list (string * nat)) :
  Permutation (insert_by_count x s) (x :: s).
Proof.
  induction s as [| y rest IH]; cbn [insert_by_count]; [reflexivity |].
  destruct (snd y <? snd x)%nat; [reflexivity |].
  rewrite IH. apply perm_swap.
Qed.

Lemma by_count_fold_perm (c : list (string * nat)) :
  forall s, Permutation (fold_left (fun s x => insert_by_count x s) c s) (c ++ s).
Proof.
  induction c as [| x rest IH]; intros s; cbn [fold_left app]; [reflexivity |].
  rewrite IH, insert_by_count_perm. symmetry. apply Permutation_middle.
Qed.

Lemma by_count_perm (c : list (string * nat)) : Permutation (by_count c) c.
Proof.
  unfold by_count. rewrite by_count_fold_perm. now rewrite app_nil_r.
Qed.

Lemma descending_insert (x : string * nat) (s : list (string * nat)) :
  descending (map snd s) -> descending (map snd (insert_by_count x s)).
Proof.
  induction s as [| y rest IH]; cbn [insert_by_count map descending].
  - intros _. split; [constructor | exact I].
  - intros [Hall Hdesc].
    destruct (Nat.ltb_spec (snd y) (snd x)) as [Hlt | Hge];
      cbn [map descending].
    + split; [| split; assumption].
      constructor; [lia |].
      eapply List.Forall_impl; [| exact Hall]. cbv beta. intros; lia.
    + split; [| exact (IH Hdesc)].
      apply (Permutation_Forall
               (Permutation_map snd (Permutation_sym (insert_by_count_perm x rest)))).
      cbn [map]. constructor; [exact Hge | exact Hall].
Qed.

Lemma by_count_descending (c : list (string * nat)) :
  descending (map snd (by_count c)).
Proof.
  unfold by_count.
  assert (H : forall s, descending (map snd s) ->
                descending (map snd (fold_left (fun s x => insert_by_count x s) c s))).
  { induction c as [| x rest IH]; intros s Hs; cbn [fold_left]; [exact Hs |].
    apply IH, descending_insert, Hs. }
  apply H. exact I.
Qed.

Lemma descending_take (n : nat) (l : list nat) :
  descending l -> descending (take n l).
Proof.
  revert l. induction n as [| n IH]; intros [| x l]; cbn [take descending];
    try tauto.
  intros [Hall Hdesc]. split; [| exact (IH l Hdesc)].
  rewrite List.Forall_forall in *. intros y Hy. apply Hall.
  eapply In_take, Hy.
Qed.

Lemma descending_app (l1 l2 : list nat) (a b : nat) :
  descending (l1 ++ l2) -> In a l1 -> In b l2 -> b <= a.
Proof.
  induction l1 as [| x l1 IH]; [intros _ [] |].
  cbn [app descending]. intros [Hall Hdesc] [-> | Ha] Hb.
  - rewrite List.Forall_forall in Hall. apply Hall.
    apply in_or_app. now right.
  - exact (IH Hdesc Ha Hb).
Qed.

(** ** The items *)

Lemma question_items_In (contents : list string) (item : string * string) :
  In item (question_items contents)
  <-> In (fst item) contents
      /\ snd item = clean_query (fst item)
      /\ Py.truthy (snd item) = true.
Proof.
  unfold question_items. rewrite filter_In, in_map_iff. split.
  - intros [(c & <- & Hc) Ht]. cbn [fst snd] in *. auto.
  - intros (Hc & E & Ht). split; [| exact Ht].
    exists (fst item). split; [| exact Hc].
    destruct item as [c q]. cbn [fst snd] in *. now subst q.
Qed.

Lemma question_items_count (contents : list string) (q : string) :
  Py.truthy q = true ->
  length (List.filter (fun x => String.eqb x q)
                      (map snd (question_items contents)))
  = times_asked q contents.
Proof.
  intros Hq. unfold question_items, times_asked.
  induction contents as [| c rest IH]; [reflexivity |].
  cbn [map List.filter snd].
  destruct (Py.truthy (clean_query c)) eqn:Et; cbn [map List.filter snd].
  - destruct (String.eqb (clean_query c) q); cbn [length]; now rewrite IH.
  - destruct (String.eqb_spec (clean_query c) q) as [E | _]; [| exact IH].
    rewrite E in Et. congruence.
Qed.

Lemma first_original_found (contents : list string) (q : string) :
  In q (map snd (question_items contents)) ->
  In (first_original (question_items contents) q) contents
  /\ clean_query (first_original (question_items contents) q) = q.
Proof.
  intros Hq. unfold first_original.
  destruct (List.find (fun item => String.eqb (snd item) q)
                      (question_items contents)) as [item |] eqn:Ef.
  - apply find_some in Ef as [Hin E]. apply String.eqb_eq in E.
    apply question_items_In in Hin as (Hc & Hs & _).
    split; [exact Hc | congruence].
  - exfalso. apply in_map_iff in Hq as (item & E & Hin).
    pose proof (find_none _ _ Ef item Hin) as Hn. cbv beta in Hn.
    rewrite E, String.eqb_refl in Hn. discriminate.
Qed.

(** X26.  The report of [analyze_user_questions] is what it says.  It
    has at most [top_n] rows, each for a different cleaned question, in
    the order of falling counts.  The count of a row is the number of
    human messages that clean to its question, and is at least one; its
    example is one of those messages.  A question that was asked but is
    not in the report was asked at most as often as every question
    that is. *)
Theorem top_questions_report (top_n : Z) (contents : list string)
    (rows : list review_row) :
  top_questions top_n contents = Some rows ->
  length rows <= Z.to_nat top_n
  /\ List.NoDup (map cleaned_question rows)
  /\ descending (map row_count rows)
  /\ Forall (fun row =>
               row_count row = times_asked (cleaned_question row) contents
               /\ 1 <= row_count row
               /\ In (example_original_question row) contents
               /\ clean_query (example_original_question row)
                  = cleaned_question row)
            rows
  /\ forall c,
       In c contents ->
       Py.truthy (clean_query c) = true ->
       ~ In (clean_query c) (map cleaned_question rows) ->
       Forall (fun row => times_asked (clean_query c) contents <= row_count row)
              rows.
Proof.
  unfold top_questions.
  set (items := question_items contents).
  set (keys := map snd items).
  destruct (negb (nonempty items)); [discriminate |].
  intros [= <-].
  destruct (counter_fold keys [] (List.NoDup_nil _)) as (Hnd & Ht & Hk).
  fold (counter keys) in Hnd, Ht, Hk.
  pose proof (by_count_perm (counter keys)) as Hperm.
  assert (Hentry : forall q n, In (q, n) (by_count (counter keys)) ->
             In q keys /\ Py.truthy q = true /\ n = times_asked q contents).
  { intros q n Hin.
    apply (Permutation_in _ Hperm) in Hin.
    assert (Hq : In q keys).
    { apply (in_map fst) in Hin. apply Hk in Hin as [[] | Hin]. exact Hin. }
    assert (Htq : Py.truthy q = true).
    { apply in_map_iff in Hq as (item & <- & Hi).
      now apply question_items_In in Hi. }
    split; [exact Hq |]. split; [exact Htq |].
    rewrite <- (In_tally _ _ _ Hnd Hin), Ht.
    cbn [tally List.find]. cbn [plus]. apply question_items_count, Htq. }
  unfold most_common.
  set (sorted := by_count (counter keys)) in *.
  rewrite !map_map. cbn [row_count cleaned_question].
  rewrite length_map.
  split; [rewrite length_take; lia |].
  split.
  { change (fun x : string * nat => fst x) with (@fst string nat).
    rewrite <- firstn_map.
    assert (Hs : List.NoDup (map fst sorted)).
    { eapply Permutation_NoDup;
        [apply Permutation_map, Permutation_sym, Hperm | exact Hnd]. }
    rewrite <- (take_drop (Z.to_nat top_n) (map fst sorted)) in Hs.
    exact (NoDup_app_remove_r _ _ Hs). }
  split.
  { change (fun x : string * nat => snd x) with (@snd string nat).
    rewrite <- firstn_map. apply descending_take, by_count_descending. }
  split.
  { apply List.Forall_forall. intros row Hrow.
    apply in_map_iff in Hrow as ([q n] & <- & Hin).
    cbn [row_count cleaned_question example_original_question fst snd].
    apply In_take in Hin.
    destruct (Hentry q n Hin) as (Hq & Htq & Hn).
    destruct (first_original_found contents q Hq) as [Hex Hcl].
    split; [exact Hn |]. split; [| split; [exact Hex | exact Hcl]].
    subst n. rewrite <- (question_items_count contents q Htq).
    apply in_map_iff in Hq as (item & E & Hi).
    fold items. fold keys.
    assert (Hin' : In q (List.filter (fun x => String.eqb x q) keys)).
    { apply filter_In. split; [| apply String.eqb_refl].
      apply in_map_iff. exists item. split; assumption. }
    destruct (List.filter (fun x => String.eqb x q) keys); [destruct Hin' |].
    cbn [length]. lia. }
  intros c Hc Htc Hnot.
  apply List.Forall_forall. intros row Hrow.
  apply in_map_iff in Hrow as ([q n] & <- & Hin). cbn [row_count snd].
  assert (Hkey : In (clean_query c) keys).
  { apply in_map_iff. exists (c, clean_query c). split; [reflexivity |].
    apply question_items_In. cbn [fst snd]. auto. }
  assert (Hsorted : exists m, In (clean_query c, m) sorted).
  { assert (In (clean_query c) (map fst (counter keys))) as Hc0
        by (apply Hk; now right).
    apply in_map_iff in Hc0 as ([q0 m] & E & Hin0). cbn [fst] in E. subst q0.
    exists m. apply (Permutation_in _ (Permutation_sym Hperm)). exact Hin0. }
  destruct Hsorted as (m & Hm).
  destruct (Hentry _ _ Hm) as (_ & _ & ->).
  rewrite <- (take_drop (Z.to_nat top_n) sorted) in Hm.
  apply in_app_or in Hm as [Hm | Hm].
  - exfalso. apply Hnot. apply in_map_iff.
    exists (clean_query c, times_asked (clean_query c) contents).
    split; [reflexivity | exact Hm].
  - pose proof (by_count_descending (counter keys)) as Hdesc.
    fold sorted in Hdesc.
    rewrite <- (take_drop (Z.to_nat top_n) sorted), map_app in Hdesc.
    apply (descending_app _ _ n _ Hdesc).
    + apply in_map_iff. exists (q, n). split; [reflexivity | exact Hin].
    + apply in_map_iff.
      exists (clean_query c, times_asked (clean_query c) contents).
      split; [reflexivity | exact Hm].
Qed.

(** Seven messages, the two most asked questions. *)
Lemma top_questions_report_witness :
  let rows :=
    [{| row_count := 3; cleaned_question := "price";
        example_original_question := "Price?" |};
     {| row_count := 2; cleaned_question := "hours";
        example_original_question := "hours" |}] in
  top_questions 2 seven_questions = Some rows
  /\ length rows <= Z.to_nat 2
  /\ List.NoDup (map cleaned_question rows)
  /\ descending (map row_count rows)
  /\ Forall (fun row =>
               row_count row = times_asked (cleaned_question row) seven_questions
               /\ 1 <= row_count row
               /\ In (example_original_question row) seven_questions
               /\ clean_query (example_original_question row)
                  = cleaned_question row)
            rows
  /\ forall c,
       In c seven_questions ->
       Py.truthy (clean_query c) = true ->
       ~ In (clean_query c) (map cleaned_question rows) ->
       Forall (fun row =>
                 times_asked (clean_query c) seven_questions <= row_count row)
              rows.
Proof.
  cbv zeta. split; [vm_compute; reflexivity |].
  apply (top_questions_report 2 seven_questions).
  vm_compute. reflexivity.
Defined.

(* ================================================================== *)
(** * The messages of a reply *)
(* ================================================================== *)






